(** * tokendito / okta.py: a shallow embedding and its verified properties

    The development follows [src/tokendito/okta.py].  Python values are
    modelled as the code has them:

    - a [str] is a Rocq [string] holding the text's UTF-8 bytes, so that
      [s.encode("utf-8")] is the list of its bytes and substring tests
      ([a in b]) are byte-wise substring tests;
    - a [bytes] object is a [list ascii] (one [ascii] per octet);
    - parsed JSON is the inductive [json], objects being finite maps from
      keys to values;
    - effects (HTTP calls, prompts, printing, sleeping, randomness, the
      configuration objects that are passed by reference) go through one
      state-and-error monad [M] over a [World]. *)

From Stdlib Require Import ZArith NArith List Ascii String Bool Lia.
From stdpp Require Import base option list gmap strings pretty fin_maps.

Import ListNotations.
Local Set Warnings "-register-all".
Local Open Scope string_scope.
Local Open Scope Z_scope.

(* ===================================================================== *)
(** * 1. Python results                                                   *)
(* ===================================================================== *)

(** The built-in exceptions that the modelled code can raise. *)
Inductive pyexn : Type :=
  | KeyError (key : string)      (* the key, as [str] shows it *)
  | TypeError
  | AttributeError
  | IndexError
  | ValueError
  | UnboundLocalError
  | UnicodeEncodeError
  | UnicodeDecodeError
  | BinasciiError.

(** A pure Python expression either has a value or raises. *)
Inductive result (A : Type) : Type :=
  | Val (a : A)
  | Exn (e : pyexn).
Arguments Val {A} a.
Arguments Exn {A} e.

Definition rbind {A B} (r : result A) (k : A -> result B) : result B :=
  match r with
  | Val a => k a
  | Exn e => Exn e
  end.

(* ===================================================================== *)
(** * 2. Bytes, characters and text                                       *)
(* ===================================================================== *)

Module Text.

Definition code (c : ascii) : N := N_of_ascii c.

Definition between (lo hi : N) (c : ascii) : bool :=
  ((lo <=? code c) && (code c <=? hi))%N.

Definition is_upper : ascii -> bool := between 65 90.
Definition is_lower : ascii -> bool := between 97 122.
Definition is_digit : ascii -> bool := between 48 57.

(** The character class [[a-zA-Z0-9]]. *)
Definition is_alnum (c : ascii) : bool :=
  is_lower c || is_upper c || is_digit c.

(** The unreserved characters of a URL (RFC 3986, section 2.3). *)
Definition is_url_safe (c : ascii) : bool :=
  is_alnum c || Ascii.eqb c "-" || Ascii.eqb c "_"
  || Ascii.eqb c "." || Ascii.eqb c "~".

Fixpoint filter (p : ascii -> bool) (s : string) : string :=
  match s with
  | EmptyString => EmptyString
  | String c r => if p c then String c (filter p r) else filter p r
  end.

Fixpoint all (p : ascii -> bool) (s : string) : bool :=
  match s with
  | EmptyString => true
  | String c r => p c && all p r
  end.

Fixpoint count (p : ascii -> bool) (s : string) : nat :=
  match s with
  | EmptyString => O
  | String c r => (if p c then 1 else 0) + count p r
  end.

Fixpoint is_prefix (p s : string) : bool :=
  match p, s with
  | EmptyString, _ => true
  | String a p', String b s' => Ascii.eqb a b && is_prefix p' s'
  | String _ _, EmptyString => false
  end.

(** [needle in hay] for two [str] operands. *)
Fixpoint contains (needle hay : string) : bool :=
  is_prefix needle hay ||
  match hay with
  | EmptyString => false
  | String _ hay' => contains needle hay'
  end.

(** [s.replace(c, "")] for a one-character [c]. *)
Definition remove_char (c : ascii) (s : string) : string :=
  filter (fun x => negb (Ascii.eqb x c)) s.

(** [re.sub("[^a-zA-Z0-9]+", "", s)]: every maximal run of characters
    outside the class is replaced by the empty string, which deletes
    exactly the characters outside the class. *)
Definition re_sub_non_alnum (s : string) : string := filter is_alnum s.

Definition of_bytes (b : list ascii) : string := string_of_list_ascii b.
Definition to_bytes (s : string) : list ascii := list_ascii_of_string s.

(** [s.encode("utf-8")]: the text is held as its UTF-8 bytes. *)
Definition encode_utf8 (s : string) : list ascii := to_bytes s.

(** [s.encode("ascii")] raises on any character above U+007F, that is on
    any byte of the UTF-8 form with its high bit set. *)
Definition encode_ascii (s : string) : result (list ascii) :=
  if all (fun c => (code c <? 128)%N) s then Val (to_bytes s)
  else Exn UnicodeEncodeError.

(** Well-formed UTF-8 byte sequences (Unicode 15, table 3-7); this is
    what the strict decoder of [bytes.decode("utf-8")] accepts. *)
Definition cont (lo hi : N) (c : ascii) : bool := between lo hi c.

Fixpoint utf8_valid (b : list ascii) : bool :=
  match b with
  | [] => true
  | c :: r =>
    let n := code c in
    if (n <? 128)%N then utf8_valid r
    else if between 194 223 c then
      match r with
      | c1 :: r => cont 128 191 c1 && utf8_valid r
      | _ => false
      end
    else if between 224 239 c then
      match r with
      | c1 :: c2 :: r =>
        (if (n =? 224)%N then cont 160 191 c1
         else if (n =? 237)%N then cont 128 159 c1
         else cont 128 191 c1)
        && cont 128 191 c2 && utf8_valid r
      | _ => false
      end
    else if between 240 244 c then
      match r with
      | c1 :: c2 :: c3 :: r =>
        (if (n =? 240)%N then cont 144 191 c1
         else if (n =? 244)%N then cont 128 143 c1
         else cont 128 191 c1)
        && cont 128 191 c2 && cont 128 191 c3 && utf8_valid r
      | _ => false
      end
    else false
  end.

(** [b.decode("utf-8")]. *)
Definition decode_utf8 (b : list ascii) : result string :=
  if utf8_valid b then Val (of_bytes b)
  else Exn UnicodeDecodeError.

End Text.

(* ===================================================================== *)
(** * 3. The standard-library codecs the module calls                     *)
(* ===================================================================== *)

(** ** [base64]: RFC 4648 encoding, as [base64.b64encode] and
    [base64.urlsafe_b64encode] produce it. *)
Module Base64.

(** The standard alphabet, by sextet value. *)
Definition digit (n : N) : ascii :=
  if (n <? 26)%N then ascii_of_N (65 + n)
  else if (n <? 52)%N then ascii_of_N (97 + (n - 26))
  else if (n <? 62)%N then ascii_of_N (48 + (n - 52))
  else if (n =? 62)%N then "+"%char
  else "/"%char.

Definition pad : ascii := "="%char.

(** [b64encode]: three octets give four digits; a final group of one or
    two octets is zero-extended and padded with [=]. *)
Fixpoint b64encode (b : list ascii) : list ascii :=
  match b with
  | [] => []
  | [x] =>
    let n := Text.code x in
    [digit (n / 4); digit ((n mod 4) * 16); pad; pad]
  | [x; y] =>
    let n := Text.code x in
    let m := Text.code y in
    [digit (n / 4); digit ((n mod 4) * 16 + m / 16);
     digit ((m mod 16) * 4); pad]
  | x :: y :: z :: rest =>
    let n := Text.code x in
    let m := Text.code y in
    let k := Text.code z in
    digit (n / 4) :: digit ((n mod 4) * 16 + m / 16)
      :: digit ((m mod 16) * 4 + k / 64) :: digit (k mod 64)
      :: b64encode rest
  end.

(** The translation table of the URL-safe variant: [+] to [-] and [/]
    to [_]. *)
Definition urlsafe_translate (c : ascii) : ascii :=
  if Ascii.eqb c "+" then "-"%char
  else if Ascii.eqb c "/" then "_"%char
  else c.

Definition urlsafe_b64encode (b : list ascii) : list ascii :=
  map urlsafe_translate (b64encode b).

(** The encoder that never emits padding (RFC 4648, section 3.2): the
    reading of "URL-safe base64, unpadded" that the design document
    uses for the PKCE challenge. *)
Fixpoint urlsafe_unpadded (b : list ascii) : list ascii :=
  match b with
  | [] => []
  | [x] =>
    let n := Text.code x in
    map urlsafe_translate [digit (n / 4); digit ((n mod 4) * 16)]
  | [x; y] =>
    let n := Text.code x in
    let m := Text.code y in
    map urlsafe_translate
      [digit (n / 4); digit ((n mod 4) * 16 + m / 16);
       digit ((m mod 16) * 4)]
  | x :: y :: z :: rest =>
    let n := Text.code x in
    let m := Text.code y in
    let k := Text.code z in
    map urlsafe_translate
      [digit (n / 4); digit ((n mod 4) * 16 + m / 16);
       digit ((m mod 16) * 4 + k / 64); digit (k mod 64)]
    ++ urlsafe_unpadded rest
  end.

(** *** Decoding: [codecs.decode(b, "base64")], which is
    [binascii.a2b_base64] in its default, lenient mode. *)

(** The sextet of a digit of the standard alphabet. *)
Definition value (c : ascii) : option N :=
  let n := Text.code c in
  if Text.is_upper c then Some (n - 65)%N
  else if Text.is_lower c then Some (n - 97 + 26)%N
  else if Text.is_digit c then Some (n - 48 + 52)%N
  else if Ascii.eqb c "+" then Some 62%N
  else if Ascii.eqb c "/" then Some 63%N
  else None.

(** The decoder (CPython 3.11, lenient mode) walks the input once.
    [quad] is the position in the current group of four digits, [left]
    the bits carried over from the previous digit, [pads] the run of
    [=] counted since the last digit.  Characters outside the alphabet
    are skipped; padding that completes the current group ends the
    decoding and what follows it is ignored; an incomplete group at the
    end of the input is an error. *)
Fixpoint a2b_loop (inp : list ascii) (quad left pads : N)
  : result (list ascii) :=
  match inp with
  | [] => if (quad =? 0)%N then Val [] else Exn BinasciiError
  | c :: rest =>
    if Ascii.eqb c pad then
      if (2 <=? quad)%N then
        if (4 <=? quad + (pads + 1))%N then Val []
        else a2b_loop rest quad left (pads + 1)
      else a2b_loop rest quad left pads
    else
      match value c with
      | None => a2b_loop rest quad left pads
      | Some v =>
        if (quad =? 0)%N then a2b_loop rest 1 v 0
        else if (quad =? 1)%N then
          rbind (a2b_loop rest 2 (v mod 16) 0)
                (fun tl => Val (ascii_of_N (left * 4 + v / 16) :: tl))
        else if (quad =? 2)%N then
          rbind (a2b_loop rest 3 (v mod 4) 0)
                (fun tl => Val (ascii_of_N (left * 16 + v / 4) :: tl))
        else
          rbind (a2b_loop rest 0 0 0)
                (fun tl => Val (ascii_of_N (left * 64 + v) :: tl))
      end
  end.

Definition a2b_base64 (b : list ascii) : result (list ascii) :=
  a2b_loop b 0 0 0.

End Base64.

(** ** [hashlib.sha256]: SHA-256 as FIPS 180-4 defines it, on 32-bit words
    held in [Z] with the wrap-around written out. *)
Module SHA256.

Definition wrap (x : Z) : Z := x mod 2 ^ 32.
Definition add (x y : Z) : Z := wrap (x + y).
Definition rotr (n x : Z) : Z :=
  Z.lor (Z.shiftr x n) (wrap (Z.shiftl x (32 - n))).
Definition shr (n x : Z) : Z := Z.shiftr x n.
Definition lnot32 (x : Z) : Z := Z.lxor x 4294967295.

Definition Ch (x y z : Z) : Z :=
  Z.lxor (Z.land x y) (Z.land (lnot32 x) z).
Definition Maj (x y z : Z) : Z :=
  Z.lxor (Z.lxor (Z.land x y) (Z.land x z)) (Z.land y z).
Definition Sum0 (x : Z) : Z :=
  Z.lxor (Z.lxor (rotr 2 x) (rotr 13 x)) (rotr 22 x).
Definition Sum1 (x : Z) : Z :=
  Z.lxor (Z.lxor (rotr 6 x) (rotr 11 x)) (rotr 25 x).
Definition sig0 (x : Z) : Z :=
  Z.lxor (Z.lxor (rotr 7 x) (rotr 18 x)) (shr 3 x).
Definition sig1 (x : Z) : Z :=
  Z.lxor (Z.lxor (rotr 17 x) (rotr 19 x)) (shr 10 x).

Definition K : list Z :=
  [ 1116352408; 1899447441; 3049323471; 3921009573;
    961987163; 1508970993; 2453635748; 2870763221;
    3624381080; 310598401; 607225278; 1426881987;
    1925078388; 2162078206; 2614888103; 3248222580;
    3835390401; 4022224774; 264347078; 604807628;
    770255983; 1249150122; 1555081692; 1996064986;
    2554220882; 2821834349; 2952996808; 3210313671;
    3336571891; 3584528711; 113926993; 338241895;
    666307205; 773529912; 1294757372; 1396182291;
    1695183700; 1986661051; 2177026350; 2456956037;
    2730485921; 2820302411; 3259730800; 3345764771;
    3516065817; 3600352804; 4094571909; 275423344;
    430227734; 506948616; 659060556; 883997877;
    958139571; 1322822218; 1537002063; 1747873779;
    1955562222; 2024104815; 2227730452; 2361852424;
    2428436474; 2756734187; 3204031479; 3329325298 ].

(** The eight working variables / the intermediate hash value. *)
Record state : Type := State {
  ha : Z; hb : Z; hc : Z; hd : Z; he : Z; hf : Z; hg : Z; hh : Z
}.

Definition H0 : state :=
  State 1779033703 3144134277 1013904242 2773480762
        1359893119 2600822924 528734635 1541459225.

(** Padding: one [0x80] octet, zeros up to 56 modulo 64, and the bit
    length as a 64-bit big-endian integer. *)
Definition be_bytes (width : nat) (x : Z) : list ascii :=
  map (fun i => ascii_of_N (Z.to_N (Z.shiftr x (8 * Z.of_nat i) mod 256)))
      (rev (seq 0 width)).

Definition padding (msg : list ascii) : list ascii :=
  let len := Z.of_nat (List.length msg) in
  let zeros := Z.to_nat ((55 - len) mod 64) in
  msg ++ [ascii_of_N 128] ++ repeat (ascii_of_N 0) zeros
      ++ be_bytes 8 (8 * len).

Definition be_word (b : list ascii) : Z :=
  fold_left (fun acc c => acc * 256 + Z.of_N (Text.code c)) b 0.

(** Cut a list into consecutive pieces of [n] elements ([fuel] bounds
    the number of pieces). *)
Fixpoint chunks {A} (fuel n : nat) (l : list A) : list (list A) :=
  match fuel with
  | O => []
  | S fuel =>
    match l with
    | [] => []
    | _ => take n l :: chunks fuel n (drop n l)
    end
  end.

Definition words (block : list ascii) : list Z :=
  map be_word (chunks 16 4 block).

(** The message schedule is kept as a window of the sixteen most recent
    words: its head is [W t], and [W (t+16)] is appended as the window
    slides. *)
Definition slide (w : list Z) : list Z :=
  let nxt := add (add (sig1 (nth 14 w 0)) (nth 9 w 0))
                 (add (sig0 (nth 1 w 0)) (nth 0 w 0)) in
  tl w ++ [nxt].

Definition round (s : state) (k w : Z) : state :=
  let t1 := add (add (add (add (hh s) (Sum1 (he s)))
                          (Ch (he s) (hf s) (hg s))) k) w in
  let t2 := add (Sum0 (ha s)) (Maj (ha s) (hb s) (hc s)) in
  State (add t1 t2) (ha s) (hb s) (hc s)
        (add (hd s) t1) (he s) (hf s) (hg s).

Fixpoint rounds (ks : list Z) (w : list Z) (s : state) : state :=
  match ks with
  | [] => s
  | k :: ks => rounds ks (slide w) (round s k (nth 0 w 0))
  end.

Definition compress (s : state) (block : list ascii) : state :=
  let r := rounds K (words block) s in
  State (add (ha s) (ha r)) (add (hb s) (hb r))
        (add (hc s) (hc r)) (add (hd s) (hd r))
        (add (he s) (he r)) (add (hf s) (hf r))
        (add (hg s) (hg r)) (add (hh s) (hh r)).

Definition digest_of (s : state) : list ascii :=
  be_bytes 4 (ha s) ++ be_bytes 4 (hb s) ++ be_bytes 4 (hc s)
  ++ be_bytes 4 (hd s) ++ be_bytes 4 (he s) ++ be_bytes 4 (hf s)
  ++ be_bytes 4 (hg s) ++ be_bytes 4 (hh s).

(** [hashlib.sha256(msg).digest()]. *)
Definition sha256 (msg : list ascii) : list ascii :=
  let p := padding msg in
  digest_of (fold_left compress (chunks (List.length p) 64 p) H0).

Definition hex_digit (n : N) : ascii :=
  if (n <? 10)%N then ascii_of_N (48 + n) else ascii_of_N (87 + n).

(** [hashlib.sha256(msg).hexdigest()]. *)
Definition hexdigest (msg : list ascii) : string :=
  Text.of_bytes
    (flat_map (fun c => [hex_digit (Text.code c / 16);
                         hex_digit (Text.code c mod 16)])
              (sha256 msg)).

End SHA256.

(* ===================================================================== *)
(** * 4. JSON values and the Python operations applied to them            *)
(* ===================================================================== *)

(** What [json.loads] returns.  Numbers are kept as integers: the module
    never computes with them, it only tests them for truth. *)
Inductive json : Type :=
  | JNull
  | JBool (b : bool)
  | JNum (n : Z)
  | JStr (s : string)
  | JList (l : list json)
  | JDict (d : gmap string json).

Module Py.

(** [v == s] for a string literal [s]. *)
Definition eq_str (v : json) (s : string) : bool :=
  match v with
  | JStr t => String.eqb t s
  | _ => false
  end.

(** [bool(v)], the test behind [if v:]. *)
Definition truthy (v : json) : bool :=
  match v with
  | JNull => false
  | JBool b => b
  | JNum n => negb (n =? 0)
  | JStr s => negb (String.eqb s "")
  | JList l => match l with [] => false | _ => true end
  | JDict d => negb (bool_decide (d = ∅))
  end.

Definition has_key (d : gmap string json) (k : string) : bool :=
  bool_decide (is_Some (d !! k)).

(** [k in v] with a string [k]: a key test on an object, a membership
    test on an array, a substring test on a string, a [TypeError] on
    anything that is not a container. *)
Definition contains (k : string) (v : json) : result bool :=
  match v with
  | JDict d => Val (has_key d k)
  | JList l => Val (existsb (fun x => eq_str x k) l)
  | JStr s => Val (Text.contains k s)
  | _ => Exn TypeError
  end.

(** [v[k]] with a string [k]. *)
Definition getitem (v : json) (k : string) : result json :=
  match v with
  | JDict d =>
    match d !! k with
    | Some x => Val x
    | None => Exn (KeyError k)
    end
  | _ => Exn TypeError
  end.

(** [v.get(k, default)]; only objects have the method. *)
Definition get (v : json) (k : string) (dflt : json) : result json :=
  match v with
  | JDict d => Val (default dflt (d !! k))
  | _ => Exn AttributeError
  end.

(** The first character of a text: one to four octets of UTF-8. *)
Definition first_char (s : string) : string :=
  match s with
  | EmptyString => EmptyString
  | String c _ =>
    let n := Text.code c in
    let k := if (n <? 192)%N then 1%nat
             else if (n <? 224)%N then 2%nat
             else if (n <? 240)%N then 3%nat else 4%nat in
    Text.of_bytes (take k (Text.to_bytes s))
  end.

(** [v[i]] with an integer [i]; a negative [i] counts from the end of
    an array. *)
Definition index (v : json) (i : Z) : result json :=
  match v with
  | JList l =>
    let n := Z.of_nat (List.length l) in
    let j := if i <? 0 then n + i else i in
    if (0 <=? j) && (j <? n)
    then match l !! Z.to_nat j with
         | Some x => Val x
         | None => Exn IndexError
         end
    else Exn IndexError
  | JDict _ => Exn (KeyError (pretty i))
  | JStr s =>
    if (i =? 0) && negb (String.eqb s "") then Val (JStr (first_char s))
    else Exn IndexError
  | _ => Exn TypeError
  end.

(** [for x in v]: the elements of an array, the keys of an object, the
    characters of a string. *)
Definition iterate (v : json) : result (list json) :=
  match v with
  | JList l => Val l
  | JDict d => Val (map (fun kv => JStr (fst kv)) (map_to_list d))
  | JStr s => Val (map (fun c => JStr (String c EmptyString))
                       (Text.to_bytes s))
  | _ => Exn TypeError
  end.

(** [str(v)], as an f-string interpolates a value; [repr] stands for
    the interpreter's rendering of arrays and objects. *)
Definition str_of (repr : json -> string) (v : json) : string :=
  match v with
  | JStr s => s
  | JNull => "None"
  | JBool true => "True"
  | JBool false => "False"
  | JNum n => pretty n
  | _ => repr v
  end.

End Py.

(* ===================================================================== *)
(** * 5. The world outside the module                                     *)
(* ===================================================================== *)

(** ** Data exchanged with the collaborators *)

(** A [requests] response, by the attributes the module reads. *)
Record Response : Type := {
  text : string;                 (* [response.text] *)
  body : option json;            (* [response.json()]; [None]: not JSON *)
  jar : gmap string string;      (* [response.cookies] *)
  final_url : string             (* [response.url] *)
}.

Inductive verb : Type := GET | POST.

(** The keyword through which a payload is handed to the transport. *)
Inductive content : Type :=
  | NoContent
  | Params (d : gmap string json)       (* [params=] *)
  | Form (d : gmap string json)         (* [data=] *)
  | Json (d : gmap string json).        (* [json=] *)

Record Request : Type := {
  method : verb;
  target : string;
  headers : gmap string string;
  payload : content
}.

(** The [okta] section of the configuration object, by the keys the
    module reads or writes. *)
Record Config : Type := {
  org : string;
  username : string;
  password : string;
  mfa : option string;
  mfa_response : option string;
  oauth_client_id : option string
}.

Definition set_org (v : string) (c : Config) : Config :=
  {| org := v; username := username c; password := password c;
     mfa := mfa c; mfa_response := mfa_response c;
     oauth_client_id := oauth_client_id c |}.

Definition set_mfa_response (v : option string) (c : Config) : Config :=
  {| org := org c; username := username c; password := password c;
     mfa := mfa c; mfa_response := v;
     oauth_client_id := oauth_client_id c |}.

Definition set_oauth_client_id (v : option string) (c : Config) : Config :=
  {| org := org c; username := username c; password := password c;
     mfa := mfa c; mfa_response := mfa_response c;
     oauth_client_id := v |}.

(** Configuration objects are passed by reference: a [loc] names one. *)
Definition loc : Type := nat.

(** What [logger.error] reports; the names are those of the design
    document where it has one, the comment quotes the logged text. *)
Inductive error : Type :=
  | MalformedResponse        (* Failed to parse type/pipeline in ... *)
  | UnsupportedPipeline      (* unsupported auth pipeline version ... *)
  | DiscoveryParseError      (* Failed to parse authentication type ... *)
  | UnknownAuthStatus        (* Okta auth failed: unknown status ... *)
  | InvalidOAuth2Config      (* No ... found in oauth2 configuration. *)
  | UnsupportedGrantType     (* Authorization code grant not found. *)
  | UnsupportedResponseType  (* Code response type not found. *)
  | NoGrantTypes             (* No grant types supported on ... *)
  | AuthorizationDenied      (* oath2 callback error: ... *)
  | MissingSessionId         (* 'id' not found in response. ... *)
  | UnknownIdentityType      (* Okta auth failed: unknown type. *)
  | UnsupportedIdpDiscovery  (* ... login via IdP Discovery is not ... *)
  | UnsupportedMfaProvider   (* Sorry, the MFA provider ... *)
  | MfaVerificationFailed    (* Could not verify MFA Challenge with ... *)
  | AmbiguousMfaSelector     (* ... is not unique in ... *)
  | MalformedFactorList      (* There was a wrong response structure ... *)
  | PushRejected             (* The Okta Verify push has been denied. *)
  | PushTimeout              (* Device approval window has expired. *)
  | UnsupportedPushOutcome   (* Push response type ... not implemented. *)
  | TransportFailure.        (* reported by the transport itself *)

(** What [user.print] shows. *)
Inductive message : Type :=
  | WaitingForApproval              (* Waiting for an approval from ... *)
  | NumberChallenge (answer : json) (* Number Challenge response is ... *).

(** Everything the module does to the outside, in order. *)
Inductive event : Type :=
  | Sent (r : Request)
  | CookiesSet (c : option (gmap string string))
  | Printed (m : message)
  | Slept (seconds : Z)
  | Masked (v : json)
  | Logged (e : error)
  | CookiesRequested (url : string) (session_token : json)
  | DuoPosted (callback : string) (p : gmap string json).

(** Modelled from the spec: the collaborators of its section 6 (transport,
    DUO, interactive prompts, masking, configuration), which live in
    modules outside [okta.py].  The world holds what they will answer, the
    configuration objects and the trace so far.  Each list is consumed
    from its head. *)
Record World : Type := {
  replies : list Response;      (* answers of the transport *)
  typed : list string;          (* answers to [user.get_input] *)
  picked : list Z;              (* [user.select_preferred_mfa_index] *)
  entropy : list ascii;         (* octets of [os.urandom] *)
  uuids : list string;          (* values of [str(uuid.uuid4())] *)
  wrapped : list (gmap string string);  (* [user.request_cookies] *)
  duo_challenges :
    list (gmap string json * gmap string string * string);
  heap : gmap loc Config;
  trace : list event
}.

(** ** The monad *)

Inductive failure : Type :=
  | SysExit (status : Z)        (* [sys.exit(status)] *)
  | Raised (e : pyexn)          (* an exception nobody catches *)
  | Exhausted                   (* a collaborator has no answer left *)
  | OutOfFuel.                  (* the bound on loops and recursion *)

Inductive outcome (A : Type) : Type :=
  | Done (a : A)
  | Fail (f : failure).
Arguments Done {A} a.
Arguments Fail {A} f.

Definition M (A : Type) : Type := World -> outcome A * World.

Definition ret {A} (a : A) : M A := fun w => (Done a, w).

Definition bind {A B} (m : M A) (k : A -> M B) : M B :=
  fun w =>
    match m w with
    | (Done a, w') => k a w'
    | (Fail f, w') => (Fail f, w')
    end.

Definition fail {A} (f : failure) : M A := fun w => (Fail f, w).

#[global] Instance M_ret : MRet M := @ret.
#[global] Instance M_bind : MBind M := fun A B k m => bind m k.

(** ** Primitive steps *)

Definition raise {A} (e : pyexn) : M A := fail (Raised e).

(** [sys.exit(status)]. *)
Definition sys_exit {A} (status : Z) : M A := fail (SysExit status).

Definition lift {A} (r : result A) : M A :=
  match r with
  | Val a => ret a
  | Exn e => raise e
  end.

Definition with_trace (t : list event) (w : World) : World :=
  {| replies := replies w; typed := typed w; picked := picked w;
     entropy := entropy w; uuids := uuids w; wrapped := wrapped w;
     duo_challenges := duo_challenges w; heap := heap w; trace := t |}.

Definition with_replies (r : list Response) (w : World) : World :=
  {| replies := r; typed := typed w; picked := picked w;
     entropy := entropy w; uuids := uuids w; wrapped := wrapped w;
     duo_challenges := duo_challenges w; heap := heap w;
     trace := trace w |}.

Definition with_typed (r : list string) (w : World) : World :=
  {| replies := replies w; typed := r; picked := picked w;
     entropy := entropy w; uuids := uuids w; wrapped := wrapped w;
     duo_challenges := duo_challenges w; heap := heap w;
     trace := trace w |}.

Definition with_picked (r : list Z) (w : World) : World :=
  {| replies := replies w; typed := typed w; picked := r;
     entropy := entropy w; uuids := uuids w; wrapped := wrapped w;
     duo_challenges := duo_challenges w; heap := heap w;
     trace := trace w |}.

Definition with_entropy (r : list ascii) (w : World) : World :=
  {| replies := replies w; typed := typed w; picked := picked w;
     entropy := r; uuids := uuids w; wrapped := wrapped w;
     duo_challenges := duo_challenges w; heap := heap w;
     trace := trace w |}.

Definition with_uuids (r : list string) (w : World) : World :=
  {| replies := replies w; typed := typed w; picked := picked w;
     entropy := entropy w; uuids := r; wrapped := wrapped w;
     duo_challenges := duo_challenges w; heap := heap w;
     trace := trace w |}.

Definition with_wrapped (r : list (gmap string string)) (w : World)
  : World :=
  {| replies := replies w; typed := typed w; picked := picked w;
     entropy := entropy w; uuids := uuids w; wrapped := r;
     duo_challenges := duo_challenges w; heap := heap w;
     trace := trace w |}.

Definition with_duo
  (r : list (gmap string json * gmap string string * string))
  (w : World) : World :=
  {| replies := replies w; typed := typed w; picked := picked w;
     entropy := entropy w; uuids := uuids w; wrapped := wrapped w;
     duo_challenges := r; heap := heap w; trace := trace w |}.

Definition with_heap (h : gmap loc Config) (w : World) : World :=
  {| replies := replies w; typed := typed w; picked := picked w;
     entropy := entropy w; uuids := uuids w; wrapped := wrapped w;
     duo_challenges := duo_challenges w; heap := h; trace := trace w |}.

(** Record one event at the end of the trace. *)
Definition emit (e : event) : M unit :=
  fun w => (Done tt, with_trace (trace w ++ [e]) w).

Definition logger_error (e : error) : M unit := emit (Logged e).

(** The pair [logger.error(...); sys.exit(status)]. *)
Definition die {A} (status : Z) (e : error) : M A :=
  logger_error e ;; sys_exit status.

(** Take the next answer of a collaborator. *)
Definition next {A} (get : World -> list A)
  (set : list A -> World -> World) : M A :=
  fun w =>
    match get w with
    | a :: rest => (Done a, set rest w)
    | [] => (Fail Exhausted, w)
    end.

(** Modelled from the spec: the transport collaborator
    ([HTTP_client.get] and [HTTP_client.post], of [http_client.py]): the
    request goes out, the transport's next answer comes back. *)
Definition send (r : Request) : M Response :=
  emit (Sent r) ;; next replies with_replies.

Definition HTTP_get (url : string) (hd : gmap string string)
  (c : content) : M Response :=
  send {| method := GET; target := url; headers := hd; payload := c |}.

Definition HTTP_post (url : string) (hd : gmap string string)
  (c : content) : M Response :=
  send {| method := POST; target := url; headers := hd; payload := c |}.

(** Modelled from the spec: [HTTP_client.post(..., return_json=True)]
    gives the decoded body; a body that is not JSON is the transport's
    failure and ends the attempt. *)
Definition HTTP_post_json (url : string) (hd : gmap string string)
  (c : content) : M json :=
  r ← HTTP_post url hd c;
  match body r with
  | Some j => ret j
  | None => die 1 TransportFailure
  end.

(** [response.json()]. *)
Definition response_json (r : Response) : result json :=
  match body r with
  | Some j => Val j
  | None => Exn ValueError
  end.

(** Modelled from the spec: [HTTP_client.set_cookies] replaces the
    cookies of the transport's session. *)
Definition HTTP_set_cookies (c : option (gmap string string)) : M unit :=
  emit (CookiesSet c).

(** Modelled from the spec: the interactive collaborators of [user.py]:
    [user.print] notifies, [user.get_input] prompts for a text,
    [user.select_preferred_mfa_index] prompts for a choice. *)
Definition user_print (m : message) : M unit := emit (Printed m).

(** [time.sleep(seconds)]. *)
Definition time_sleep (seconds : Z) : M unit := emit (Slept seconds).

(** Modelled from the spec: the masking collaborator
    ([user.add_sensitive_value_to_be_masked]), fire and forget. *)
Definition mask (v : json) : M unit := emit (Masked v).

Definition user_get_input : M string := next typed with_typed.

Definition select_preferred_mfa_index : M Z := next picked with_picked.

Definition uuid4 : M string := next uuids with_uuids.

(** Modelled from the spec: [user.request_cookies(org, token)] gives the
    session cookies the collaborator wraps the token into. *)
Definition request_cookies (url : string) (session_token : json)
  : M (gmap string string) :=
  emit (CookiesRequested url session_token) ;;
  next wrapped with_wrapped.

(** Modelled from the spec: the DUO collaborator; [duo.authenticate_duo]
    gives payload, headers and callback URL, [duo.duo_api_post] submits
    the challenge. *)
Definition authenticate_duo
  : M (gmap string json * gmap string string * string) :=
  next duo_challenges with_duo.

Definition duo_api_post (callback : string) (p : gmap string json)
  : M unit :=
  emit (DuoPosted callback p).

(** [os.urandom(n)]. *)
Definition os_urandom (n : nat) : M (list ascii) :=
  fun w =>
    if decide (n ≤ List.length (entropy w))%nat
    then (Done (take n (entropy w)), with_entropy (drop n (entropy w)) w)
    else (Fail Exhausted, w).

(** Reading and writing a configuration object through its reference. *)
Definition config_get {A} (l : loc) (field : Config -> A) : M A :=
  fun w =>
    match heap w !! l with
    | Some c => (Done (field c), w)
    | None => (Fail (Raised AttributeError), w)
    end.

Definition config_set (l : loc) (upd : Config -> Config) : M unit :=
  fun w =>
    match heap w !! l with
    | Some c => (Done tt, with_heap (<[l := upd c]> (heap w)) w)
    | None => (Fail (Raised AttributeError), w)
    end.

(** [deepcopy(config)]: a new object with the same contents. *)
Definition deepcopy (l : loc) : M loc :=
  fun w =>
    match heap w !! l with
    | Some c =>
      let l' := fresh (dom (heap w)) in
      (Done l', with_heap (<[l' := c]> (heap w)) w)
    | None => (Fail (Raised AttributeError), w)
    end.

(** [try: m except (handled): h]. *)
Definition try_except {A} (m : M A) (handled : pyexn -> bool)
  (h : pyexn -> M A) : M A :=
  fun w =>
    match m w with
    | (Fail (Raised e), w') =>
      if handled e then h e w' else (Fail (Raised e), w')
    | r => r
    end.

Definition is_KeyError (e : pyexn) : bool :=
  match e with KeyError _ => true | _ => false end.
Definition is_ValueError (e : pyexn) : bool :=
  match e with ValueError => true | _ => false end.
Definition is_TypeError (e : pyexn) : bool :=
  match e with TypeError => true | _ => false end.
Definition is_AttributeError (e : pyexn) : bool :=
  match e with AttributeError => true | _ => false end.

Definition opt_json (o : option string) : json :=
  match o with
  | Some s => JStr s
  | None => JNull
  end.

(* ===================================================================== *)
(** * 6. The regular expressions of the module                            *)
(* ===================================================================== *)

Module Re.

Fixpoint skip (n : nat) (s : string) : string :=
  match n, s with
  | O, _ => s
  | S n, String _ r => skip n r
  | S _, EmptyString => EmptyString
  end.

(** The longest prefix of [s] without the character [c]. *)
Fixpoint until (c : ascii) (s : string) : string :=
  match s with
  | EmptyString => EmptyString
  | String x r =>
    if Ascii.eqb x c then EmptyString else String x (until c r)
  end.

(** [re.search(r"(?<=key)[^&]+", s)]: the leftmost place that follows
    an occurrence of [key] and holds a character other than [&]; the
    match runs up to the next [&].  [None] when there is no match. *)
Fixpoint search_after (key s : string) : option string :=
  match s with
  | EmptyString => None
  | String _ r =>
    let here :=
      if Text.is_prefix key s then
        match until "&" (skip (String.length key) s) with
        | EmptyString => None
        | m => Some m
        end
      else None in
    match here with
    | Some m => Some m
    | None => search_after key r
    end
  end.

(** The part of [s] before its last occurrence of [';]. *)
Fixpoint before_last_close (s : string) : option string :=
  match s with
  | EmptyString => None
  | String c r =>
    match before_last_close r with
    | Some t => Some (String c t)
    | None => if Text.is_prefix "';" s then Some EmptyString else None
    end
  end.

Definition newline : ascii := ascii_of_N 10.

(** The search for the state-token pattern: the text [var stateToken =]
    and an opening quote, a named group that is a greedy run of any
    characters but newline, then a closing quote and a semicolon.  The
    result is the named group: at the leftmost occurrence of the opening
    text that has a closing [';] on the same line, the greedy run
    reaches the last such closing. *)
Fixpoint search_state_token (s : string) : option string :=
  match s with
  | EmptyString => None
  | String _ r =>
    let opening := "var stateToken = '" in
    let here :=
      if Text.is_prefix opening s then
        before_last_close
          (until newline (skip (String.length opening) s))
      else None in
    match here with
    | Some m => Some m
    | None => search_state_token r
    end
  end.

End Re.

(* ===================================================================== *)
(** * 7. Collaborators that are pure functions                            *)
(* ===================================================================== *)

(** A [bs4.element.Tag], by what the module reads of it. *)
Record Tag : Type := {
  tag_name : string;
  tag_attrs : gmap string string;
  tag_string : option string;      (* [tag.string] *)
  tag_text : string                (* [tag.text] *)
}.

(** Modelled from the spec: the HTML parser ([BeautifulSoup(html,
    "html.parser")], giving the document's tags in document order), the
    origin of a URL ([user.get_base_url]), the [unicode-escape] codec and
    the interpreter's [repr] are taken as given. *)
Record Env : Type := {
  BeautifulSoup : string -> list Tag;
  get_base_url : json -> result string;
  unicode_escape : string -> result string;
  repr : json -> string
}.

(** [soup.find(name, attrs={key: value})]: the first tag of that name
    carrying the attribute with that value. *)
Definition soup_find (soup : list Tag) (name key value : string)
  : option Tag :=
  List.find (fun t => String.eqb (tag_name t) name
                 && bool_decide (tag_attrs t !! key = Some value)) soup.

(** [soup.find("script", text=pattern)] for the state-token pattern: the
    first script tag whose [.string] the pattern matches. *)
Definition soup_find_state_script (soup : list Tag) : option Tag :=
  List.find (fun t => String.eqb (tag_name t) "script"
                 && match tag_string t with
                    | Some s => bool_decide
                                  (is_Some (Re.search_state_token s))
                    | None => false
                    end) soup.

(** [str(elem.get(key))]. *)
Definition attr_str (t : Tag) (key : string) : string :=
  match tag_attrs t !! key with
  | Some v => v
  | None => "None"
  end.

(* ===================================================================== *)
(** * 8. The module, function by function                                 *)
(* ===================================================================== *)

(** A dict literal. *)
Definition dict {A} (l : list (string * A)) : gmap string A :=
  list_to_map l.

(** A URL handed to the transport must be a string; anything else is
    refused by the transport, which ends the attempt. *)
Definition as_url (v : json) : M string :=
  match v with
  | JStr s => ret s
  | _ => die 1 TransportFailure
  end.

Definition _status_dict : gmap string string :=
  dict [ ("E0000004", "Authentication failed");
         ("E0000047",
          "API call exceeded rate limit due to too many requests");
         ("PASSWORD_EXPIRED", "Your password has expired");
         ("LOCKED_OUT", "Your account is locked out") ].

Section Program.

Context (env : Env).

Definition str_of : json -> string := Py.str_of (repr env).

(** ** Status messages *)

Definition api_error_code_parser (status : json) : result string :=
  let fallback :=
    Val ("Okta auth failed: " +:+ str_of status
         +:+ ". Please verify your settings and try again.") in
  if Py.truthy status then
    match status with
    | JStr s =>
      match _status_dict !! s with
      | Some m => Val ("Okta auth failed: " +:+ m)
      | None => fallback
      end
    | JList _ | JDict _ => Exn TypeError      (* unhashable *)
    | _ => fallback
    end
  else fallback.

(** ** Pipeline and identity discovery *)

Definition get_auth_pipeline (url : string) : M json :=
  let hd := dict [("accept", "application/json")] in
  let url := url +:+ "/.well-known/okta-organization" in
  response ← HTTP_get url hd NoContent;
  response_json ←
    try_except (lift (response_json response))
      (fun e => is_KeyError e || is_ValueError e)
      (fun _ => die 1 MalformedResponse);
  auth_pipeline ←
    try_except (lift (Py.get response_json "pipeline" JNull))
      (fun e => is_KeyError e || is_ValueError e)
      (fun _ => die 1 MalformedResponse);
  if negb (Py.eq_str auth_pipeline "idx")
     && negb (Py.eq_str auth_pipeline "v1")
  then die 1 UnsupportedPipeline
  else ret auth_pipeline.

Record AuthProperties : Type := {
  ap_metadata : json;
  ap_type : json;
  ap_id : json
}.

Definition get_auth_properties (userid url : string)
  : M AuthProperties :=
  let payload := dict [ ("resource", JStr ("okta:acct:" +:+ userid));
                        ("rel", JStr "okta:idp") ] in
  let hd := dict [("accept", "application/jrd+json")] in
  let url := url +:+ "/.well-known/webfinger" in
  response ← HTTP_get url hd (Params payload);
  ret_ ←
    try_except
      (lift (rbind (response_json response) (fun j =>
             rbind (Py.getitem j "links") (fun links =>
             rbind (Py.index links 0) (fun link =>
             Py.getitem link "properties")))))
      (fun e => is_KeyError e || is_ValueError e)
      (fun _ => die 1 DiscoveryParseError);
  metadata ← lift (Py.get ret_ "okta:idp:metadata" JNull);
  type ← lift (Py.get ret_ "okta:idp:type" JNull);
  id ← lift (Py.get ret_ "okta:idp:id" JNull);
  ret {| ap_metadata := metadata; ap_type := type; ap_id := id |}.

(** ** Extraction from HTML *)

(** The shared body of [extract_saml_response] and
    [extract_saml_request]: the value of the named input, decoded
    unless [raw]; the decoding is attempted in both cases. *)
Definition extract_saml (field html : string) (raw : bool)
  : result (option string) :=
  let soup := BeautifulSoup env html in
  match soup_find soup "input" "name" field with
  | Some elem =>
    let saml_base64 := attr_str elem "value" in
    rbind (Text.encode_ascii saml_base64) (fun ascii_bytes =>
    rbind (Base64.a2b_base64 ascii_bytes) (fun decoded =>
    rbind (Text.decode_utf8 decoded) (fun xml =>
    Val (Some (if raw then saml_base64 else xml)))))
  | None => Val None
  end.

Definition extract_saml_response (html : string) (raw : bool)
  : result (option string) :=
  extract_saml "SAMLResponse" html raw.

Definition extract_saml_request (html : string) (raw : bool)
  : result (option string) :=
  extract_saml "SAMLRequest" html raw.

Definition extract_form_post_url (html : string) : option string :=
  let soup := BeautifulSoup env html in
  match soup_find soup "form" "id" "appForm" with
  | Some elem => Some (attr_str elem "action")
  | None => None
  end.

Definition extract_saml_relaystate (html : string) : option string :=
  let soup := BeautifulSoup env html in
  match soup_find soup "input" "name" "RelayState" with
  | Some elem => Some (attr_str elem "value")
  | None => None
  end.

Definition extract_state_token (html : string)
  : result (option string) :=
  let soup := BeautifulSoup env html in
  match soup_find_state_script soup with
  | Some script =>
    match Re.search_state_token (tag_text script) with
    | Some encoded_token =>
      rbind (unicode_escape env encoded_token) (fun t => Val (Some t))
    | None => Val None
    end
  | None => Val None
  end.

(** [if v:] for a value that is a string or [None]. *)
Definition nonempty (o : option string) : bool :=
  Py.truthy (opt_json o).

(** ** Multi-factor authentication *)

(** [response.get("_embedded", {}).get("factor", {})
    .get("_embedded", {}).get("challenge", {})
    .get("correctAnswer", None)]. *)
Definition correct_answer (response : json) : result json :=
  rbind (Py.get response "_embedded" (JDict ∅)) (fun a =>
  rbind (Py.get a "factor" (JDict ∅)) (fun b =>
  rbind (Py.get b "_embedded" (JDict ∅)) (fun c =>
  rbind (Py.get c "challenge" (JDict ∅)) (fun d =>
  Py.get d "correctAnswer" JNull)))).

(** The variables of the polling loop of [push_approval]. *)
Record Poll : Type := {
  status : json;
  result_ : json;
  response_ : json;
  challenge_displayed : bool
}.

Definition waiting (p : Poll) : bool :=
  Py.eq_str (status p) "MFA_CHALLENGE"
  && Py.eq_str (result_ p) "WAITING".

(** One pass through the body of the [while] loop. *)
Definition poll_once (mfa_challenge_url : json)
  (payload : gmap string json) (hd : gmap string string)
  (p : Poll) : M Poll :=
  url ← as_url mfa_challenge_url;
  response ← HTTP_post_json url hd (Json payload);
  has ← lift (Py.contains "sessionToken" response);
  (if has : bool
   then tok ← lift (Py.getitem response "sessionToken"); mask tok
   else ret tt) ;;
  status ← lift (Py.get response "status" (JStr "UNKNOWN"));
  result ← lift (Py.get response "factorResult" (JStr "UNKNOWN"));
  answer ← lift (correct_answer response);
  displayed ←
    (if Py.truthy answer && negb (challenge_displayed p)
     then user_print (NumberChallenge answer) ;; ret true
     else ret (challenge_displayed p));
  time_sleep 1 ;;
  ret {| status := status; result_ := result; response_ := response;
         challenge_displayed := displayed |}.

(** The [while] loop; [fuel] bounds the number of passes. *)
Fixpoint poll (fuel : nat) (mfa_challenge_url : json)
  (payload : gmap string json) (hd : gmap string string)
  (p : Poll) : M Poll :=
  if waiting p then
    match fuel with
    | O => fail OutOfFuel
    | S fuel =>
      p' ← poll_once mfa_challenge_url payload hd p;
      poll fuel mfa_challenge_url payload hd p'
    end
  else ret p.

(** Each pass consumes one answer of the transport, so one pass more
    than there are answers left is fuel enough. *)
Definition push_approval (mfa_challenge_url : json)
  (payload : gmap string json) : M json :=
  user_print WaitingForApproval ;;
  let start := {| status := JStr "MFA_CHALLENGE";
                  result_ := JStr "WAITING";
                  response_ := JDict ∅;
                  challenge_displayed := false |} in
  let hd := dict [ ("content-type", "application/json");
                   ("accept", "application/json") ] in
  p ← (fun w => poll (S (List.length (replies w)))
                     mfa_challenge_url payload hd start w);
  has ← (if Py.eq_str (status p) "SUCCESS"
         then lift (Py.contains "sessionToken" (response_ p))
         else ret false);
  if has : bool then ret (response_ p)
  else if Py.eq_str (result_ p) "REJECTED" then die 2 PushRejected
  else if Py.eq_str (result_ p) "TIMEOUT" then die 2 PushTimeout
  else die 2 UnsupportedPushOutcome.

Definition totp_approval (config : loc) (selected_mfa_option : json)
  (hd : gmap string string) (mfa_challenge_url : json)
  (payload : gmap string json) (primary_auth : json) : M json :=
  _ ← lift (Py.getitem selected_mfa_option "factorType");
  preset ← config_get config mfa_response;
  match preset with
  | None =>
    code ← user_get_input;
    config_set config (set_mfa_response (Some code)) ;;
    mask (JStr code)
  | Some _ => ret tt
  end ;;
  state_token ← lift (Py.getitem primary_auth "stateToken");
  pass_code ← config_get config mfa_response;
  let payload := dict [ ("stateToken", state_token);
                        ("passCode", opt_json pass_code) ] in
  url ← as_url mfa_challenge_url;
  mfa_verify ← HTTP_post_json url hd (Json payload);
  has ← lift (Py.contains "sessionToken" mfa_verify);
  (if has : bool
   then tok ← lift (Py.getitem mfa_verify "sessionToken"); mask tok
   else ret tt) ;;
  ret mfa_verify.

(** The tail of [mfa_provider_type], after the dispatch: the session
    token is read from the verification response. *)
Definition session_token_of (mfa_provider primary_auth mfa_verify : json)
  : M json :=
  has ← lift (Py.contains "sessionToken" mfa_verify);
  (if negb has
   then _ ← lift (Py.getitem primary_auth "factorType");
        logger_error MfaVerificationFailed
   else ret tt) ;;
  lift (Py.getitem mfa_verify "sessionToken").

Definition mfa_provider_type (config : loc)
  (mfa_provider selected_factor mfa_challenge_url primary_auth
     selected_mfa_option : json)
  (hd : gmap string string) (payload : gmap string json) : M json :=
  factor_type ←
    lift (rbind (Py.get selected_factor "_embedded" (JDict ∅)) (fun a =>
          rbind (Py.get a "factor" (JDict ∅)) (fun b =>
          Py.get b "factorType" JNull)));
  mfa_verify ←
    (if Py.eq_str mfa_provider "DUO" then
       '(payload, hd, callback_url) ← authenticate_duo;
       duo_api_post callback_url payload ;;
       url ← as_url mfa_challenge_url;
       HTTP_post_json url hd (Json payload)
     else if Py.eq_str mfa_provider "OKTA"
             && Py.eq_str factor_type "push" then
       push_approval mfa_challenge_url payload
     else if (Py.eq_str mfa_provider "OKTA"
              || Py.eq_str mfa_provider "GOOGLE")
             && (Py.eq_str factor_type "token:software:totp"
                 || Py.eq_str factor_type "sms") then
       totp_approval config selected_mfa_option hd mfa_challenge_url
                     payload primary_auth
     else die 1 UnsupportedMfaProvider);
  session_token_of mfa_provider primary_auth mfa_verify.

(** [enumerate(l)]. *)
Definition enumerate {A} (l : list A) : list (Z * A) :=
  combine (map Z.of_nat (seq 0 (List.length l))) l.

(** [[i for i, elem in enumerate(available_mfas) if preset_mfa in elem]]. *)
Definition matching_indices (preset_mfa : string)
  (available_mfas : list string) : list Z :=
  map fst (List.filter (fun ie => Text.contains preset_mfa (snd ie))
                       (enumerate available_mfas)).

Definition mfa_index (preset_mfa : option string)
  (available_mfas : list string) (mfa_options : json) : M Z :=
  let indices :=
    match preset_mfa with
    | Some p => if nonempty preset_mfa
                then matching_indices p available_mfas else []
    | None => []
    end in
  match indices with
  | [] => select_preferred_mfa_index
  | [i] => ret i
  | _ => die 1 AmbiguousMfaSelector
  end.

(** [f"{d['provider']}_{d['factorType']}_{d['id']}"]. *)
Definition factor_label (d : json) : result string :=
  rbind (Py.getitem d "provider") (fun provider =>
  rbind (Py.getitem d "factorType") (fun factor_type =>
  rbind (Py.getitem d "id") (fun id =>
  Val (str_of provider +:+ "_" +:+ str_of factor_type
       +:+ "_" +:+ str_of id)))).

(** A list comprehension whose element expression can raise. *)
Fixpoint comprehension {A B} (f : A -> result B) (l : list A)
  : result (list B) :=
  match l with
  | [] => Val []
  | a :: l =>
    rbind (f a) (fun b =>
    rbind (comprehension f l) (fun bs => Val (b :: bs)))
  end.

Definition mfa_challenge (config : loc) (hd : gmap string string)
  (primary_auth : json) : M json :=
  mfa_options ←
    try_except
      (lift (rbind (Py.getitem primary_auth "_embedded")
                   (fun e => Py.getitem e "factors")))
      is_KeyError
      (fun _ => die 1 MalformedFactorList);
  preset_mfa ← config_get config mfa;
  factors ← lift (Py.iterate mfa_options);
  available_mfas ← lift (comprehension factor_label factors);
  index ← mfa_index preset_mfa available_mfas mfa_options;
  selected_mfa_option ← lift (Py.index mfa_options index);
  mfa_challenge_url ←
    lift (rbind (Py.getitem selected_mfa_option "_links") (fun l =>
          rbind (Py.getitem l "verify") (fun v =>
          Py.getitem v "href")));
  state_token ← lift (Py.getitem primary_auth "stateToken");
  factor_type ← lift (Py.getitem selected_mfa_option "factorType");
  provider ← lift (Py.getitem selected_mfa_option "provider");
  profile ← lift (Py.getitem selected_mfa_option "profile");
  let payload := dict [ ("stateToken", state_token);
                        ("factorType", factor_type);
                        ("provider", provider);
                        ("profile", profile) ] in
  url ← as_url mfa_challenge_url;
  selected_factor ← HTTP_post_json url hd (Json payload);
  mfa_provider ←
    lift (rbind (Py.getitem selected_factor "_embedded") (fun e =>
          rbind (Py.getitem e "factor") (fun f =>
          Py.getitem f "provider")));
  mfa_provider_type config mfa_provider selected_factor
    mfa_challenge_url primary_auth selected_mfa_option hd payload.

(** ** Primary authentication *)

Definition get_session_token (config : loc) (primary_auth : json)
  (hd : gmap string string) : M json :=
  status ←
    match Py.get primary_auth "status" JNull with
    | Val s => ret s
    | Exn AttributeError => raise UnboundLocalError
    | Exn e => raise e
    end;
  success ← (if Py.eq_str status "SUCCESS"
             then lift (Py.contains "sessionToken" primary_auth)
             else ret false);
  session_token ←
    (if success : bool then
       lift (Py.get primary_auth "sessionToken" JNull)
     else if Py.eq_str status "MFA_REQUIRED" then
       mfa_challenge config hd primary_auth
     else die 1 UnknownAuthStatus);
  mask session_token ;;
  ret session_token.

(** [while session_token is None: session_token = get_session_token(...)]
    with [fuel] bounding the number of passes. *)
Fixpoint until_session_token (fuel : nat) (config : loc)
  (primary_auth : json) (hd : gmap string string)
  (session_token : json) : M json :=
  match session_token with
  | JNull =>
    match fuel with
    | O => fail OutOfFuel
    | S fuel =>
      t ← get_session_token config primary_auth hd;
      until_session_token fuel config primary_auth hd t
    end
  | t => ret t
  end.

Definition user_authenticate (fuel : nat) (config : loc) : M json :=
  let hd := dict [ ("content-type", "application/json");
                   ("accept", "application/json") ] in
  username ← config_get config username;
  password ← config_get config password;
  let payload := dict [ ("username", JStr username);
                        ("password", JStr password) ] in
  org ← config_get config org;
  primary_auth ← HTTP_post_json (org +:+ "/api/v1/authn") hd
                                (Json payload);
  has_error ← lift (Py.contains "errorCode" primary_auth);
  (if has_error : bool then
     code ← lift (Py.getitem primary_auth "errorCode");
     _ ← lift (api_error_code_parser code);
     sys_exit 1
   else ret tt) ;;
  until_session_token fuel config primary_auth hd JNull.

(** ** OAuth2: the authorization-code flow with PKCE *)

Definition get_client_id (config : loc) : M (option string) :=
  current ← config_get config oauth_client_id;
  match current with
  | None =>
    u ← uuid4;
    config_set config (set_oauth_client_id (Some ("okta." +:+ u)))
  | Some _ => ret tt
  end ;;
  config_get config oauth_client_id.

Definition get_redirect_uri (config : loc) : M string :=
  org ← config_get config org;
  ret (org +:+ "/enduser/callback").

Definition get_response_type : string := "code".

Definition get_authorize_scope : string :=
  "openid profile email okta.users.read.self okta.users.manage.self "
  +:+ "okta.internal.enduser.read okta.internal.enduser.manage "
  +:+ "okta.enduser.dashboard.read okta.enduser.dashboard.manage".

Definition get_oauth2_state : M string :=
  seed ← os_urandom 1024;
  ret (SHA256.hexdigest seed).

Definition get_pkce_code_challenge_method : string := "S256".

Definition get_pkce_code_challenge (code_verifier : string)
  : result string :=
  let code_challenge := SHA256.sha256 (Text.encode_utf8 code_verifier) in
  rbind (Text.decode_utf8 (Base64.urlsafe_b64encode code_challenge))
        (fun code_challenge =>
  Val (Text.remove_char "=" code_challenge)).

(** The verifier computed from the forty random octets. *)
Definition code_verifier_of (random : list ascii) : result string :=
  rbind (Text.decode_utf8 (Base64.urlsafe_b64encode random))
        (fun code_verifier =>
  Val (Text.re_sub_non_alnum code_verifier)).

Definition get_pkce_code_verifier : M string :=
  random ← os_urandom 40;
  lift (code_verifier_of random).

Definition pkce_enabled : bool := true.

(** [authz_code_flow_data]; the three PKCE entries exist only once they
    have been stored. *)
Record FlowData : Type := {
  client_id : option string;
  redirect_uri : string;
  response_type : string;
  scope : string;
  state : string;
  authz_endpoint_url : json;
  token_endpoint_url : json;
  grant_type : string;
  code_verifier : option string;
  code_challenge : option string;
  code_challenge_method : option string
}.

(** [d[key]] on an entry that may not have been stored. *)
Definition entry (key : string) (o : option string) : result json :=
  match o with
  | Some v => Val (JStr v)
  | None => Exn (KeyError key)
  end.

Definition get_authorize_code (response : Response)
  (payload : gmap string json) : M (option string) :=
  let callback_url := final_url response in
  let error_code := Re.search_after "error=" callback_url in
  let error_desc := Re.search_after "error_description=" callback_url in
  match error_code with
  | Some _ =>
    match error_desc with
    | Some _ => die 1 AuthorizationDenied
    | None => raise AttributeError
    end
  | None =>
    let authorize_code := Re.search_after "code=" callback_url in
    match Re.search_after "state=" callback_url with
    | None => raise AttributeError
    | Some _ => ret authorize_code
    end
  end.

Definition oauth2_authorize_request (config : loc) (d : FlowData)
  (session_cookies : option (gmap string string))
  : M (option string) :=
  let hd := dict [ ("accept", "application/json");
                   ("content-type", "application/json") ] in
  let session_token :=
    match session_cookies with
    | Some c => c !! "session_token"
    | None => None
    end in
  code_challenge ← lift (entry "code_challenge" (code_challenge d));
  method ← lift (entry "code_challenge_method"
                       (code_challenge_method d));
  let payload :=
    dict [ ("client_id", opt_json (client_id d));
           ("redirect_uri", JStr (redirect_uri d));
           ("response_type", JStr (response_type d));
           ("sessionToken", opt_json session_token);
           ("scope", JStr (scope d));
           ("state", JStr (state d));
           ("code_challenge", code_challenge);
           ("code_challenge_method", method);
           ("prompt", JStr "none") ] in
  url ← as_url (authz_endpoint_url d);
  response ← HTTP_get url hd (Params payload);
  get_authorize_code response payload.

Definition get_oauth2_token (config : loc) (d : FlowData)
  (authorize_code : option string) : M json :=
  code_verifier ← lift (entry "code_verifier" (code_verifier d));
  let payload :=
    dict [ ("code", opt_json authorize_code);
           ("state", JStr (state d));
           ("grant_type", JStr (grant_type d));
           ("redirect_uri", JStr (redirect_uri d));
           ("client_id", opt_json (client_id d));
           ("code_verifier", code_verifier) ] in
  let hd := dict [("accept", "application/json")] in
  url ← as_url (token_endpoint_url d);
  HTTP_post_json url hd (Form payload).

Definition authorization_code_flow (config : loc) (oauth2_config : json)
  (session_cookies : option (gmap string string)) : M json :=
  cid ← get_client_id config;
  uri ← get_redirect_uri config;
  st ← get_oauth2_state;
  authz ← lift (Py.getitem oauth2_config "authorization_endpoint");
  token ← lift (Py.getitem oauth2_config "token_endpoint");
  let d := {| client_id := cid; redirect_uri := uri;
              response_type := get_response_type;
              scope := get_authorize_scope; state := st;
              authz_endpoint_url := authz; token_endpoint_url := token;
              grant_type := "authorization_code";
              code_verifier := None; code_challenge := None;
              code_challenge_method := None |} in
  d ← (if pkce_enabled then
         verifier ← get_pkce_code_verifier;
         challenge ← lift (get_pkce_code_challenge verifier);
         ret {| client_id := client_id d;
                redirect_uri := redirect_uri d;
                response_type := response_type d;
                scope := scope d; state := state d;
                authz_endpoint_url := authz_endpoint_url d;
                token_endpoint_url := token_endpoint_url d;
                grant_type := grant_type d;
                code_verifier := Some verifier;
                code_challenge := Some challenge;
                code_challenge_method :=
                  Some get_pkce_code_challenge_method |}
       else ret d);
  authorize_code ← oauth2_authorize_request config d session_cookies;
  authz_token ← get_oauth2_token config d authorize_code;
  mask authz_token ;;
  ret authz_token.

Definition authorization_code_enabled (org_url : string)
  (oauth2_config : json) : M bool :=
  try_except
    (grants ← lift (Py.getitem oauth2_config "grant_types_supported");
     found ← lift (Py.contains "authorization_code" grants);
     ret found)
    (fun e => is_KeyError e || is_ValueError e)
    (fun _ => die 1 NoGrantTypes).

Definition mandadory_oauth2_config_items : list string :=
  [ "authorization_endpoint"; "token_endpoint";
    "grant_types_supported"; "response_types_supported";
    "scopes_supported" ].

(** The loop over the mandatory items.  The items form a set, whose
    iteration order is not fixed; the order only decides which missing
    item the message names, and the message is not part of [error]. *)
Fixpoint check_items (items : list string) (oauth2_config : json)
  : M unit :=
  match items with
  | [] => ret tt
  | item :: items =>
    found ← lift (Py.contains item oauth2_config);
    if found : bool then check_items items oauth2_config
    else die 1 InvalidOAuth2Config
  end.

Definition validate_oauth2_configuration (oauth2_config : json)
  : M unit :=
  check_items mandadory_oauth2_config_items oauth2_config ;;
  grants ← lift (Py.getitem oauth2_config "grant_types_supported");
  has_grant ← lift (Py.contains "authorization_code" grants);
  (if has_grant : bool then ret tt else die 1 UnsupportedGrantType) ;;
  types ← lift (Py.getitem oauth2_config "response_types_supported");
  has_code ← lift (Py.contains "code" types);
  if has_code : bool then ret tt else die 1 UnsupportedResponseType.

Definition get_oauth2_configuration (url : string) : M json :=
  let url := url +:+ "/.well-known/oauth-authorization-server" in
  let hd := dict [("accept", "application/json")] in
  response ← HTTP_get url hd NoContent;
  _ ← lift (response_json response);
  oauth2_config ← lift (response_json response);
  validate_oauth2_configuration oauth2_config ;;
  ret oauth2_config.

Definition oauth2_authorize (config : loc)
  (session_cookies : option (gmap string string))
  : M (option (gmap string string)) :=
  url ← config_get config org;
  oauth2_config ← get_oauth2_configuration url;
  org_url ← config_get config org;
  enabled ← authorization_code_enabled org_url oauth2_config;
  (if enabled : bool then
     _ ← authorization_code_flow config oauth2_config session_cookies;
     ret tt
   else ret tt) ;;
  ret session_cookies.

(** ** Functions that nothing calls

    The source defines four more functions that are called from nowhere;
    they are given for completeness. *)

Definition extract_authz_code (response_text : string) : result string :=
  match Re.search_after "code=" response_text with
  | Some authz_code => Val authz_code
  | None => Exn AttributeError
  end.

Definition get_idx_cookies (cookies : gmap string string)
  : option string :=
  cookies !! "idx".

Definition create_sid_cookies (authn_org_url : string)
  (session_token : json) : M (option (gmap string string)) :=
  let url := authn_org_url +:+ "/api/v1/sessions" in
  let data := dict [("sessionToken", session_token)] in
  let hd := dict [ ("Content-Type", "application/json");
                   ("accept", "application/json") ] in
  response_json ← HTTP_post_json url hd (Json data);
  has_id ← lift (Py.contains "id" response_json);
  (if has_id : bool then ret tt else die 1 MissingSessionId) ;;
  session_id ← lift (Py.getitem response_json "id");
  ret None.

(** The dict literal of this function calls [oauth2_config(config)], and
    a dict is not callable: if the two entries before it are there, the
    function raises [TypeError]. *)
Definition set_oauth2_redirect_params_cookies (config : loc)
  (url : string) : M unit :=
  oauth2_config ← get_oauth2_configuration url;
  _ ← lift (Py.getitem oauth2_config "response_type");
  _ ← lift (Py.getitem oauth2_config "state");
  raise TypeError.

(** ** SAML2 federation *)

Record SamlRequest : Type := {
  sq_base_url : string;
  sq_post_url : option string;
  sq_relay_state : option string;
  sq_request : option string
}.

Record SamlResponse : Type := {
  sp_response : option string;
  sp_relay_state : option string;
  sp_post_url : option string
}.

Definition saml_headers : gmap string string :=
  dict [("accept", "text/html,application/xhtml+xml,application/xml")].

Definition get_saml_request (auth_properties : AuthProperties)
  : M SamlRequest :=
  let hd := saml_headers in
  base_url ← lift (get_base_url env (ap_metadata auth_properties));
  let url := base_url +:+ "/sso/idps/"
             +:+ str_of (ap_id auth_properties) in
  response ← HTTP_get url hd NoContent;
  let html := text response in
  origin ← lift (get_base_url env (opt_json (extract_form_post_url html)));
  request ← lift (extract_saml_request html true);
  let saml_request :=
    {| sq_base_url := origin;
       sq_post_url := extract_form_post_url html;
       sq_relay_state := extract_saml_relaystate html;
       sq_request := request |} in
  mask (opt_json (sq_request saml_request)) ;;
  ret saml_request.

Definition send_saml_request (saml_request : SamlRequest)
  (cookies : option (gmap string string)) : M SamlResponse :=
  HTTP_set_cookies cookies ;;
  let payload :=
    dict [ ("relayState", opt_json (sq_relay_state saml_request));
           ("SAMLRequest", opt_json (sq_request saml_request)) ] in
  let hd := <["Content-Type" := "application/json"]> saml_headers in
  url ← as_url (opt_json (sq_post_url saml_request));
  response ← HTTP_get url hd (Params payload);
  let html := text response in
  saml ← lift (extract_saml_response html true);
  let saml_response :=
    {| sp_response := saml;
       sp_relay_state := extract_saml_relaystate html;
       sp_post_url := extract_form_post_url html |} in
  mask (opt_json (sp_response saml_response)) ;;
  ret saml_response.

Definition myorg : string := "https://newscorpdev2.oktapreview.com".

Definition send_saml_response (config : loc)
  (saml_response : SamlResponse) : M (gmap string string) :=
  let payload :=
    dict [ ("SAMLResponse", opt_json (sp_response saml_response));
           ("RelayState", opt_json (sp_relay_state saml_response)) ] in
  let hd := <["Content-Type" := "application/x-www-form-urlencoded"]>
              saml_headers in
  url ← as_url (opt_json (sp_post_url saml_response));
  response ← HTTP_post url hd (Form payload);
  let session_cookies := jar response in
  let sid := session_cookies !! "sid" in
  state_token ← lift (extract_state_token (text response));
  if nonempty state_token then
    let myurl := myorg +:+ "/login/token/redirect" in
    myresponse ←
      HTTP_get myurl ∅
               (Params (dict [("stateToken", opt_json state_token)]));
    ret (jar myresponse)
  else ret session_cookies.

(** ** The orchestrator *)

Definition oie_enabled (url : string) : M bool :=
  pipeline ← get_auth_pipeline url;
  ret (Py.eq_str pipeline "idx").

Definition local_authentication_enabled
  (auth_properties : AuthProperties) : bool :=
  Py.eq_str (ap_type auth_properties) "OKTA".

Definition is_saml2_authentication (auth_properties : AuthProperties)
  : bool :=
  Py.eq_str (ap_type auth_properties) "SAML2".

(** [idp_auth] and [saml2_authenticate] call each other; the nested
    call is passed in as [idp_auth]. *)
Definition saml2_authenticate
  (idp_auth : loc -> M (option (gmap string string)))
  (config : loc) (auth_properties : AuthProperties)
  : M (option (gmap string string)) :=
  saml_request ← get_saml_request auth_properties;
  saml2_config ← deepcopy config;
  config_set saml2_config (set_org (sq_base_url saml_request)) ;;
  session_cookies ← idp_auth saml2_config;
  saml_response ← send_saml_request saml_request session_cookies;
  session_id ← send_saml_response config saml_response;
  ret (Some session_id).

(** [fuel] bounds the depth of the chain of identity providers and the
    passes of the loop of [user_authenticate].  The test
    ["type" not in auth_properties] of the source never holds, since
    [get_auth_properties] always stores the key: it has no counterpart
    here. *)
Fixpoint idp_auth (fuel : nat) (config : loc)
  : M (option (gmap string string)) :=
  match fuel with
  | O => fail OutOfFuel
  | S fuel =>
    userid ← config_get config username;
    url ← config_get config org;
    auth_properties ← get_auth_properties userid url;
    session_cookies ←
      (if local_authentication_enabled auth_properties then
         session_token ← user_authenticate fuel config;
         org_url ← config_get config org;
         cookies ← request_cookies org_url session_token;
         HTTP_set_cookies (Some cookies) ;;
         ret (Some cookies)
       else if is_saml2_authentication auth_properties then
         saml2_authenticate (idp_auth fuel) config auth_properties
       else die 1 UnsupportedIdpDiscovery);
    org_url ← config_get config org;
    oie ← oie_enabled org_url;
    if oie : bool then oauth2_authorize config session_cookies
    else ret session_cookies
  end.

End Program.

(* ===================================================================== *)
(** * 9. Vocabulary of the statements                                     *)
(* ===================================================================== *)

(** ** Worlds, replies and observations *)

(** A world in which no collaborator has anything to say. *)
Definition silent : World :=
  {| replies := []; typed := []; picked := []; entropy := [];
     uuids := []; wrapped := []; duo_challenges := []; heap := ∅;
     trace := [] |}.

(** A configuration for examples. *)
Definition sample_config : Config :=
  {| org := "https://acme.okta.com"; username := "jane";
     password := "secret"; mfa := None; mfa_response := None;
     oauth_client_id := None |}.

(** A world whose transport answers with the given replies and that
    holds one configuration object, at reference 0. *)
Definition answering (rs : list Response) : World :=
  with_replies rs (with_heap {[ 0%nat := sample_config ]} silent).

(** Replies of the transport: a page, and a JSON document. *)
Definition page (html : string) (cookies : gmap string string)
  : Response :=
  {| text := html; body := None; jar := cookies; final_url := "" |}.

Definition document (j : json) : Response :=
  {| text := ""; body := Some j; jar := ∅; final_url := "" |}.

(** The errors reported so far. *)
Definition errors (w : World) : list error :=
  omap (fun e => match e with Logged x => Some x | _ => None end)
       (trace w).

(** The requests sent so far. *)
Definition requests (w : World) : list Request :=
  omap (fun e => match e with Sent r => Some r | _ => None end)
       (trace w).

(** What has been shown to the user so far. *)
Definition printed (w : World) : list message :=
  omap (fun e => match e with Printed m => Some m | _ => None end)
       (trace w).

(** The seconds slept so far. *)
Definition slept (w : World) : list Z :=
  omap (fun e => match e with Slept n => Some n | _ => None end) (trace w).

(** The number of requests in a stretch of trace. *)
Definition sent (t : list event) : nat :=
  List.length (List.filter
                 (fun e => match e with Sent _ => true | _ => false end) t).

(** ** Stand-ins for the pure collaborators *)

(** An [input] element with a name and a value. *)
Definition input_tag (name value : string) : Tag :=
  {| tag_name := "input";
     tag_attrs := dict [("name", name); ("value", value)];
     tag_string := None; tag_text := "" |}.

(** A [script] element with the given content. *)
Definition script_tag (content : string) : Tag :=
  {| tag_name := "script"; tag_attrs := ∅;
     tag_string := Some content; tag_text := content |}.

(** A form with the id [appForm] and the given action. *)
Definition form_tag (action : string) : Tag :=
  {| tag_name := "form";
     tag_attrs := dict [("id", "appForm"); ("action", action)];
     tag_string := None; tag_text := "" |}.

(** The origin of a URL: what precedes its third slash. *)
Fixpoint origin_of (slashes : nat) (s : string) : string :=
  match s with
  | EmptyString => EmptyString
  | String c r =>
    if Ascii.eqb c "/" then
      if (slashes =? 2)%nat then EmptyString
      else String c (origin_of (S slashes) r)
    else String c (origin_of slashes r)
  end.

(** Stand-ins for the pure collaborators, for running the module on
    examples: the parser knows the listed documents (and sees no tag in
    any other), escapes decode to themselves. *)
Definition parser_of (docs : list (string * list Tag)) (html : string)
  : list Tag :=
  match List.find (fun d => String.eqb (fst d) html) docs with
  | Some d => snd d
  | None => []
  end.

Definition sample_env (docs : list (string * list Tag)) : Env :=
  {| BeautifulSoup := parser_of docs;
     get_base_url := fun v => match v with
                              | JStr s => Val (origin_of 0 s)
                              | _ => Exn TypeError
                              end;
     unicode_escape := fun s => Val s;
     repr := fun _ => "" |}.

(** ** PKCE *)

(** The two digits that the URL-safe alphabet has outside [[A-Za-z0-9]]. *)
Definition is_dash_or_underscore (c : ascii) : bool :=
  Ascii.eqb c "-" || Ascii.eqb c "_".

(** The sixty-four digits of the standard alphabet. *)
Definition alphabet : list ascii :=
  map (fun i => Base64.digit (N.of_nat i)) (seq 0 64).

(** The random source at its most unfavourable for the code verifier:
    forty octets [0xFF], whose base64 digits are [_] but for the last. *)
Definition all_ones : World :=
  with_entropy (repeat (ascii_of_N 255) 40) silent.

(** ** Extraction and factor selection *)

(** [t] is an element [<name ... key="value" ...>]. *)
Definition is_element (name key value : string) (t : Tag) : Prop :=
  tag_name t = name /\ tag_attrs t !! key = Some value.

(** [needle] occurs in [hay]. *)
Definition substring (needle hay : string) : Prop :=
  exists before after, hay = before +:+ needle +:+ after.

(** The label at position [i] matches the selector. *)
Definition matches_at (selector : string) (labels : list string)
  (i : nat) : Prop :=
  exists label, labels !! i = Some label /\ substring selector label.

(** The indices selected by the comprehension, read off recursively. *)
Fixpoint positions (f : string -> bool) (k : nat) (l : list string)
  : list Z :=
  match l with
  | [] => []
  | x :: l => if f x then Z.of_nat k :: positions f (S k) l
              else positions f (S k) l
  end.

(** ** OAuth2 discovery *)

(** A discovery document that has every mandatory field but does not
    list the authorization-code grant. *)
Definition discovery_without_grant : gmap string json :=
  dict [ ("authorization_endpoint",
          JStr "https://acme.okta.com/oauth2/v1/authorize");
         ("token_endpoint", JStr "https://acme.okta.com/oauth2/v1/token");
         ("grant_types_supported", JList [JStr "implicit"]);
         ("response_types_supported", JList [JStr "code"]);
         ("scopes_supported", JList [JStr "openid"]) ].

(** The same document without its token endpoint. *)
Definition discovery_without_token_endpoint : gmap string json :=
  delete "token_endpoint" discovery_without_grant.

(** ** Multi-factor authentication *)

(** An SMS factor, the answer to primary authentication that offers it,
    and the challenge that the provider starts for it. *)
Definition sms_factor : json :=
  JDict (dict [ ("id", JStr "sms2"); ("factorType", JStr "sms");
                ("provider", JStr "OKTA");
                ("profile", JDict (dict [("phoneNumber", JStr "+1 555")]));
                ("_links",
                 JDict (dict [("verify",
                   JDict (dict [("href",
                     JStr "https://acme.okta.com/api/v1/authn/factors/sms2/verify")]))])) ]).

Definition mfa_required : json :=
  JDict (dict [ ("status", JStr "MFA_REQUIRED");
                ("stateToken", JStr "00abc");
                ("_embedded", JDict (dict [("factors", JList [sms_factor])])) ]).

Definition sms_challenge : json :=
  JDict (dict [ ("status", JStr "MFA_CHALLENGE");
                ("_embedded", JDict (dict [("factor", sms_factor)])) ]).

(** A verification answer without a session token: the provider reports
    that the password has expired. *)
Definition password_expired : json :=
  JDict (dict [ ("status", JStr "PASSWORD_EXPIRED");
                ("stateToken", JStr "00abc") ]).

(** ** The push polling engine *)

(** The states of the engine, in the words of the design document. *)
Inductive push_state : Type :=
  | CHALLENGE_WAITING
  | CHALLENGE_SUCCESS
  | CHALLENGE_REJECTED
  | CHALLENGE_TIMEOUT
  | CHALLENGE_UNKNOWN.

(** The state a poll response puts the engine in, following the amended
    wording of the transitions: waiting while status is the
    challenge-pending marker and the result is the waiting marker;
    success when status is [SUCCESS] and a session token is present;
    rejected, timed out or unknown by the result otherwise.  Status and
    result default to [UNKNOWN] when absent. *)
Definition push_state_of (d : gmap string json) : push_state :=
  let status := default (JStr "UNKNOWN") (d !! "status") in
  let result := default (JStr "UNKNOWN") (d !! "factorResult") in
  if Py.eq_str status "MFA_CHALLENGE" && Py.eq_str result "WAITING"
  then CHALLENGE_WAITING
  else if Py.eq_str status "SUCCESS"
          && bool_decide (is_Some (d !! "sessionToken"))
  then CHALLENGE_SUCCESS
  else if Py.eq_str result "REJECTED" then CHALLENGE_REJECTED
  else if Py.eq_str result "TIMEOUT" then CHALLENGE_TIMEOUT
  else CHALLENGE_UNKNOWN.

(** A poll response is well formed when it is a JSON object in which the
    path to the number challenge, as far as it exists, runs through
    objects. *)
Definition well_formed (r : Response) (d : gmap string json) : Prop :=
  body r = Some (JDict d)
  /\ exists answer, correct_answer (JDict d) = Val answer.

(** A well-formed response that keeps the engine waiting. *)
Definition keeps_waiting (r : Response) : Prop :=
  exists d, well_formed r d /\ push_state_of d = CHALLENGE_WAITING.

(** The loop variables after a pass that polled the object [d]. *)
Definition polled (d : gmap string json) (shown : bool) : Poll :=
  {| status := default (JStr "UNKNOWN") (d !! "status");
     result_ := default (JStr "UNKNOWN") (d !! "factorResult");
     response_ := JDict d;
     challenge_displayed := shown |}.

(** Poll responses for examples. *)
Definition still_waiting : gmap string json :=
  dict [ ("status", JStr "MFA_CHALLENGE"); ("factorResult", JStr "WAITING") ].

Definition waiting_with_number (n : Z) : gmap string json :=
  <["_embedded" :=
      JDict (dict [("factor",
        JDict (dict [("_embedded",
          JDict (dict [("challenge",
            JDict (dict [("correctAnswer", JNum n)]))]))]))])]>
    still_waiting.

Definition approved : gmap string json :=
  dict [ ("status", JStr "SUCCESS"); ("sessionToken", JStr "20111abc") ].

Definition rejected : gmap string json :=
  dict [ ("status", JStr "MFA_CHALLENGE"); ("factorResult", JStr "REJECTED") ].

Definition timed_out : gmap string json :=
  dict [ ("status", JStr "MFA_CHALLENGE"); ("factorResult", JStr "TIMEOUT") ].

(** A rejection whose [_embedded] entry is [null]. *)
Definition rejected_with_null : gmap string json :=
  <["_embedded" := JNull]> rejected.

(** A response that carries a session token but no status. *)
Definition token_without_status : gmap string json :=
  dict [ ("sessionToken", JStr "20111abc") ].

Definition verify_url : json :=
  JStr "https://acme.okta.com/api/v1/authn/factors/opf1/verify".

Definition push_payload : gmap string json :=
  dict [ ("stateToken", JStr "00abc"); ("factorType", JStr "push");
         ("provider", JStr "OKTA") ].

(** A push factor beside the SMS factor, and the challenge that the
    provider starts for it. *)
Definition push_factor : json :=
  JDict (dict [ ("id", JStr "opf1"); ("factorType", JStr "push");
                ("provider", JStr "OKTA");
                ("profile", JDict (dict [("name", JStr "phone")]));
                ("_links",
                 JDict (dict [("verify",
                   JDict (dict [("href",
                     JStr "https://acme.okta.com/api/v1/authn/factors/opf1/verify")]))])) ]).

Definition mfa_required_two : json :=
  JDict (dict [ ("status", JStr "MFA_REQUIRED");
                ("stateToken", JStr "00abc");
                ("_embedded",
                 JDict (dict [("factors",
                               JList [sms_factor; push_factor])])) ]).

Definition push_challenge : json :=
  JDict (dict [ ("status", JStr "MFA_CHALLENGE");
                ("factorResult", JStr "WAITING");
                ("_embedded", JDict (dict [("factor", push_factor)])) ]).

(** A user who has configured the selector [push]. *)
Definition push_world : World :=
  with_heap {[ 0%nat := {| org := "https://acme.okta.com";
                           username := "jane"; password := "secret";
                           mfa := Some "push"; mfa_response := None;
                           oauth_client_id := None |} ]}
    (answering [ document mfa_required_two; document push_challenge;
                 document (JDict still_waiting);
                 document (JDict (waiting_with_number 42));
                 document (JDict approved) ]).

(** ** The number challenge *)

(** In the words of the claim, not of the code: the value that a JSON
    document holds under a path of keys.  Every step leads into an object
    that has the key; there is no value when a key is missing or when a
    step meets something that is not an object. *)
Fixpoint embedded (path : list string) (j : json) : option json :=
  match path with
  | [] => Some j
  | key :: path =>
    match j with
    | JDict d =>
      match d !! key with
      | Some v => embedded path v
      | None => None
      end
    | _ => None
    end
  end.

(** Where a poll response holds the number challenge. *)
Definition challenge_path : list string :=
  ["_embedded"; "factor"; "_embedded"; "challenge"; "correctAnswer"].

(** The number-challenge value that appears in a poll response, if any. *)
Definition number_challenge (r : Response) : option json :=
  match body r with
  | Some j => embedded challenge_path j
  | None => None
  end.

(** The values that count for nothing: [null], [false], [0], the empty
    string, the empty array and the empty object. *)
Definition is_blank (v : json) : bool :=
  match v with
  | JNull | JBool false | JNum 0 | JStr "" | JList [] => true
  | JDict d => bool_decide (d = ∅)
  | _ => false
  end.

(** The number challenge of a poll response that brings one to show: the
    value that appears in it, unless that value is blank. *)
Definition answer_of (r : Response) : option json :=
  match number_challenge r with
  | Some a => if is_blank a then None else Some a
  | None => None
  end.

(** The first response, by position, in which a number-challenge value
    appears, blank or not. *)
Fixpoint first_carried (rs : list Response) : option (nat * json) :=
  match rs with
  | [] => None
  | r :: rs =>
    match number_challenge r with
    | Some a => Some (O, a)
    | None =>
      match first_carried rs with
      | Some (i, a) => Some (S i, a)
      | None => None
      end
    end
  end.

(** Polls whose first response carries the number 0 and whose second
    carries 17, before the approval. *)
Definition zero_then_17 : list Response :=
  map (fun d => document (JDict d))
      [ waiting_with_number 0; waiting_with_number 17; approved ].

(** Polls in which a number-challenge value appears three times, first as
    0, with a response without one before and the approval after. *)
Definition numbered_polls : list Response :=
  map (fun d => document (JDict d))
      [ still_waiting; waiting_with_number 0; waiting_with_number 17;
        waiting_with_number 42; approved ].

(** The first response, by position, that brings a number challenge to
    show. *)
Fixpoint first_answer (rs : list Response) : option (nat * json) :=
  match rs with
  | [] => None
  | r :: rs =>
    match answer_of r with
    | Some a => Some (O, a)
    | None =>
      match first_answer rs with
      | Some (i, a) => Some (S i, a)
      | None => None
      end
    end
  end.

(** The number challenges shown in a stretch of trace, each with the
    number of requests that had gone out when it was shown ([n] of them
    before the stretch). *)
Fixpoint shown_from (n : nat) (t : list event) : list (nat * json) :=
  match t with
  | [] => []
  | Sent _ :: t => shown_from (S n) t
  | Printed (NumberChallenge a) :: t => (n, a) :: shown_from n t
  | _ :: t => shown_from n t
  end.

(** What one pass of the polling loop adds to the trace. *)
Definition pass_shows (p : Poll) (n : nat) (r : Response)
  : list (nat * json) :=
  match answer_of r with
  | Some a => if challenge_displayed p then [] else [(S n, a)]
  | None => []
  end.

(** What one pass of the loop, run from [w] with [n] requests already
    out, has done when it ends in [res]. *)
Definition pass_summary (p : Poll) (w : World) (n : nat)
  (res : outcome Poll * World) : Prop :=
  exists new,
    trace (snd res) = (trace w ++ new)%list
    /\ ((sent new = 0%nat /\ shown_from n new = []
         /\ forall p', fst res <> Done p')
        \/ (sent new = 1%nat /\ replies w = [] /\ shown_from n new = []
            /\ forall p', fst res <> Done p')
        \/ (exists r rest,
              sent new = 1%nat /\ replies w = r :: rest
              /\ shown_from n new = pass_shows p n r
              /\ forall p',
                   fst res = Done p' ->
                   replies (snd res) = rest
                   /\ challenge_displayed p'
                      = challenge_displayed p
                        || bool_decide (is_Some (answer_of r)))).

(** What the polling loop shows, given whether a challenge had been
    displayed before and which responses it polled. *)
Definition loop_shows (displayed : bool) (n : nat) (rs : list Response)
  : list (nat * json) :=
  if displayed then []
  else match first_answer rs with
       | Some (i, a) => [((n + S i)%nat, a)]
       | None => []
       end.

(** ** Configuration objects and the chain of identity providers *)

(** [m] leaves alone every configuration object that exists when it
    starts, except those in [touched]. *)
Definition preserves {A} (touched : loc -> Prop) (m : M A) : Prop :=
  forall (w : World) (l : loc) (c : Config),
    ~ touched l -> heap w !! l = Some c -> heap (snd (m w)) !! l = Some c.

(** A chain of one hop: the relying party [acme] sends the user [jane]
    to the identity provider [idp.example.com], which authenticates her
    itself. *)
Definition webfinger (type : string) : Response :=
  document (JDict (dict [("links", JList [JDict (dict [("properties",
     JDict (dict [ ("okta:idp:type", JStr type);
                   ("okta:idp:id", JStr "0oa1");
                   ("okta:idp:metadata",
                    JStr "https://acme.okta.com/metadata") ]))])])])).

Definition chain_props : AuthProperties :=
  {| ap_metadata := JStr "https://acme.okta.com/metadata";
     ap_type := JStr "SAML2"; ap_id := JStr "0oa1" |}.

Definition chain_env : Env :=
  sample_env
    [ ("sso page", [ form_tag "https://idp.example.com/app/sso/saml";
                     input_tag "RelayState" "rs1";
                     input_tag "SAMLRequest" "QUJD" ]);
      ("idp page", [ form_tag "https://acme.okta.com/sso/saml2/0oa1";
                     input_tag "RelayState" "rs1";
                     input_tag "SAMLResponse" "QUJD" ]) ].

(** The transport's answers from the SAML request on. *)
Definition chain_replies : list Response :=
  [ page "sso page" ∅;
    webfinger "OKTA";
    document (JDict (dict [ ("status", JStr "SUCCESS");
                            ("sessionToken", JStr "20111abc") ]));
    document (JDict (dict [("pipeline", JStr "v1")]));
    page "idp page" ∅;
    page "signed in" {[ "sid" := "sp-session" ]};
    document (JDict (dict [("pipeline", JStr "v1")])) ].

(** The world in which [saml2_authenticate] starts, and the one in which
    [idp_auth] does. *)
Definition chain_saml_world : World :=
  with_wrapped [ {[ "sid" := "idp-session" ]} ] (answering chain_replies).

Definition chain_world : World :=
  with_wrapped [ {[ "sid" := "idp-session" ]} ]
    (answering (webfinger "SAML2" :: chain_replies)).

(** ** Requests, replies and what has been registered for masking *)

(** The world once the events [new] have happened. *)
Definition after (w : World) (new : list event) : World :=
  with_trace (trace w ++ new) w.

(** The same, the transport having the replies [rest] left. *)
Definition answered (w : World) (rest : list Response) (new : list event)
  : World :=
  with_replies rest (after w new).


(** The request of [get_auth_pipeline]. *)
Definition pipeline_request (url : string) : Request :=
  {| method := GET; target := url +:+ "/.well-known/okta-organization";
     headers := dict [("accept", "application/json")];
     payload := NoContent |}.

(** The request of [get_auth_properties]. *)
Definition webfinger_request (userid url : string) : Request :=
  {| method := GET; target := url +:+ "/.well-known/webfinger";
     headers := dict [("accept", "application/jrd+json")];
     payload := Params (dict [ ("resource", JStr ("okta:acct:" +:+ userid));
                               ("rel", JStr "okta:idp") ]) |}.

(** The reply [r] to the webfinger request is an object whose [links]
    is an array that starts with an object whose [properties] is the
    object [props]. *)
Definition discovers (r : Response) (props : gmap string json) : Prop :=
  exists d link more,
    body r = Some (JDict d)
    /\ d !! "links" = Some (JList (JDict link :: more))
    /\ link !! "properties" = Some (JDict props).

(** An organization on the given pipeline. *)
Definition organization (pipeline : string) : Response :=
  document (JDict (dict [("pipeline", JStr pipeline)])).

(** The properties that [webfinger] carries. *)
Definition webfinger_props (type : string) : gmap string json :=
  dict [ ("okta:idp:type", JStr type);
         ("okta:idp:id", JStr "0oa1");
         ("okta:idp:metadata", JStr "https://acme.okta.com/metadata") ].

(** The request of [user_authenticate]. *)
Definition authn_request (c : Config) : Request :=
  {| method := POST; target := org c +:+ "/api/v1/authn";
     headers := dict [ ("content-type", "application/json");
                       ("accept", "application/json") ];
     payload := Json (dict [ ("username", JStr (username c));
                             ("password", JStr (password c)) ]) |}.

(** The reply [r] to primary authentication is an object without
    [errorCode], with the status [SUCCESS] and the session token [tok]. *)
Definition signs_in (r : Response) (tok : json) : Prop :=
  exists d,
    body r = Some (JDict d)
    /\ d !! "errorCode" = None
    /\ d !! "status" = Some (JStr "SUCCESS")
    /\ d !! "sessionToken" = Some tok.

(** A primary authentication that succeeds at once. *)
Definition signed_in (tok : json) : Response :=
  document (JDict (dict [ ("status", JStr "SUCCESS");
                          ("sessionToken", tok) ])).

(** The request of [create_sid_cookies]. *)
Definition sessions_request (url : string) (session_token : json)
  : Request :=
  {| method := POST; target := url +:+ "/api/v1/sessions";
     headers := dict [ ("Content-Type", "application/json");
                       ("accept", "application/json") ];
     payload := Json (dict [("sessionToken", session_token)]) |}.

(** The reply [r] says that the organization is on the pipeline [p]. *)
Definition on_pipeline (r : Response) (p : string) : Prop :=
  exists d, body r = Some (JDict d) /\ d !! "pipeline" = Some (JStr p).

(** ** Factors *)

(** The request of [totp_approval]. *)
Definition totp_request (url : string) (hd : gmap string string)
  (state_token : json) (code : string) : Request :=
  {| method := POST; target := url; headers := hd;
     payload := Json (dict [ ("stateToken", state_token);
                             ("passCode", JStr code) ]) |}.

(** Masking the session token of a verification answer, when it has
    one. *)
Definition masks_token (verify : gmap string json) : list event :=
  match verify !! "sessionToken" with
  | Some tok => [Masked tok]
  | None => []
  end.


(** An answer to primary authentication that offers no factor. *)
Definition no_factors : gmap string json :=
  dict [ ("status", JStr "MFA_REQUIRED"); ("stateToken", JStr "00abc");
         ("_embedded", JDict (dict [("factors", JList [])])) ].

(** The combinations of provider and factor type that
    [mfa_provider_type] dispatches on. *)
Definition supported_factor (provider factor_type : json) : Prop :=
  provider = JStr "DUO"
  \/ (provider = JStr "OKTA" /\ factor_type = JStr "push")
  \/ ((provider = JStr "OKTA" \/ provider = JStr "GOOGLE")
      /\ (factor_type = JStr "token:software:totp"
          \/ factor_type = JStr "sms")).

(** The factor type that [mfa_provider_type] reads from the selected
    factor. *)
Definition factor_type_of (selected_factor : json) : result json :=
  rbind (Py.get selected_factor "_embedded" (JDict ∅)) (fun a =>
  rbind (Py.get a "factor" (JDict ∅)) (fun b =>
  Py.get b "factorType" JNull)).

(** The challenge that the provider starts for a security question. *)
Definition question_challenge : json :=
  JDict (dict [ ("status", JStr "MFA_CHALLENGE");
                ("_embedded",
                 JDict (dict [("factor",
                   JDict (dict [ ("factorType", JStr "question");
                                 ("provider", JStr "OKTA") ]))])) ]).

(** The answer [d] to primary authentication offers the factors
    [factors] and carries the state token [st]. *)
Definition offers (d : gmap string json) (factors : list json)
  (st : json) : Prop :=
  (exists e, d !! "_embedded" = Some (JDict e)
             /\ e !! "factors" = Some (JList factors))
  /\ d !! "stateToken" = Some st.

(** The factor [f] is verified at [url]; [ft], [prov] and [prof] are its
    type, its provider and its profile. *)
Definition factor_entry (f : gmap string json) (url : string)
  (ft prov prof : json) : Prop :=
  (exists l v, f !! "_links" = Some (JDict l)
               /\ l !! "verify" = Some (JDict v)
               /\ v !! "href" = Some (JStr url))
  /\ f !! "factorType" = Some ft
  /\ f !! "provider" = Some prov
  /\ f !! "profile" = Some prof.

(** The challenge [sf] that the provider starts is for a factor of the
    provider [prov] and of the type [ft]. *)
Definition challenge_for (sf : gmap string json) (prov ft : json) : Prop :=
  exists e fa,
    sf !! "_embedded" = Some (JDict e)
    /\ e !! "factor" = Some (JDict fa)
    /\ fa !! "provider" = Some prov
    /\ fa !! "factorType" = Some ft.

(** The request by which [mfa_challenge] starts the challenge. *)
Definition challenge_request (url : string) (hd : gmap string string)
  (st ft prov prof : json) : Request :=
  {| method := POST; target := url; headers := hd;
     payload := Json (dict [ ("stateToken", st); ("factorType", ft);
                             ("provider", prov); ("profile", prof) ]) |}.

(** A user who has supplied the verification code beforehand and has
    configured no selector, and who picks the first factor. *)
Definition code_world : World :=
  with_picked [0]
    (with_heap {[ 0%nat := set_mfa_response (Some "123456") sample_config ]}
       (answering [document sms_challenge; document (JDict approved)])).

(** ** The authorization-code flow *)

(** The document of [discovery_without_grant] with the
    authorization-code grant listed. *)
Definition discovery_with_grant : gmap string json :=
  <["grant_types_supported" :=
      JList [JStr "implicit"; JStr "authorization_code"]]>
    discovery_without_grant.

(** The request of [get_oauth2_configuration]. *)
Definition discovery_request (url : string) : Request :=
  {| method := GET;
     target := url +:+ "/.well-known/oauth-authorization-server";
     headers := dict [("accept", "application/json")];
     payload := NoContent |}.

(** A discovery document that passes the validation: it has the
    mandatory items, lists the authorization-code grant and the code
    response type. *)
Definition valid_discovery (cfg : gmap string json) : Prop :=
  Forall (fun item => is_Some (cfg !! item)) mandadory_oauth2_config_items
  /\ (exists grants,
        cfg !! "grant_types_supported" = Some grants
        /\ Py.contains "authorization_code" grants = Val true)
  /\ (exists types,
        cfg !! "response_types_supported" = Some types
        /\ Py.contains "code" types = Val true).

(** The digits of a lower-case hexadecimal number. *)
Definition is_hex (c : ascii) : bool :=
  Text.is_digit c || Text.between 97 102 c.

(** The URL has the parameter [key] with a value: somewhere in it [key]
    is followed by a character other than [&]. *)
Definition has_parameter (key url : string) : Prop :=
  exists c, c <> "&"%char /\ substring (key +:+ String c "") url.

(** The value of the first parameter [key] of a URL, as the pattern
    [(?<=key)[^&]+] finds it: the URL reads [before key value rest]; the
    value is not empty and holds no [&]; it runs up to the next [&] or to
    the end of the URL; and no earlier place of the URL follows an
    occurrence of [key] and holds a character other than [&]. *)
Definition first_value (key url value : string) : Prop :=
  exists before rest,
    url = before +:+ key +:+ value +:+ rest
    /\ value <> ""
    /\ Text.contains "&" value = false
    /\ (rest = "" \/ exists rest', rest = String "&" rest')
    /\ ~ has_parameter key (before +:+ key).

(** What [Re.search_after] tries at the head of a text. *)
Definition found_here (key s : string) : option string :=
  if Text.is_prefix key s then
    match Re.until "&" (Re.skip (String.length key) s) with
    | EmptyString => None
    | m => Some m
    end
  else None.

(** The request to the authorization endpoint. *)
Definition authorize_request (url : string) (client : option string)
  (redirect state challenge : string) (session_token : option string)
  : Request :=
  {| method := GET; target := url;
     headers := dict [ ("accept", "application/json");
                       ("content-type", "application/json") ];
     payload :=
       Params (dict [ ("client_id", opt_json client);
                      ("redirect_uri", JStr redirect);
                      ("response_type", JStr "code");
                      ("sessionToken", opt_json session_token);
                      ("scope", JStr get_authorize_scope);
                      ("state", JStr state);
                      ("code_challenge", JStr challenge);
                      ("code_challenge_method", JStr "S256");
                      ("prompt", JStr "none") ]) |}.

(** The request to the token endpoint. *)
Definition token_request (url : string) (code : option string)
  (state redirect : string) (client : option string) (verifier : string)
  : Request :=
  {| method := POST; target := url;
     headers := dict [("accept", "application/json")];
     payload :=
       Form (dict [ ("code", opt_json code);
                    ("state", JStr state);
                    ("grant_type", JStr "authorization_code");
                    ("redirect_uri", JStr redirect);
                    ("client_id", opt_json client);
                    ("code_verifier", JStr verifier) ]) |}.

(** A random source that yields zeros. *)
Definition zeros (n : nat) : World :=
  with_entropy (repeat (ascii_of_N 0) n) silent.

(** The answer to the authorization request, after the redirect to the
    callback. *)
Definition callback : Response :=
  {| text := ""; body := None; jar := ∅;
     final_url := "https://acme.okta.com/enduser/callback?code=Xyz12&state=abc" |}.

(** The answer of the token endpoint. *)
Definition granted_token : json :=
  JDict (dict [("access_token", JStr "eyJraWQi")]).

(** A configuration with a client identifier, in a world with enough
    randomness for the state and the code verifier, whose transport
    answers the authorization request and the token request. *)
Definition flow_world : World :=
  with_entropy (repeat (ascii_of_N 0) 1064)
    (with_heap {[ 0%nat := set_oauth_client_id (Some "0oa2") sample_config ]}
       (answering [callback; document granted_token])).

(** The world of [flow_world], with the discovery document to be
    fetched first. *)
Definition authorize_world : World :=
  with_entropy (repeat (ascii_of_N 0) 1064)
    (with_heap {[ 0%nat := set_oauth_client_id (Some "0oa2") sample_config ]}
       (answering [ document (JDict discovery_with_grant); callback;
                    document granted_token ])).

(** ** SAML documents *)

(** The standard base64 form of a text, as a text. *)
Definition base64_of (xml : string) : string :=
  Text.of_bytes (Base64.b64encode (Text.encode_utf8 xml)).

(** The text [s] is well-formed UTF-8. *)
Definition is_text (s : string) : Prop :=
  Text.utf8_valid (Text.to_bytes s) = true.

(** The request of [get_saml_request]. *)
Definition sso_request (base_url id : string) : Request :=
  {| method := GET; target := base_url +:+ "/sso/idps/" +:+ id;
     headers := saml_headers; payload := NoContent |}.

(** The request of [send_saml_request]. *)
Definition idp_request (post_url : string)
  (relay_state request : option string) : Request :=
  {| method := GET; target := post_url;
     headers := <["Content-Type" := "application/json"]> saml_headers;
     payload := Params (dict [ ("relayState", opt_json relay_state);
                               ("SAMLRequest", opt_json request) ]) |}.

(** The request by which [send_saml_response] posts the response. *)
Definition acs_request (post_url : string)
  (response relay_state : option string) : Request :=
  {| method := POST; target := post_url;
     headers := <["Content-Type" := "application/x-www-form-urlencoded"]>
                  saml_headers;
     payload := Form (dict [ ("SAMLResponse", opt_json response);
                             ("RelayState", opt_json relay_state) ]) |}.

(** The page [r] of the relying party holds the form that posts to
    [post_url], whose origin is [origin], with the relay state [relay]
    and the SAML request [request]. *)
Definition sso_page (env : Env) (r : Response) (post_url origin : string)
  (relay request : option string) : Prop :=
  extract_form_post_url env (text r) = Some post_url
  /\ get_base_url env (JStr post_url) = Val origin
  /\ extract_saml_relaystate env (text r) = relay
  /\ extract_saml_request env (text r) true = Val request.

(** The page [r] of the identity provider holds the form that posts to
    [post_url], with the relay state [relay] and the SAML response
    [response]. *)
Definition idp_page (env : Env) (r : Response) (post_url : string)
  (relay response : option string) : Prop :=
  extract_form_post_url env (text r) = Some post_url
  /\ extract_saml_relaystate env (text r) = relay
  /\ extract_saml_response env (text r) true = Val response.

(** ** What becomes of a configuration object *)

(** What may become of a configuration object: the organization, the
    credentials and the factor selector stay; a verification code and a
    client identifier stay once they are there. *)
Definition settled (c c' : Config) : Prop :=
  org c' = org c /\ username c' = username c /\ password c' = password c
  /\ mfa c' = mfa c
  /\ (forall code, mfa_response c = Some code -> mfa_response c' = Some code)
  /\ (forall id, oauth_client_id c = Some id -> oauth_client_id c' = Some id).

(** [m] keeps the configuration object [config] settled. *)
Definition keeps {A} (config : loc) (m : M A) : Prop :=
  forall (w : World) (c : Config),
    heap w !! config = Some c ->
    exists c', heap (snd (m w)) !! config = Some c' /\ settled c c'.

(* ===================================================================== *)
(** * 10. Lists, text and codecs                                          *)
(* ===================================================================== *)

(** Induction on a list three elements at a time, the way the base64
    encoder consumes its input. *)
Lemma list_ind3 {A} (P : list A -> Prop) :
  P [] ->
  (forall x, P [x]) ->
  (forall x y, P [x; y]) ->
  (forall x y z l, P l -> P (x :: y :: z :: l)) ->
  forall l, P l.
Proof.
  intros H0 H1 H2 H3.
  assert (forall n (l : list A), (List.length l <= n)%nat -> P l) as Hn.
  { induction n as [|n IH]; intros l Hl.
    - destruct l; [exact H0 | simpl in Hl; lia].
    - destruct l as [|x [|y [|z l]]]; auto.
      apply H3, IH. simpl in Hl. lia. }
  intros l. apply (Hn (List.length l)). lia.
Qed.

Lemma digit_in_alphabet (k : N) : In (Base64.digit k) alphabet.
Proof.
  destruct (N.lt_ge_cases k 64) as [Hk|Hk].
  - unfold alphabet.
    replace k with (N.of_nat (N.to_nat k)) by apply N2Nat.id.
    apply (in_map (fun i => Base64.digit (N.of_nat i))).
    apply in_seq. lia.
  - replace (Base64.digit k) with (Base64.digit 63).
    + apply (in_map (fun i => Base64.digit (N.of_nat i)) (seq 0 64) 63%nat).
      apply in_seq. lia.
    + unfold Base64.digit.
      destruct (N.ltb_spec k 26); [lia|].
      destruct (N.ltb_spec k 52); [lia|].
      destruct (N.ltb_spec k 62); [lia|].
      destruct (N.eqb_spec k 62); [lia|]. reflexivity.
Qed.

(** Whatever holds of the sixty-four digits holds of [digit k]. *)
Lemma digit_has (p : ascii -> bool) (k : N) :
  forallb p alphabet = true -> p (Base64.digit k) = true.
Proof.
  intros H. rewrite forallb_forall in H. apply H, digit_in_alphabet.
Qed.

Lemma length_of_bytes (b : list ascii) :
  String.length (Text.of_bytes b) = List.length b.
Proof.
  induction b as [|c b IH]; simpl; [reflexivity | now rewrite IH].
Qed.

Lemma of_bytes_app (a b : list ascii) :
  Text.of_bytes (a ++ b) = Text.of_bytes a +:+ Text.of_bytes b.
Proof.
  induction a as [|c a IH]; simpl; [reflexivity | now rewrite IH].
Qed.

Lemma filter_append (p : ascii -> bool) (s t : string) :
  Text.filter p (s +:+ t) = Text.filter p s +:+ Text.filter p t.
Proof.
  induction s as [|c s IH]; simpl; [reflexivity|].
  destruct (p c); simpl; now rewrite IH.
Qed.

Lemma all_filter (p : ascii -> bool) (s : string) :
  Text.all p (Text.filter p s) = true.
Proof.
  induction s as [|c s IH]; simpl; [reflexivity|].
  destruct (p c) eqn:E; simpl; [rewrite E|]; exact IH.
Qed.

Lemma all_impl (p q : ascii -> bool) (s : string) :
  (forall c, p c = true -> q c = true) ->
  Text.all p s = true -> Text.all q s = true.
Proof.
  intros Hpq. induction s as [|c s IH]; simpl; [reflexivity|].
  intros [Hc Hs]%andb_prop. rewrite (Hpq _ Hc), (IH Hs). reflexivity.
Qed.

(** An all-ASCII octet string is well-formed UTF-8. *)
Lemma ascii_utf8_valid (b : list ascii) :
  forallb (fun c => (Text.code c <? 128)%N) b = true ->
  Text.utf8_valid b = true.
Proof.
  induction b as [|c b IH]; simpl; [reflexivity|].
  intros [Hc Hb]%andb_prop. rewrite Hc. exact (IH Hb).
Qed.

Lemma urlsafe_digit_ascii (k : N) :
  (Text.code (Base64.urlsafe_translate (Base64.digit k)) <? 128)%N = true.
Proof.
  apply (digit_has
           (fun c => (Text.code (Base64.urlsafe_translate c) <? 128)%N)).
  vm_compute. reflexivity.
Qed.

Lemma urlsafe_b64encode_ascii (b : list ascii) :
  forallb (fun c => (Text.code c <? 128)%N) (Base64.urlsafe_b64encode b)
  = true.
Proof.
  unfold Base64.urlsafe_b64encode.
  induction b as [| x | x y | x y z l IH] using list_ind3;
    cbn [Base64.b64encode map forallb];
    rewrite ?urlsafe_digit_ascii; try reflexivity.
  exact IH.
Qed.

Lemma decode_urlsafe_b64encode (b : list ascii) :
  Text.decode_utf8 (Base64.urlsafe_b64encode b)
  = Val (Text.of_bytes (Base64.urlsafe_b64encode b)).
Proof.
  unfold Text.decode_utf8.
  now rewrite ascii_utf8_valid by apply urlsafe_b64encode_ascii.
Qed.

Lemma urlsafe_digit_not_pad (k : N) :
  negb (Ascii.eqb (Base64.urlsafe_translate (Base64.digit k)) "=") = true.
Proof.
  apply (digit_has
           (fun c => negb (Ascii.eqb (Base64.urlsafe_translate c) "="))).
  vm_compute. reflexivity.
Qed.

(** Removing every [=] from the padded URL-safe encoding gives the
    encoding that was never padded. *)
Lemma strip_padding (b : list ascii) :
  Text.remove_char "=" (Text.of_bytes (Base64.urlsafe_b64encode b))
  = Text.of_bytes (Base64.urlsafe_unpadded b).
Proof.
  unfold Text.remove_char, Base64.urlsafe_b64encode.
  induction b as [| x | x y | x y z l IH] using list_ind3;
    cbn [Base64.b64encode Base64.urlsafe_unpadded map app
         Text.of_bytes string_of_list_ascii Text.filter];
    rewrite ?urlsafe_digit_not_pad; try reflexivity.
  unfold Text.of_bytes in IH. now rewrite IH.
Qed.

Lemma sha256_length (msg : list ascii) :
  List.length (SHA256.sha256 msg) = 32%nat.
Proof. reflexivity. Qed.

Lemma unpadded_length_32 (b : list ascii) :
  List.length b = 32%nat ->
  List.length (Base64.urlsafe_unpadded b) = 43%nat.
Proof.
  intros H.
  do 33 (destruct b as [|? b]; [simpl in H; try lia|]);
    [reflexivity | simpl in H; lia].
Qed.

Lemma filter_filter (p q : ascii -> bool) (s : string) :
  (forall c, p c = true -> q c = true) ->
  Text.filter p (Text.filter q s) = Text.filter p s.
Proof.
  intros Hpq. induction s as [|c s IH]; simpl; [reflexivity|].
  destruct (q c) eqn:Hq; simpl; rewrite IH.
  - reflexivity.
  - destruct (p c) eqn:Hp; [|reflexivity].
    rewrite (Hpq _ Hp) in Hq. discriminate.
Qed.

Lemma count_filter (p q : ascii -> bool) (s : string) :
  (forall c, p c = true -> q c = true) ->
  Text.count p (Text.filter q s) = Text.count p s.
Proof.
  intros Hpq. induction s as [|c s IH]; simpl; [reflexivity|].
  destruct (q c) eqn:Hq; simpl; rewrite IH.
  - reflexivity.
  - destruct (p c) eqn:Hp; [|reflexivity].
    rewrite (Hpq _ Hp) in Hq. discriminate.
Qed.

(** When every character is of exactly one of two kinds, those kept by a
    filter for the one and those counted for the other make up the text. *)
Lemma filter_count_partition (p q : ascii -> bool) (s : string) :
  Text.all (fun c => xorb (p c) (q c)) s = true ->
  (String.length (Text.filter p s) + Text.count q s)%nat = String.length s.
Proof.
  induction s as [|c s IH]; simpl; [reflexivity|].
  intros [Hc Hs]%andb_prop. specialize (IH Hs).
  destruct (p c), (q c); simpl in *; try discriminate; lia.
Qed.

Lemma urlsafe_digit_kind (k : N) :
  (fun c => xorb (Text.is_alnum c) (is_dash_or_underscore c))
    (Base64.urlsafe_translate (Base64.digit k)) = true.
Proof.
  apply (digit_has
           (fun c => xorb (Text.is_alnum (Base64.urlsafe_translate c))
                          (is_dash_or_underscore
                             (Base64.urlsafe_translate c)))).
  vm_compute. reflexivity.
Qed.

Lemma unpadded_digit_kinds (b : list ascii) :
  Text.all (fun c => xorb (Text.is_alnum c) (is_dash_or_underscore c))
           (Text.of_bytes (Base64.urlsafe_unpadded b)) = true.
Proof.
  induction b as [| x | x y | x y z l IH] using list_ind3;
    cbn [Base64.urlsafe_unpadded map app Text.of_bytes
         string_of_list_ascii Text.all];
    rewrite ?(urlsafe_digit_kind); try reflexivity.
  exact IH.
Qed.

Lemma unpadded_length_40 (b : list ascii) :
  List.length b = 40%nat ->
  List.length (Base64.urlsafe_unpadded b) = 54%nat.
Proof.
  intros H.
  do 41 (destruct b as [|? b]; [simpl in H; try lia|]);
    [reflexivity | simpl in H; lia].
Qed.

Lemma alnum_not_pad (c : ascii) :
  Text.is_alnum c = true -> negb (Ascii.eqb c "=") = true.
Proof.
  destruct (Ascii.eqb_spec c "=") as [->|]; [|reflexivity].
  vm_compute. discriminate.
Qed.

Lemma dash_not_pad (c : ascii) :
  is_dash_or_underscore c = true -> negb (Ascii.eqb c "=") = true.
Proof.
  destruct (Ascii.eqb_spec c "=") as [->|]; [|reflexivity].
  vm_compute. discriminate.
Qed.

Lemma alnum_url_safe (c : ascii) :
  Text.is_alnum c = true -> Text.is_url_safe c = true.
Proof. unfold Text.is_url_safe. now intros ->. Qed.

(** The searches on a callback URL and on a script, on examples. *)
Example search_after_code :
  Re.search_after "code="
    "https://acme.okta.com/enduser/callback?code=Xyz12&state=abc"
  = Some "Xyz12"
  /\ Re.search_after "error="
       "https://acme.okta.com/enduser/callback?code=Xyz12&state=abc"
     = None
  /\ Re.search_after "error="
       "https://acme.okta.com/cb?state=s&error=access_denied&error_description=no"
     = Some "access_denied".
Proof. repeat split; reflexivity. Qed.

Example search_state_token_greedy :
  Re.search_state_token "var x = 1; var stateToken = '00a';b'; var y;"
  = Some "00a';b"
  /\ Re.search_state_token "var stateToken = 'unterminated" = None.
Proof. split; reflexivity. Qed.

(** The lenient base64 decoder skips what is outside the alphabet and
    stops at the padding; an incomplete group is an error. *)
Example a2b_base64_examples :
  Base64.a2b_base64 (Text.to_bytes "QUJD") = Val (Text.to_bytes "ABC")
  /\ Base64.a2b_base64 (Text.to_bytes "QU JD!") = Val (Text.to_bytes "ABC")
  /\ Base64.a2b_base64 (Text.to_bytes "QUI=QUJD") = Val (Text.to_bytes "AB")
  /\ Base64.a2b_base64 (Text.to_bytes "QUJDR") = Exn BinasciiError
  /\ Base64.a2b_base64 (Text.to_bytes "QQ") = Exn BinasciiError
  /\ Base64.a2b_base64 (Text.to_bytes "====") = Val []
  /\ Base64.a2b_base64 (Text.to_bytes "None")
     = Val [ascii_of_N 54; ascii_of_N 137; ascii_of_N 222].
Proof. repeat split; reflexivity. Qed.

Example sha256_abc :
  SHA256.hexdigest (Text.to_bytes "abc")
  = "ba7816bf8f01cfea414140de5dae2223b00361a396177a9cb410ff61f20015ad".
Proof. vm_compute. reflexivity. Qed.

(* ===================================================================== *)
(** * 11. PKCE                                                            *)
(* ===================================================================== *)

(** C6.  For every code verifier (in particular for those of 43 to 128
    characters of [[A-Za-z0-9]]) the derived challenge is the URL-safe
    base64 encoding without padding of the SHA-256 digest of the
    verifier's UTF-8 bytes; it has 43 characters, and being the value of
    a function it is the same at every derivation. *)
Theorem pkce_challenge_is_unpadded_digest (code_verifier : string) :
  get_pkce_code_challenge code_verifier
  = Val (Text.of_bytes
           (Base64.urlsafe_unpadded
              (SHA256.sha256 (Text.encode_utf8 code_verifier))))
  /\ String.length
       (Text.of_bytes
          (Base64.urlsafe_unpadded
             (SHA256.sha256 (Text.encode_utf8 code_verifier)))) = 43%nat.
Proof.
  split.
  - unfold get_pkce_code_challenge.
    rewrite decode_urlsafe_b64encode. cbn [rbind].
    now rewrite strip_padding.
  - rewrite length_of_bytes. apply unpadded_length_32, sha256_length.
Qed.

(** The worked example of RFC 7636, appendix B. *)
Example pkce_challenge_rfc7636 :
  get_pkce_code_challenge "dBjftJeZ4CVP-mB92K27uhbUJU1p1r_wW1gFWFOEjXk"
  = Val "E9Melhoa2OwvFrEMTJguCHaoeK1t8URWbuGJSstw-cM".
Proof. vm_compute. reflexivity. Qed.

(** C5, as amended.  Every code verifier the generator produces consists
    of characters of [[A-Za-z0-9]] only, hence is URL-safe, and has at
    most 54 characters, hence at most 128: its length is 54 less the
    number of [-] and [_] among the 54 digits that encode the forty
    random octets.  The generator returns whenever the random source
    yields forty octets. *)
Theorem pkce_verifier_shape (w : World) :
  (40 <= List.length (entropy w))%nat ->
  exists code_verifier,
    get_pkce_code_verifier w
    = (Done code_verifier, with_entropy (drop 40 (entropy w)) w)
    /\ Text.all Text.is_alnum code_verifier = true
    /\ Text.all Text.is_url_safe code_verifier = true
    /\ (String.length code_verifier
        + Text.count is_dash_or_underscore
            (Text.of_bytes
               (Base64.urlsafe_b64encode (take 40 (entropy w))))
        = 54)%nat
    /\ (String.length code_verifier <= 128)%nat.
Proof.
  intros Hlen.
  set (random := take 40 (entropy w)).
  assert (List.length random = 40%nat) as Hrandom
    by (subst random; rewrite length_take; lia).
  exists (Text.filter Text.is_alnum
            (Text.of_bytes (Base64.urlsafe_b64encode random))).
  assert (String.length
            (Text.filter Text.is_alnum
               (Text.of_bytes (Base64.urlsafe_b64encode random)))
          + Text.count is_dash_or_underscore
              (Text.of_bytes (Base64.urlsafe_b64encode random))
          = 54)%nat as Hsum.
  { rewrite <- (filter_filter _ _ _ alnum_not_pad).
    rewrite <- (count_filter _ _ _ dash_not_pad).
    fold (Text.remove_char "=" (Text.of_bytes
                                  (Base64.urlsafe_b64encode random))).
    rewrite strip_padding, filter_count_partition
      by apply unpadded_digit_kinds.
    rewrite length_of_bytes. now apply unpadded_length_40. }
  repeat split.
  - unfold get_pkce_code_verifier, os_urandom, mbind, M_bind, bind.
    destruct (decide (40 <= List.length (entropy w))%nat); [|lia].
    fold random. unfold code_verifier_of.
    rewrite decode_urlsafe_b64encode. reflexivity.
  - apply all_filter.
  - apply (all_impl _ _ _ alnum_url_safe), all_filter.
  - exact Hsum.
  - lia.
Qed.

Lemma pkce_verifier_shape_witness :
  exists code_verifier,
    get_pkce_code_verifier all_ones
    = (Done code_verifier,
       with_entropy (drop 40 (entropy all_ones)) all_ones)
    /\ Text.all Text.is_alnum code_verifier = true
    /\ Text.all Text.is_url_safe code_verifier = true
    /\ (String.length code_verifier
        + Text.count is_dash_or_underscore
            (Text.of_bytes
               (Base64.urlsafe_b64encode (take 40 (entropy all_ones))))
        = 54)%nat
    /\ (String.length code_verifier <= 128)%nat.
Proof. apply (pkce_verifier_shape all_ones). simpl. lia. Defined.

(** C5, as stated, fails: from forty octets [0xFF] the generator produces
    a verifier of one character, far fewer than 43. *)
Lemma pkce_verifier_can_be_short :
  fst (get_pkce_code_verifier all_ones) = Done "w"
  /\ ~ (43 <= String.length "w" <= 128)%nat.
Proof. split; [vm_compute; reflexivity | simpl; lia]. Qed.

(* ===================================================================== *)
(** * 12. Extraction from HTML                                            *)
(* ===================================================================== *)

Lemma soup_find_test (name key value : string) (t : Tag) :
  String.eqb (tag_name t) name
  && bool_decide (tag_attrs t !! key = Some value) = true
  <-> is_element name key value t.
Proof.
  unfold is_element.
  rewrite andb_true_iff, String.eqb_eq, bool_decide_eq_true. reflexivity.
Qed.

(** [soup.find] returns the first matching element of the document. *)
Lemma soup_find_first (name key value : string)
  (before after : list Tag) (elem : Tag) :
  Forall (fun t => ~ is_element name key value t) before ->
  is_element name key value elem ->
  soup_find (before ++ elem :: after) name key value = Some elem.
Proof.
  intros Hbefore Helem. unfold soup_find.
  induction Hbefore as [|t before Ht _ IH]; simpl.
  - apply soup_find_test in Helem. now rewrite Helem.
  - destruct (String.eqb (tag_name t) name
              && bool_decide (tag_attrs t !! key = Some value)) eqn:E.
    + apply soup_find_test in E. contradiction.
    + exact IH.
Qed.

Lemma soup_find_absent (name key value : string) (soup : list Tag) :
  Forall (fun t => ~ is_element name key value t) soup ->
  soup_find soup name key value = None.
Proof.
  intros H. unfold soup_find.
  induction H as [|t soup Ht _ IH]; simpl; [reflexivity|].
  destruct (String.eqb (tag_name t) name
            && bool_decide (tag_attrs t !! key = Some value)) eqn:E.
  - apply soup_find_test in E. contradiction.
  - exact IH.
Qed.

(** C10, as amended.  When the first input element named [SAMLResponse]
    of a document has the value [QUJD], raw extraction returns [QUJD] and
    decoded extraction returns [ABC]; when the document has no input
    element named [SAMLResponse], extraction returns [None] and raises
    nothing. *)
Theorem extract_saml_response_first_input (env : Env) (html : string) :
  (forall (before : list Tag) (elem : Tag) (after : list Tag),
      BeautifulSoup env html = (before ++ elem :: after)%list ->
      Forall (fun t => ~ is_element "input" "name" "SAMLResponse" t)
             before ->
      is_element "input" "name" "SAMLResponse" elem ->
      tag_attrs elem !! "value" = Some "QUJD" ->
      extract_saml_response env html true = Val (Some "QUJD")
      /\ extract_saml_response env html false = Val (Some "ABC"))
  /\ (Forall (fun t => ~ is_element "input" "name" "SAMLResponse" t)
             (BeautifulSoup env html) ->
      forall raw, extract_saml_response env html raw = Val None).
Proof.
  split.
  - intros before elem after Hsoup Hbefore Helem Hvalue.
    unfold extract_saml_response, extract_saml.
    rewrite Hsoup, (soup_find_first _ _ _ _ _ _ Hbefore Helem).
    unfold attr_str. rewrite Hvalue. split; reflexivity.
  - intros Habsent raw.
    unfold extract_saml_response, extract_saml.
    now rewrite (soup_find_absent _ _ _ _ Habsent).
Qed.

Lemma extract_saml_response_first_input_witness :
  let env := sample_env
               [("<input name=SAMLResponse value=QUJD>",
                 [input_tag "SAMLResponse" "QUJD"]);
                ("<p>no form here</p>", [])] in
  (extract_saml_response env "<input name=SAMLResponse value=QUJD>" true
   = Val (Some "QUJD")
   /\ extract_saml_response env "<input name=SAMLResponse value=QUJD>"
                            false
      = Val (Some "ABC"))
  /\ extract_saml_response env "<p>no form here</p>" false = Val None.
Proof.
  intros env. split.
  - apply (proj1 (extract_saml_response_first_input env _)
                 [] (input_tag "SAMLResponse" "QUJD") []).
    + reflexivity.
    + constructor.
    + split; reflexivity.
    + reflexivity.
  - apply (proj2 (extract_saml_response_first_input env _)).
    constructor.
Defined.

(** C10, as stated, fails: a document can contain an input element named
    [SAMLResponse] with value [QUJD] behind an earlier one of the same
    name; extraction then returns the earlier value. *)
Lemma extract_saml_response_takes_first :
  let env := sample_env
               [("two responses",
                 [input_tag "SAMLResponse" "WFla";
                  input_tag "SAMLResponse" "QUJD"])] in
  In (input_tag "SAMLResponse" "QUJD") (BeautifulSoup env "two responses")
  /\ extract_saml_response env "two responses" true = Val (Some "WFla")
  /\ extract_saml_response env "two responses" true <> Val (Some "QUJD").
Proof.
  intros env. split; [right; left; reflexivity|].
  split; [vm_compute; reflexivity | vm_compute; discriminate].
Qed.

(* ===================================================================== *)
(** * 13. Running the monad                                               *)
(* ===================================================================== *)

Lemma run_bind {A B} (m : M A) (k : A -> M B) (w : World) :
  (m ≫= k) w = match m w with
               | (Done a, w') => k a w'
               | (Fail f, w') => (Fail f, w')
               end.
Proof. reflexivity. Qed.

Lemma run_bind_done {A B} (m : M A) (k : A -> M B) (w w' : World) (a : A) :
  m w = (Done a, w') -> (m ≫= k) w = k a w'.
Proof. intros H. now rewrite run_bind, H. Qed.

Lemma run_bind_fail {A B} (m : M A) (k : A -> M B) (w w' : World)
  (f : failure) :
  m w = (Fail f, w') -> (m ≫= k) w = (Fail f, w').
Proof. intros H. now rewrite run_bind, H. Qed.

Lemma run_emit (e : event) (w : World) :
  emit e w = (Done tt, with_trace (trace w ++ [e]) w).
Proof. reflexivity. Qed.

(** Run the binds at the head of the goal as far as they compute. *)
Ltac mrun :=
  repeat first [ rewrite run_bind
               | rewrite run_emit
               | progress cbn [mret M_ret ret lift raise fail andb negb orb]
               | progress unfold mask, user_print, time_sleep, logger_error ].

Lemma run_die {A} (status : Z) (e : error) (w : World) :
  @die A status e w
  = (Fail (SysExit status), with_trace (trace w ++ [Logged e]) w).
Proof. reflexivity. Qed.

(* ===================================================================== *)
(** * 14. Factor selection                                                *)
(* ===================================================================== *)

Lemma is_prefix_spec (p s : string) :
  Text.is_prefix p s = true <-> exists after, s = p +:+ after.
Proof.
  revert s. induction p as [|a p IH]; intros s; simpl.
  - split; [intros _; now exists s | reflexivity].
  - destruct s as [|b s].
    + split; [discriminate | intros [after H]; discriminate].
    + rewrite andb_true_iff, Ascii.eqb_eq, IH. split.
      * intros [-> [after ->]]. now exists after.
      * intros [after H]. injection H as -> ->. split; [reflexivity|].
        now exists after.
Qed.

(** [needle in hay] is the substring test. *)
Lemma contains_spec (needle hay : string) :
  Text.contains needle hay = true <-> substring needle hay.
Proof.
  unfold substring. induction hay as [|c hay IH].
  - simpl. rewrite orb_false_r, is_prefix_spec. split.
    + intros [after H]. now exists "", after.
    + intros [before [after H]]. destruct before; [now exists after|].
      discriminate.
  - cbn [Text.contains]. rewrite orb_true_iff, is_prefix_spec, IH. split.
    + intros [[after H] | [before [after H]]].
      * now exists "", after.
      * exists (String c before), after. simpl. now rewrite H.
    + intros [before [after H]]. destruct before as [|b before].
      * left. now exists after.
      * right. simpl in H. injection H as _ H. now exists before, after.
Qed.

Lemma matching_indices_positions (preset : string) (l : list string) :
  matching_indices preset l = positions (Text.contains preset) 0 l.
Proof.
  unfold matching_indices, enumerate. generalize 0%nat.
  induction l as [|x l IH]; intros k; simpl; [reflexivity|].
  destruct (Text.contains preset x); simpl; now rewrite IH.
Qed.

Lemma positions_none (f : string -> bool) (k : nat) (l : list string) :
  (forall (i : nat) x, l !! i = Some x -> f x = false) ->
  positions f k l = [].
Proof.
  revert k. induction l as [|x l IH]; intros k H; simpl; [reflexivity|].
  rewrite (H 0%nat x eq_refl). apply IH.
  intros i y Hi. exact (H (S i) y Hi).
Qed.

Lemma positions_one (f : string -> bool) (k : nat) (l : list string)
  (i : nat) (x : string) :
  l !! i = Some x -> f x = true ->
  (forall (j : nat) y, l !! j = Some y -> f y = true -> j = i) ->
  positions f k l = [Z.of_nat (k + i)].
Proof.
  revert k i. induction l as [|z l IH]; intros k i Hi Hx Huniq.
  - discriminate.
  - simpl. destruct i as [|i].
    + injection Hi as ->. rewrite Hx, Nat.add_0_r. f_equal.
      apply positions_none. intros j y Hj.
      destruct (f y) eqn:Hy; [|reflexivity].
      specialize (Huniq (S j) y Hj Hy). discriminate.
    + destruct (f z) eqn:Hz.
      * specialize (Huniq 0%nat z eq_refl Hz). discriminate.
      * rewrite (IH (S k) i Hi Hx).
        -- f_equal. lia.
        -- intros j y Hj Hy. specialize (Huniq (S j) y Hj Hy). lia.
Qed.

Lemma positions_some (f : string -> bool) (k : nat) (l : list string)
  (i : nat) (x : string) :
  l !! i = Some x -> f x = true ->
  exists a rest, positions f k l = a :: rest.
Proof.
  revert k i. induction l as [|z l IH]; intros k i Hi Hx; [discriminate|].
  simpl. destruct (f z) eqn:Hz; [eauto|].
  destruct i as [|i]; [injection Hi as ->; congruence|].
  exact (IH (S k) i Hi Hx).
Qed.

Lemma positions_two (f : string -> bool) (k : nat) (l : list string)
  (i j : nat) (x y : string) :
  (i < j)%nat -> l !! i = Some x -> f x = true ->
  l !! j = Some y -> f y = true ->
  exists a b rest, positions f k l = a :: b :: rest.
Proof.
  revert k i j. induction l as [|z l IH]; intros k i j Hij Hi Hx Hj Hy;
    [discriminate|].
  destruct j as [|j]; [lia|]. simpl.
  destruct i as [|i].
  - injection Hi as ->. rewrite Hx.
    destruct (positions_some f (S k) l j y Hj Hy) as (a & rest & ->).
    eauto.
  - destruct (IH (S k) i j ltac:(lia) Hi Hx Hj Hy) as (a & b & rest & ->).
    destruct (f z); eauto.
Qed.

Lemma matches_at_bool (selector : string) (labels : list string) (i : nat) :
  matches_at selector labels i
  <-> match labels !! i with
      | Some label => Text.contains selector label
      | None => false
      end = true.
Proof.
  unfold matches_at. destruct (labels !! i) as [label|].
  - rewrite contains_spec. split; [intros (l & [= ->] & H) | ]; eauto.
  - split; [intros (l & H & _) |]; discriminate.
Qed.

Lemma mfa_index_unfold (selector : string) (labels : list string)
  (mfa_options : json) :
  selector <> "" ->
  mfa_index (Some selector) labels mfa_options
  = match positions (Text.contains selector) 0 labels with
    | [] => select_preferred_mfa_index
    | [i] => ret i
    | _ => die 1 AmbiguousMfaSelector
    end.
Proof.
  intros Hsel. unfold mfa_index, nonempty. cbn [opt_json Py.truthy].
  destruct (String.eqb_spec selector "") as [|_]; [contradiction|].
  cbn [negb]. now rewrite matching_indices_positions.
Qed.

Lemma factor_label_format (env : Env) (d : gmap string json)
  (provider factor_type id : string) :
  d !! "provider" = Some (JStr provider) ->
  d !! "factorType" = Some (JStr factor_type) ->
  d !! "id" = Some (JStr id) ->
  factor_label env (JDict d)
  = Val (provider +:+ "_" +:+ factor_type +:+ "_" +:+ id).
Proof.
  intros Hp Ht Hi. unfold factor_label, Py.getitem.
  now rewrite Hp, Ht, Hi.
Qed.

(** C4.  With a preferred selector configured (a non-empty string) the
    selector is matched as a substring of each label
    [provider_factorType_id]: when no label matches, the index is the one
    the user picks interactively; when exactly one label matches, its
    index is selected and nothing else happens; when two labels match,
    the attempt ends with status 1 after [AmbiguousMfaSelector] is
    reported; and as soon as some label matches, the selection or the
    failure is the same in every world, hence at every repetition. *)
Theorem mfa_index_by_substring (env : Env) (selector : string)
  (labels : list string) (mfa_options : json) :
  selector <> "" ->
  (forall (d : gmap string json) (provider factor_type id : string),
      d !! "provider" = Some (JStr provider) ->
      d !! "factorType" = Some (JStr factor_type) ->
      d !! "id" = Some (JStr id) ->
      factor_label env (JDict d)
      = Val (provider +:+ "_" +:+ factor_type +:+ "_" +:+ id))
  /\ ((forall i, ~ matches_at selector labels i) ->
      forall w, mfa_index (Some selector) labels mfa_options w
                = select_preferred_mfa_index w)
  /\ (forall i,
        matches_at selector labels i ->
        (forall j, matches_at selector labels j -> j = i) ->
        forall w, mfa_index (Some selector) labels mfa_options w
                  = (Done (Z.of_nat i), w))
  /\ (forall i j,
        i <> j ->
        matches_at selector labels i -> matches_at selector labels j ->
        forall w, mfa_index (Some selector) labels mfa_options w
                  = (Fail (SysExit 1),
                     with_trace (trace w ++ [Logged AmbiguousMfaSelector])
                                w))
  /\ (forall i,
        matches_at selector labels i ->
        forall w1 w2,
          fst (mfa_index (Some selector) labels mfa_options w1)
          = fst (mfa_index (Some selector) labels mfa_options w2)).
Proof.
  intros Hsel. rewrite (mfa_index_unfold _ _ _ Hsel).
  split; [exact (factor_label_format env)|].
  split; [|split; [|split]].
  - intros Hnone w. rewrite positions_none; [reflexivity|].
    intros i x Hi. destruct (Text.contains selector x) eqn:Hx;
      [|reflexivity].
    exfalso. apply (Hnone i). exists x. split; [exact Hi|].
    now apply contains_spec.
  - intros i (x & Hi & Hx%contains_spec) Huniq w.
    rewrite (positions_one _ 0 labels i x Hi Hx); [reflexivity|].
    intros j y Hj Hy. apply Huniq. exists y. split; [exact Hj|].
    now apply contains_spec.
  - intros i j Hij (x & Hi & Hx%contains_spec)
           (y & Hj & Hy%contains_spec) w.
    destruct (Nat.lt_total i j) as [Hlt | [Heq | Hlt]]; [|contradiction|].
    + destruct (positions_two _ 0 labels i j x y Hlt Hi Hx Hj Hy)
        as (a & b & rest & ->).
      apply run_die.
    + destruct (positions_two _ 0 labels j i y x Hlt Hj Hy Hi Hx)
        as (a & b & rest & ->).
      apply run_die.
  - intros i (x & Hi & Hx%contains_spec) w1 w2.
    destruct (positions_some _ 0 labels i x Hi Hx) as (a & rest & ->).
    destruct rest; reflexivity.
Qed.

Lemma mfa_index_by_substring_witness :
  let labels := ["OKTA_push_opf1"; "OKTA_sms_sms2"; "GOOGLE_sms_sms3"] in
  mfa_index (Some "DUO") labels JNull silent
  = select_preferred_mfa_index silent
  /\ mfa_index (Some "push") labels JNull silent = (Done 0, silent)
  /\ mfa_index (Some "sms") labels JNull silent
     = (Fail (SysExit 1),
        with_trace (trace silent ++ [Logged AmbiguousMfaSelector]) silent)
  /\ fst (mfa_index (Some "sms") labels JNull silent)
     = fst (mfa_index (Some "sms") labels JNull (answering [])).
Proof.
  intros labels.
  assert (forall s : string, String.eqb s "" = false -> s <> "") as Hne
    by (intros s H ->; discriminate).
  split; [|split; [|split]].
  - apply (proj1 (proj2 (mfa_index_by_substring
                           (sample_env []) "DUO" labels JNull
                           (Hne "DUO" eq_refl)))).
    intros i H%matches_at_bool.
    destruct i as [|[|[|i]]]; discriminate.
  - apply (proj1 (proj2 (proj2 (mfa_index_by_substring
                                  (sample_env []) "push" labels JNull
                                  (Hne "push" eq_refl)))) 0%nat).
    + apply matches_at_bool. reflexivity.
    + intros j H%matches_at_bool.
      destruct j as [|[|[|j]]]; [reflexivity|discriminate..].
  - apply (proj1 (proj2 (proj2 (proj2 (mfa_index_by_substring
                                         (sample_env []) "sms" labels
                                         JNull (Hne "sms" eq_refl)))))
                 1%nat 2%nat).
    + discriminate.
    + apply matches_at_bool. reflexivity.
    + apply matches_at_bool. reflexivity.
  - apply (proj2 (proj2 (proj2 (proj2 (mfa_index_by_substring
                                         (sample_env []) "sms" labels
                                         JNull (Hne "sms" eq_refl)))))
                 1%nat).
    apply matches_at_bool. reflexivity.
Defined.

(* ===================================================================== *)
(** * 15. Steps of the transport                                          *)
(* ===================================================================== *)

Lemma run_send (req : Request) (w : World) (r : Response)
  (rest : list Response) :
  replies w = r :: rest ->
  send req w
  = (Done r, with_replies rest (with_trace (trace w ++ [Sent req]) w)).
Proof.
  intros H. unfold send. rewrite run_bind, run_emit.
  unfold next. cbn [replies with_trace]. now rewrite H.
Qed.

Lemma run_send_exhausted (req : Request) (w : World) :
  replies w = [] ->
  send req w = (Fail Exhausted, with_trace (trace w ++ [Sent req]) w).
Proof.
  intros H. unfold send. rewrite run_bind, run_emit.
  unfold next. cbn [replies with_trace]. now rewrite H.
Qed.

(* ===================================================================== *)
(** * 16. The SAML response and the state token                           *)
(* ===================================================================== *)

(** C7.  Whenever the relying party's reply to the posted SAML response
    embeds a state token (a non-empty one), [send_saml_response] follows
    the POST with a GET to the fixed origin
    [https://newscorpdev2.oktapreview.com], path [/login/token/redirect],
    carrying the token; this happens whatever the configuration holds
    and whatever the post URL is; the cookies of the reply to that GET
    are returned. *)
Theorem send_saml_response_fixed_redirect (env : Env) (config : loc)
  (saml_response : SamlResponse) (w : World) (post_url token : string)
  (reply follow_up : Response) (rest : list Response) :
  sp_post_url saml_response = Some post_url ->
  replies w = reply :: follow_up :: rest ->
  extract_state_token env (text reply) = Val (Some token) ->
  token <> "" ->
  exists posted,
    method posted = POST /\ target posted = post_url
    /\ send_saml_response env config saml_response w
       = (Done (jar follow_up),
          with_replies rest
            (with_trace
               (trace w
                ++ [ Sent posted;
                     Sent {| method := GET;
                             target :=
                               "https://newscorpdev2.oktapreview.com"
                               +:+ "/login/token/redirect";
                             headers := ∅;
                             payload :=
                               Params (dict [("stateToken", JStr token)])
                          |} ])
               w)).
Proof.
  intros Hurl Hreplies Htoken Hne.
  eexists. split; [|split]; cycle 2.
  - unfold send_saml_response. rewrite Hurl. cbn [opt_json as_url].
    rewrite run_bind. cbn [mret M_ret ret].
    rewrite run_bind. unfold HTTP_post.
    rewrite (run_send _ _ _ _ Hreplies).
    rewrite Htoken. rewrite run_bind. cbn [lift mret M_ret ret].
    unfold nonempty. cbn [opt_json Py.truthy].
    destruct (String.eqb_spec token "") as [|_]; [contradiction|].
    cbn [negb]. rewrite run_bind. unfold HTTP_get.
    erewrite run_send by reflexivity.
    cbn [mret M_ret ret]. unfold myorg.
    destruct w; cbn. rewrite <- app_assoc. reflexivity.
  - reflexivity.
  - reflexivity.
Qed.

Lemma send_saml_response_fixed_redirect_witness :
  let env := sample_env
               [("signed in", [script_tag "var stateToken = '00abc';"])] in
  let w := answering [ page "signed in" ∅;
                       page "" {[ "sid" := "102xyz" ]} ] in
  exists posted,
    method posted = POST /\ target posted = "https://sp.example/acs"
    /\ send_saml_response env 0%nat
         {| sp_response := Some "QUJD"; sp_relay_state := Some "r";
            sp_post_url := Some "https://sp.example/acs" |} w
       = (Done {[ "sid" := "102xyz" ]},
          with_replies []
            (with_trace
               (trace w
                ++ [ Sent posted;
                     Sent {| method := GET;
                             target :=
                               "https://newscorpdev2.oktapreview.com"
                               +:+ "/login/token/redirect";
                             headers := ∅;
                             payload :=
                               Params (dict [("stateToken", JStr "00abc")])
                          |} ])
               w)).
Proof.
  intros env w.
  exact (send_saml_response_fixed_redirect env 0%nat
           {| sp_response := Some "QUJD"; sp_relay_state := Some "r";
              sp_post_url := Some "https://sp.example/acs" |} w
           "https://sp.example/acs" "00abc"
           (page "signed in" ∅) (page "" {[ "sid" := "102xyz" ]}) []
           eq_refl eq_refl eq_refl ltac:(discriminate)).
Defined.

(* ===================================================================== *)
(** * 17. OAuth2 discovery                                                *)
(* ===================================================================== *)

Lemma bind_done_inv {A B} (m : M A) (k : A -> M B) (w w' : World) (b : B) :
  (m ≫= k) w = (Done b, w') ->
  exists a w1, m w = (Done a, w1) /\ k a w1 = (Done b, w').
Proof.
  rewrite run_bind. destruct (m w) as [[a|f] w1]; [eauto | discriminate].
Qed.

Lemma run_config_get {A} (l : loc) (field : Config -> A) (w : World)
  (c : Config) :
  heap w !! l = Some c -> config_get l field w = (Done (field c), w).
Proof. intros H. unfold config_get. now rewrite H. Qed.

Lemma check_items_present (items : list string) (d : gmap string json)
  (w : World) :
  Forall (fun item => is_Some (d !! item)) items ->
  check_items items (JDict d) w = (Done tt, w).
Proof.
  induction 1 as [|item items Hitem _ IH]; [reflexivity|].
  cbn [check_items]. rewrite run_bind. cbn [Py.contains lift].
  unfold Py.has_key. rewrite (bool_decide_eq_true_2 _ Hitem). exact IH.
Qed.

Lemma check_items_missing (items : list string) (d : gmap string json)
  (w : World) :
  Exists (fun item => d !! item = None) items ->
  check_items items (JDict d) w
  = (Fail (SysExit 1),
     with_trace (trace w ++ [Logged InvalidOAuth2Config]) w).
Proof.
  induction items as [|item items IH]; intros H.
  - inversion H.
  - cbn [check_items]. rewrite run_bind. cbn [Py.contains lift].
    unfold Py.has_key. destruct (d !! item) as [x|] eqn:Hitem.
    + rewrite bool_decide_eq_true_2 by eauto. apply IH.
      inversion H as [? ? Hhere | ? ? Hlater]; subst;
        [congruence | exact Hlater].
    + rewrite bool_decide_eq_false_2 by (intros [? ?]; discriminate).
      apply run_die.
Qed.

Lemma run_response_json (r : Response) (j : json) (w : World) :
  body r = Some j -> lift (response_json r) w = (Done j, w).
Proof. intros H. unfold response_json. now rewrite H. Qed.

(** The discovery request of [get_oauth2_configuration]. *)
Lemma run_get_oauth2_configuration (url : string) (w : World)
  (reply : Response) (rest : list Response) (j : json) :
  replies w = reply :: rest ->
  body reply = Some j ->
  get_oauth2_configuration url w
  = (validate_oauth2_configuration j ≫= (fun _ => mret j) : M json)
      (with_replies rest
         (with_trace
            (trace w
             ++ [Sent {| method := GET;
                         target :=
                           url +:+ "/.well-known/oauth-authorization-server";
                         headers := dict [("accept", "application/json")];
                         payload := NoContent |}])
            w)).
Proof.
  intros Hreplies Hbody. unfold get_oauth2_configuration, HTTP_get.
  rewrite run_bind, (run_send _ _ _ _ Hreplies).
  rewrite run_bind, (run_response_json _ _ _ Hbody).
  rewrite run_bind, (run_response_json _ _ _ Hbody).
  reflexivity.
Qed.

(** C1, as amended.  Once the discovery document has been fetched,
    [oauth2_authorize] validates it before anything else: a missing
    mandatory field ends the attempt with status 1 ([InvalidOAuth2Config]),
    and so does a document that has every mandatory field but whose
    [grant_types_supported] does not contain [authorization_code]
    ([UnsupportedGrantType]); the flow is not skipped.  Whenever
    [oauth2_authorize] returns, it returns the prior session artifact
    unchanged. *)
Theorem oauth2_authorize_validates_first (config : loc)
  (session_cookies : option (gmap string string)) (w : World)
  (c : Config) (reply : Response) (rest : list Response)
  (discovery : gmap string json) :
  heap w !! config = Some c ->
  replies w = reply :: rest ->
  body reply = Some (JDict discovery) ->
  let asked :=
    with_replies rest
      (with_trace
         (trace w
          ++ [Sent {| method := GET;
                      target :=
                        org c +:+ "/.well-known/oauth-authorization-server";
                      headers := dict [("accept", "application/json")];
                      payload := NoContent |}])
         w) in
  (Exists (fun item => discovery !! item = None)
          mandadory_oauth2_config_items ->
   oauth2_authorize config session_cookies w
   = (Fail (SysExit 1),
      with_trace (trace asked ++ [Logged InvalidOAuth2Config]) asked))
  /\ (forall grants,
        Forall (fun item => is_Some (discovery !! item))
               mandadory_oauth2_config_items ->
        discovery !! "grant_types_supported" = Some grants ->
        Py.contains "authorization_code" grants = Val false ->
        oauth2_authorize config session_cookies w
        = (Fail (SysExit 1),
           with_trace (trace asked ++ [Logged UnsupportedGrantType]) asked))
  /\ (forall r w',
        oauth2_authorize config session_cookies w = (Done r, w') ->
        r = session_cookies).
Proof.
  intros Hconfig Hreplies Hbody asked.
  assert (oauth2_authorize config session_cookies w
          = (((validate_oauth2_configuration (JDict discovery)
                ≫= (fun _ => mret (JDict discovery))) : M json)
               ≫= (fun oauth2_config =>
                     org_url ← config_get config org;
                     enabled ← authorization_code_enabled org_url
                                 oauth2_config;
                     (if enabled : bool then
                        _ ← authorization_code_flow config oauth2_config
                              session_cookies;
                        mret tt
                      else mret tt) ;;
                     mret session_cookies)
              : M (option (gmap string string))) asked) as Hrun.
  { unfold oauth2_authorize.
    rewrite run_bind, (run_config_get _ _ _ _ Hconfig).
    rewrite run_bind, (run_get_oauth2_configuration _ _ _ _ _
                         Hreplies Hbody).
    symmetry. apply run_bind. }
  split; [|split].
  - intros Hmissing. rewrite Hrun.
    unfold validate_oauth2_configuration.
    rewrite !run_bind, (check_items_missing _ _ _ Hmissing). reflexivity.
  - intros grants Hpresent Hgrants Hlacking. rewrite Hrun.
    unfold validate_oauth2_configuration.
    rewrite !run_bind, (check_items_present _ _ _ Hpresent).
    cbn [Py.getitem]. rewrite Hgrants. mrun.
    rewrite Hlacking. mrun. reflexivity.
  - intros r w' Hdone. rewrite Hrun in Hdone.
    apply bind_done_inv in Hdone as (j & w1 & _ & Hdone).
    apply bind_done_inv in Hdone as (u & w2 & _ & Hdone).
    apply bind_done_inv in Hdone as (e & w3 & _ & Hdone).
    apply bind_done_inv in Hdone as (x & w4 & _ & Hdone).
    now injection Hdone as <- _.
Qed.

Lemma oauth2_authorize_validates_first_witness :
  let lacking := answering [document (JDict discovery_without_grant)] in
  let broken :=
    answering [document (JDict discovery_without_token_endpoint)] in
  (fst (oauth2_authorize 0%nat None lacking) = Fail (SysExit 1)
   /\ errors (snd (oauth2_authorize 0%nat None lacking))
      = [UnsupportedGrantType])
  /\ (fst (oauth2_authorize 0%nat None broken) = Fail (SysExit 1)
      /\ errors (snd (oauth2_authorize 0%nat None broken))
         = [InvalidOAuth2Config]).
Proof.
  intros lacking broken. split.
  - rewrite (proj1 (proj2 (oauth2_authorize_validates_first
                             0%nat None lacking sample_config
                             (document (JDict discovery_without_grant))
                             [] discovery_without_grant
                             eq_refl eq_refl eq_refl))
                   (JList [JStr "implicit"])).
    + split; reflexivity.
    + repeat constructor; eexists; reflexivity.
    + reflexivity.
    + reflexivity.
  - rewrite (proj1 (oauth2_authorize_validates_first
                      0%nat None broken sample_config
                      (document (JDict discovery_without_token_endpoint))
                      [] discovery_without_token_endpoint
                      eq_refl eq_refl eq_refl)).
    + split; reflexivity.
    + right. left. reflexivity.
Defined.

(** C1, as stated, fails: with a discovery document whose
    [grant_types_supported] is [["implicit"]], [oauth2_authorize] does
    not hand back the session cookies; the attempt ends with status 1. *)
Lemma oauth2_authorize_does_not_skip :
  let w := answering [document (JDict discovery_without_grant)] in
  let session_cookies := Some ({[ "sid" := "102xyz" ]} : gmap string string) in
  discovery_without_grant !! "grant_types_supported"
  = Some (JList [JStr "implicit"])
  /\ fst (oauth2_authorize 0%nat session_cookies w) = Fail (SysExit 1)
  /\ fst (oauth2_authorize 0%nat session_cookies w) <> Done session_cookies
  /\ errors (snd (oauth2_authorize 0%nat session_cookies w))
     = [UnsupportedGrantType].
Proof.
  intros w session_cookies.
  assert (fst (oauth2_authorize 0%nat session_cookies w)
          = Fail (SysExit 1)) as H by (vm_compute; reflexivity).
  split; [reflexivity|]. split; [exact H|]. split.
  - rewrite H. discriminate.
  - vm_compute. reflexivity.
Qed.

(* ===================================================================== *)
(** * 18. The session token of a verified factor                          *)
(* ===================================================================== *)

(** C2 (the code departs from it).  When the final verification response
    holds no session token, the dispatcher neither returns a token nor
    ends the attempt with [MfaVerificationFailed]: it raises.  The
    exception is the [KeyError] (or [TypeError]) of reading
    [primary_auth['factorType']] for the message, in which case nothing
    is reported at all, or else that of reading
    [mfa_verify["sessionToken"]] after the report. *)
Theorem missing_session_token_raises
  (mfa_provider primary_auth mfa_verify : json) (w : World) :
  Py.contains "sessionToken" mfa_verify = Val false ->
  exists e,
    (e = KeyError "factorType" \/ e = KeyError "sessionToken"
     \/ e = TypeError)
    /\ fst (session_token_of mfa_provider primary_auth mfa_verify w)
       = Fail (Raised e)
    /\ (errors (snd (session_token_of mfa_provider primary_auth
                                      mfa_verify w))
        = errors w
        \/ Py.getitem mfa_verify "sessionToken" = Exn e).
Proof.
  intros Hlacks. unfold session_token_of.
  rewrite run_bind, Hlacks. cbn [lift ret negb].
  rewrite run_bind, run_bind.
  destruct (Py.getitem primary_auth "factorType") as [v|e] eqn:Hfactor.
  - cbn [lift ret]. unfold logger_error. rewrite run_emit.
    destruct mfa_verify as [| | | s | l | d]; try discriminate.
    + exists TypeError. auto.
    + exists TypeError. auto.
    + exists (KeyError "sessionToken"). cbn [Py.getitem].
      cbn [Py.contains] in Hlacks. injection Hlacks as Hlacks.
      unfold Py.has_key in Hlacks.
      destruct (d !! "sessionToken") eqn:Hd.
      * rewrite bool_decide_eq_true_2 in Hlacks by eauto. discriminate.
      * auto.
  - exists e. cbn [lift raise fail fst snd]. split; [|auto].
    destruct primary_auth; cbn [Py.getitem] in Hfactor;
      try (injection Hfactor as <-; auto).
    destruct (_ !! _); [discriminate|]. injection Hfactor as <-. auto.
Qed.

Lemma missing_session_token_raises_witness :
  exists e,
    (e = KeyError "factorType" \/ e = KeyError "sessionToken"
     \/ e = TypeError)
    /\ fst (session_token_of (JStr "OKTA") mfa_required password_expired
                             silent)
       = Fail (Raised e)
    /\ (errors (snd (session_token_of (JStr "OKTA") mfa_required
                                      password_expired silent))
        = errors silent
        \/ Py.getitem password_expired "sessionToken" = Exn e).
Proof.
  apply (missing_session_token_raises
           (JStr "OKTA") mfa_required password_expired silent).
  reflexivity.
Defined.

(** The same, end to end: the user answers the SMS challenge, the
    provider replies that the password has expired, and
    [mfa_provider_type] raises [KeyError: 'factorType'] without having
    reported anything. *)
Example mfa_provider_type_raises :
  let w := with_typed ["123456"] (answering [document password_expired]) in
  let run :=
    mfa_provider_type 0%nat (JStr "OKTA") sms_challenge
      (JStr "https://acme.okta.com/api/v1/authn/factors/sms2/verify")
      mfa_required sms_factor
      (dict [("accept", "application/json")])
      (dict [("stateToken", JStr "00abc")]) w in
  Py.contains "sessionToken" password_expired = Val false
  /\ fst run = Fail (Raised (KeyError "factorType"))
  /\ errors (snd run) = [].
Proof. vm_compute. auto. Qed.

(* ===================================================================== *)
(** * 19. The push polling engine                                         *)
(* ===================================================================== *)

Lemma errors_app (w : World) (t : list event) :
  errors (with_trace (trace w ++ t) w)
  = (errors w ++ omap (fun e => match e with Logged x => Some x | _ => None end) t)%list.
Proof. unfold errors. cbn [trace with_trace]. apply omap_app. Qed.

Lemma poll_once_object (u : string) (payload : gmap string json)
  (hd : gmap string string) (p : Poll) (w : World) (r : Response)
  (rest : list Response) (d : gmap string json) (a : json) :
  replies w = r :: rest ->
  body r = Some (JDict d) ->
  correct_answer (JDict d) = Val a ->
  exists w',
    poll_once (JStr u) payload hd p w
    = (Done {| status := default (JStr "UNKNOWN") (d !! "status");
               result_ := default (JStr "UNKNOWN") (d !! "factorResult");
               response_ := JDict d;
               challenge_displayed :=
                 challenge_displayed p || Py.truthy a |}, w')
    /\ replies w' = rest
    /\ errors w' = errors w
    /\ requests w'
       = (requests w ++ [{| method := POST; target := u; headers := hd;
                           payload := Json payload |}])%list.
Proof.
  intros Hreplies Hbody Hanswer.
  destruct (Py.truthy a) eqn:Ha, (challenge_displayed p) eqn:Hp;
  unfold poll_once;
  cbn [as_url]; mrun; unfold HTTP_post_json, HTTP_post; mrun;
  rewrite (run_send _ _ _ _ Hreplies); rewrite Hbody; mrun;
  cbn [Py.contains Py.getitem Py.get]; mrun;
  rewrite Hanswer; mrun; unfold Py.has_key;
  (destruct (d !! "sessionToken") as [tok|] eqn:Htok;
   [ rewrite bool_decide_eq_true_2 by eauto
   | rewrite bool_decide_eq_false_2 by (intros [? ?]; discriminate) ]);
  mrun; rewrite ?Ha, ?Hp; mrun;
  (eexists; split; [reflexivity|]);
  destruct w; unfold errors, requests; cbn; rewrite ?omap_app; cbn;
  rewrite ?app_nil_r; auto.
Qed.

Lemma waiting_polled (d : gmap string json) (shown : bool) :
  waiting (polled d shown) = true <-> push_state_of d = CHALLENGE_WAITING.
Proof.
  unfold waiting, polled, push_state_of. cbn [status result_].
  destruct (_ && _); [tauto|].
  split; [discriminate|].
  repeat match goal with |- context [if ?b then _ else _] => destruct b end;
    discriminate.
Qed.

Lemma poll_stops (fuel : nat) (url : json) (payload : gmap string json)
  (hd : gmap string string) (p : Poll) (w : World) :
  waiting p = false -> poll fuel url payload hd p w = (Done p, w).
Proof. intros H. destruct fuel; cbn [poll]; now rewrite H. Qed.

Lemma poll_through_waits (u : string) (payload : gmap string json)
  (hd : gmap string string) (waits : list Response) :
  forall (fuel : nat) (p : Poll) (w : World) (last : Response)
         (rest : list Response) (d : gmap string json),
    (List.length waits < fuel)%nat ->
    waiting p = true ->
    replies w = (waits ++ last :: rest)%list ->
    Forall keeps_waiting waits ->
    well_formed last d ->
    push_state_of d <> CHALLENGE_WAITING ->
    exists w' shown,
      poll fuel (JStr u) payload hd p w = (Done (polled d shown), w')
      /\ replies w' = rest
      /\ errors w' = errors w
      /\ List.length (requests w')
         = (List.length (requests w) + List.length waits + 1)%nat.
Proof.
  induction waits as [|r waits IH];
    intros fuel p w last rest d Hfuel Hp Hreplies Hwaits Hlast Hstate.
  - destruct fuel as [|fuel]; [simpl in Hfuel; lia|].
    cbn [poll]. rewrite Hp. destruct Hlast as [Hbody [a Ha]].
    destruct (poll_once_object u payload hd p w last rest d a
                Hreplies Hbody Ha) as (w1 & Hrun & Hrest & Herr & Hreq).
    rewrite run_bind, Hrun. fold (polled d (challenge_displayed p || Py.truthy a)).
    rewrite poll_stops.
    + exists w1, (challenge_displayed p || Py.truthy a). repeat split; auto.
      rewrite Hreq, length_app. simpl. lia.
    + destruct (waiting (polled d (challenge_displayed p || Py.truthy a)))
        eqn:E; [|reflexivity].
      apply waiting_polled in E. contradiction.
  - destruct fuel as [|fuel]; [simpl in Hfuel; lia|].
    cbn [poll]. rewrite Hp.
    inversion Hwaits as [|? ? (dr & [Hbody [a Ha]] & Hdr) Hwaits']; subst.
    destruct (poll_once_object u payload hd p w r (waits ++ last :: rest) dr a
                Hreplies Hbody Ha) as (w1 & Hrun & Hrest & Herr & Hreq).
    rewrite run_bind, Hrun.
    fold (polled dr (challenge_displayed p || Py.truthy a)).
    destruct (IH fuel (polled dr (challenge_displayed p || Py.truthy a))
                 w1 last rest d) as (w2 & shown & Hrun2 & Hrest2 & Herr2 & Hreq2);
      auto.
    + simpl in Hfuel. lia.
    + now apply waiting_polled.
    + exists w2, shown. repeat split; auto; try congruence.
      rewrite Hreq2, Hreq, length_app. simpl. lia.
Qed.

Lemma poll_once_exhausted (u : string) (payload : gmap string json)
  (hd : gmap string string) (p : Poll) (w : World) :
  replies w = [] ->
  poll_once (JStr u) payload hd p w
  = (Fail Exhausted,
     with_trace (trace w ++ [Sent {| method := POST; target := u;
                                     headers := hd;
                                     payload := Json payload |}]) w).
Proof.
  intros H. unfold poll_once. cbn [as_url]. mrun.
  unfold HTTP_post_json, HTTP_post. mrun.
  now rewrite (run_send_exhausted _ _ H).
Qed.

Lemma poll_all_waiting (u : string) (payload : gmap string json)
  (hd : gmap string string) (waits : list Response) :
  forall (fuel : nat) (p : Poll) (w : World),
    (List.length waits < fuel)%nat ->
    waiting p = true ->
    replies w = waits ->
    Forall keeps_waiting waits ->
    exists w',
      poll fuel (JStr u) payload hd p w = (Fail Exhausted, w')
      /\ errors w' = errors w
      /\ List.length (requests w')
         = (List.length (requests w) + List.length waits + 1)%nat.
Proof.
  induction waits as [|r waits IH]; intros fuel p w Hfuel Hp Hreplies Hwaits.
  - destruct fuel as [|fuel]; [simpl in Hfuel; lia|].
    cbn [poll]. rewrite Hp, run_bind, (poll_once_exhausted _ _ _ _ _ Hreplies).
    eexists. split; [reflexivity|].
    unfold errors, requests. cbn [trace with_trace].
    rewrite !omap_app. cbn. rewrite app_nil_r, length_app. simpl. split; [reflexivity | lia].
  - destruct fuel as [|fuel]; [simpl in Hfuel; lia|].
    cbn [poll]. rewrite Hp.
    inversion Hwaits as [|? ? (dr & [Hbody [a Ha]] & Hdr) Hwaits']; subst.
    destruct (poll_once_object u payload hd p w r waits dr a
                Hreplies Hbody Ha) as (w1 & Hrun & Hrest & Herr & Hreq).
    rewrite run_bind, Hrun.
    fold (polled dr (challenge_displayed p || Py.truthy a)).
    destruct (IH fuel (polled dr (challenge_displayed p || Py.truthy a)) w1)
      as (w2 & Hrun2 & Herr2 & Hreq2); auto.
    + simpl in Hfuel. lia.
    + now apply waiting_polled.
    + exists w2. repeat split; auto; try congruence.
      rewrite Hreq2, Hreq, length_app. simpl. lia.
Qed.

(** C3, as amended.  For every sequence of well-formed poll responses
    (JSON objects in which the path to the number challenge runs through
    objects), the engine keeps polling exactly while status is
    [MFA_CHALLENGE] and factorResult is [WAITING], and stops at the first
    response that is not so, leaving the later ones unread.  At that
    response it returns the response when status is [SUCCESS] and a
    session token is present; otherwise it ends the attempt with status
    2, reporting [PushRejected] when the result is [REJECTED],
    [PushTimeout] when it is [TIMEOUT] and [UnsupportedPushOutcome] in
    every other case.  When every response keeps it waiting, it is still
    polling when the responses run out. *)
Theorem push_approval_transitions (u : string) (payload : gmap string json)
  (w : World) :
  (forall (waits : list Response) (last : Response) (rest : list Response)
          (d : gmap string json),
      replies w = (waits ++ last :: rest)%list ->
      Forall keeps_waiting waits ->
      well_formed last d ->
      push_state_of d <> CHALLENGE_WAITING ->
      let run := push_approval (JStr u) payload w in
      replies (snd run) = rest
      /\ List.length (requests (snd run))
         = (List.length (requests w) + List.length waits + 1)%nat
      /\ match push_state_of d with
         | CHALLENGE_WAITING => False
         | CHALLENGE_SUCCESS =>
           fst run = Done (JDict d) /\ errors (snd run) = errors w
         | CHALLENGE_REJECTED =>
           fst run = Fail (SysExit 2)
           /\ errors (snd run) = (errors w ++ [PushRejected])%list
         | CHALLENGE_TIMEOUT =>
           fst run = Fail (SysExit 2)
           /\ errors (snd run) = (errors w ++ [PushTimeout])%list
         | CHALLENGE_UNKNOWN =>
           fst run = Fail (SysExit 2)
           /\ errors (snd run) = (errors w ++ [UnsupportedPushOutcome])%list
         end)
  /\ (Forall keeps_waiting (replies w) ->
      let run := push_approval (JStr u) payload w in
      fst run = Fail Exhausted
      /\ errors (snd run) = errors w
      /\ List.length (requests (snd run))
         = (List.length (requests w) + List.length (replies w) + 1)%nat).
Proof.
  set (w0 := with_trace (trace w ++ [Printed WaitingForApproval]) w).
  assert (errors w0 = errors w) as Herr0.
  { unfold errors, w0. cbn [trace with_trace]. rewrite omap_app. cbn.
    apply app_nil_r. }
  assert (requests w0 = requests w) as Hreq0.
  { unfold requests, w0. cbn [trace with_trace]. rewrite omap_app. cbn.
    apply app_nil_r. }
  split.
  - intros waits last rest d Hreplies Hwaits Hlast Hstate run.
    destruct (poll_through_waits u payload
                (dict [ ("content-type", "application/json");
                        ("accept", "application/json") ])
                waits (S (List.length (replies w0)))
                {| status := JStr "MFA_CHALLENGE"; result_ := JStr "WAITING";
                   response_ := JDict ∅; challenge_displayed := false |}
                w0 last rest d)
      as (w1 & shown & Hrun & Hrest & Herr & Hreq); auto.
    { unfold w0. cbn [replies with_trace]. rewrite Hreplies, length_app.
      simpl. lia. }
    assert (run = ((has ← (if Py.eq_str (status (polled d shown)) "SUCCESS"
                         then lift (Py.contains "sessionToken"
                                      (response_ (polled d shown)))
                         else ret false);
                  if has : bool then ret (response_ (polled d shown))
                  else if Py.eq_str (result_ (polled d shown)) "REJECTED"
                       then die 2 PushRejected
                  else if Py.eq_str (result_ (polled d shown)) "TIMEOUT"
                       then die 2 PushTimeout
                  else die 2 UnsupportedPushOutcome) : M json) w1) as ->.
    { subst run. unfold push_approval. rewrite run_bind.
      unfold user_print. rewrite run_emit. fold w0.
      rewrite run_bind. rewrite Hrun. reflexivity. }
    revert Hstate. unfold push_state_of, polled.
    cbn [status result_ response_ Py.contains]. unfold Py.has_key.
    rewrite Herr0 in Herr. rewrite Hreq0 in Hreq.
    destruct (Py.eq_str _ "MFA_CHALLENGE" && _); [congruence|]. intros _.
    destruct (Py.eq_str _ "SUCCESS"); cbn [andb]; mrun.
    + destruct (bool_decide _); mrun.
      * auto.
      * destruct (Py.eq_str _ "REJECTED"); [|destruct (Py.eq_str _ "TIMEOUT")];
          rewrite run_die; cbn [fst snd replies with_trace];
          rewrite errors_app; unfold requests; cbn [trace with_trace];
          rewrite omap_app, app_nil_r; fold (requests w1);
          cbn [omap]; rewrite Herr; auto.
    + destruct (Py.eq_str _ "REJECTED"); [|destruct (Py.eq_str _ "TIMEOUT")];
        rewrite run_die; cbn [fst snd replies with_trace];
        rewrite errors_app; unfold requests; cbn [trace with_trace];
        rewrite omap_app, app_nil_r; fold (requests w1);
        cbn [omap]; rewrite Herr; auto.
  - intros Hwaits run.
    destruct (poll_all_waiting u payload
                (dict [ ("content-type", "application/json");
                        ("accept", "application/json") ])
                (replies w) (S (List.length (replies w0)))
                {| status := JStr "MFA_CHALLENGE"; result_ := JStr "WAITING";
                   response_ := JDict ∅; challenge_displayed := false |}
                w0)
      as (w1 & Hrun & Herr & Hreq); auto.
    subst run. unfold push_approval. rewrite run_bind.
    unfold user_print. rewrite run_emit. fold w0.
    rewrite run_bind, Hrun. cbn [fst snd]. 
    rewrite Herr, Hreq, Herr0, Hreq0. auto.
Qed.

(* ===================================================================== *)
(** * 20. The number challenge                                            *)
(* ===================================================================== *)

Lemma truthy_not_blank (v : json) : Py.truthy v = negb (is_blank v).
Proof. destruct v as [| [] | [] | [] | [] |]; reflexivity. Qed.

Lemma get_missing (k : string) (dflt : json) :
  Py.get (JDict ∅) k dflt = Val dflt.
Proof. cbn [Py.get]. now rewrite lookup_empty. Qed.

(** The lookup of the code and its test find the value that appears in
    the document, when it is not blank, and nothing otherwise: a missing
    key, a step that raises and a blank value all show nothing. *)
Lemma correct_answer_embedded (j : json) :
  match correct_answer j with
  | Val a => if Py.truthy a then Some a else None
  | Exn _ => None
  end
  = match embedded challenge_path j with
    | Some a => if is_blank a then None else Some a
    | None => None
    end.
Proof.
  unfold correct_answer, challenge_path.
  do 5 (cbn [embedded];
        destruct j as [| | | | | d]; cbn [Py.get rbind]; try reflexivity;
        destruct (d !! _) as [j|]; clear d; cbn [default from_option id];
        [ | rewrite ?get_missing; cbn [rbind Py.truthy]; reflexivity ]).
  cbn [embedded]. rewrite truthy_not_blank. now destruct (is_blank j).
Qed.

Lemma answer_of_lookup (r : Response) :
  answer_of r
  = match body r with
    | Some j =>
      match correct_answer j with
      | Val a => if Py.truthy a then Some a else None
      | Exn _ => None
      end
    | None => None
    end.
Proof.
  unfold answer_of, number_challenge.
  destruct (body r) as [j|]; [|reflexivity].
  symmetry. apply correct_answer_embedded.
Qed.

Lemma pass_summary_unsent (p : Poll) (w : World) (n : nat) (f : failure)
  (w' : World) (new : list event) :
  trace w' = (trace w ++ new)%list ->
  sent new = 0%nat -> shown_from n new = [] ->
  pass_summary p w n (Fail f, w').
Proof.
  intros Htrace Hsent Hshown. exists new. split; [exact Htrace|].
  left. repeat split; auto; discriminate.
Qed.

Lemma pass_summary_answered (p : Poll) (w : World) (n : nat)
  (o : outcome Poll) (w' : World) (new : list event) (r : Response)
  (rest : list Response) :
  replies w = r :: rest ->
  trace w' = (trace w ++ new)%list ->
  sent new = 1%nat ->
  shown_from n new = pass_shows p n r ->
  (forall p', o = Done p' ->
     replies w' = rest
     /\ challenge_displayed p'
        = challenge_displayed p || bool_decide (is_Some (answer_of r))) ->
  pass_summary p w n (o, w').
Proof.
  intros Hreplies Htrace Hsent Hshown Hdone. exists new.
  split; [exact Htrace|]. right; right. exists r, rest. auto.
Qed.

Ltac trace_eq :=
  cbn [fst snd trace with_trace with_replies];
  rewrite <- ?app_assoc; reflexivity.

Lemma poll_once_summary (url : json) (payload : gmap string json)
  (hd : gmap string string) (p : Poll) (w : World) (n : nat) :
  pass_summary p w n (poll_once url payload hd p w).
Proof.
  unfold poll_once.
  destruct url as [| | | u | |];
    try (cbn [as_url]; mrun; rewrite run_die;
         eapply pass_summary_unsent; [trace_eq | reflexivity..]).
  cbn [as_url]. mrun. unfold HTTP_post_json, HTTP_post. mrun.
  destruct (replies w) as [|r rest] eqn:Hreplies.
  { rewrite (run_send_exhausted _ _ Hreplies). eexists. split; [trace_eq|].
    right; left. repeat split; auto; discriminate. }
  rewrite (run_send _ _ _ _ Hreplies).
  destruct (body r) as [j|] eqn:Hbody.
  2:{ mrun. rewrite run_die.
      eapply (pass_summary_answered _ _ _ _ _ _ _ _ Hreplies);
        [trace_eq | reflexivity | | discriminate].
      unfold pass_shows. rewrite answer_of_lookup. now rewrite Hbody. }
  mrun.
  assert (forall e, correct_answer j = Exn e ->
            forall new, shown_from n new = [] ->
            shown_from n new = pass_shows p n r) as Hnone.
  { intros e He new ->. unfold pass_shows.
    rewrite answer_of_lookup. now rewrite Hbody, He. }
  destruct j as [| b | z | s | l | d].
  - cbn [Py.contains]. mrun.
    eapply (pass_summary_answered _ _ _ _ _ _ _ _ Hreplies);
      [trace_eq | reflexivity | eapply Hnone; reflexivity | discriminate].
  - cbn [Py.contains]. mrun.
    eapply (pass_summary_answered _ _ _ _ _ _ _ _ Hreplies);
      [trace_eq | reflexivity | eapply Hnone; reflexivity | discriminate].
  - cbn [Py.contains]. mrun.
    eapply (pass_summary_answered _ _ _ _ _ _ _ _ Hreplies);
      [trace_eq | reflexivity | eapply Hnone; reflexivity | discriminate].
  - cbn [Py.contains]. mrun. destruct (Text.contains _ s);
      cbn [Py.getitem Py.get]; mrun;
      (eapply (pass_summary_answered _ _ _ _ _ _ _ _ Hreplies);
       [trace_eq | reflexivity | eapply Hnone; reflexivity | discriminate]).
  - cbn [Py.contains]. mrun. destruct (existsb _ l);
      cbn [Py.getitem Py.get]; mrun;
      (eapply (pass_summary_answered _ _ _ _ _ _ _ _ Hreplies);
       [trace_eq | reflexivity | eapply Hnone; reflexivity | discriminate]).
  - cbn [Py.contains Py.getitem Py.get]. mrun. unfold Py.has_key.
    assert (pass_shows p n r
            = match correct_answer (JDict d) with
              | Val a => if Py.truthy a && negb (challenge_displayed p)
                         then [(S n, a)] else []
              | Exn _ => []
              end) as Hshows.
    { unfold pass_shows. rewrite answer_of_lookup, Hbody.
      destruct (correct_answer (JDict d)) as [a|]; [|reflexivity].
      destruct (Py.truthy a), (challenge_displayed p); reflexivity. }
    assert (bool_decide (is_Some (answer_of r))
            = match correct_answer (JDict d) with
              | Val a => Py.truthy a
              | Exn _ => false
              end) as Hsome.
    { rewrite answer_of_lookup, Hbody.
      destruct (correct_answer (JDict d)) as [a|]; [|reflexivity].
      destruct (Py.truthy a); reflexivity. }
    destruct (d !! "sessionToken") as [tok|] eqn:Htok;
      [ rewrite bool_decide_eq_true_2 by eauto
      | rewrite bool_decide_eq_false_2 by (intros [? ?]; discriminate) ];
      mrun;
      (destruct (correct_answer (JDict d)) as [a|e] eqn:Hanswer; mrun;
       [ destruct (Py.truthy a) eqn:Ha, (challenge_displayed p) eqn:Hp; mrun
       | ]);
      (eapply (pass_summary_answered _ _ _ _ _ _ _ _ Hreplies);
       [ trace_eq | reflexivity
       | rewrite Hshows, ?Hanswer, ?Ha, ?Hp;
         cbn [andb negb shown_from app]; reflexivity
       | first [ discriminate
               | intros p' [= <-]; rewrite Hsome, ?Hanswer, ?Ha, ?Hp;
                 cbn [snd replies with_trace with_replies
                      challenge_displayed orb];
                 split; reflexivity ] ]).
Qed.

Lemma sent_app (t1 t2 : list event) :
  sent (t1 ++ t2) = (sent t1 + sent t2)%nat.
Proof. unfold sent. now rewrite List.filter_app, length_app. Qed.

Lemma shown_from_app (t1 t2 : list event) :
  forall n,
    shown_from n (t1 ++ t2)
    = (shown_from n t1 ++ shown_from (n + sent t1) t2)%list.
Proof.
  induction t1 as [|e t1 IH]; intros n.
  - cbn. now rewrite Nat.add_0_r.
  - destruct e as [r| | m | | | | |]; cbn [app shown_from];
      try (rewrite IH; reflexivity).
    + rewrite IH. unfold sent. cbn. f_equal. f_equal. lia.
    + destruct m; rewrite IH; reflexivity.
Qed.

Lemma poll_shown (url : json) (payload : gmap string json)
  (hd : gmap string string) (fuel : nat) :
  forall (p : Poll) (w : World) (n : nat),
  exists new,
    trace (snd (poll fuel url payload hd p w)) = (trace w ++ new)%list
    /\ shown_from n new
       = loop_shows (challenge_displayed p) n (take (sent new) (replies w)).
Proof.
  assert (forall b n, loop_shows b n [] = []) as Hnil
    by (intros [|] n; reflexivity).
  induction fuel as [|fuel IH]; intros p w n; cbn [poll];
    destruct (waiting p);
    try (exists []; rewrite app_nil_r; split; [reflexivity|];
         cbn; now rewrite Hnil).
  rewrite run_bind.
  pose proof (poll_once_summary url payload hd p w n) as Hpass.
  destruct (poll_once url payload hd p w) as [[p'|f] w1];
    unfold pass_summary in Hpass; cbn [fst snd] in Hpass.
  - destruct Hpass as (new1 & Htrace1 & [(_ & _ & Hno) | [(_ & _ & _ & Hno)
                        | (r & rest & Hsent & Hreplies & Hshown & Hdone)]]);
      try (exfalso; exact (Hno p' eq_refl)).
    cbn [fst snd] in *. destruct (Hdone p' eq_refl) as [Hrest Hdisplayed].
    destruct (IH p' w1 (S n)) as (new2 & Htrace2 & Hshown2).
    exists (new1 ++ new2)%list. split.
    + rewrite Htrace2, Htrace1. now rewrite app_assoc.
    + rewrite shown_from_app, sent_app, Hsent.
      replace (n + 1)%nat with (S n) by lia.
      rewrite Hshown, Hshown2, Hreplies, Hrest, Hdisplayed.
      cbn [Nat.add take].
      unfold pass_shows, loop_shows. cbn [first_answer].
      destruct (answer_of r) as [a|], (challenge_displayed p);
        cbn [orb bool_decide]; rewrite ?bool_decide_eq_true_2 by eauto;
        rewrite ?bool_decide_eq_false_2 by (intros [? ?]; discriminate);
        cbn [orb app]; try reflexivity.
      * do 2 f_equal; lia.
      * destruct (first_answer (take (sent new2) rest)) as [[i a]|];
          [|reflexivity].
        do 2 f_equal; lia.
  - destruct Hpass as (new1 & Htrace1 & [(Hsent & Hshown & _) | [(Hsent & Hreplies & Hshown & _)
                        | (r & rest & Hsent & Hreplies & Hshown & _)]]);
      exists new1; (split; [exact Htrace1|]); rewrite Hsent, Hshown.
    + cbn. now rewrite Hnil.
    + rewrite Hreplies. cbn. now rewrite Hnil.
    + rewrite Hreplies. cbn [take]. unfold pass_shows, loop_shows.
      cbn [first_answer].
      destruct (answer_of r) as [a|], (challenge_displayed p);
        try reflexivity.
      do 2 f_equal; lia.
Qed.

(** C8, as amended.  In one run of [push_approval], whatever the responses,
    the number challenge is shown at most once: the showings, each
    counted with the requests that had gone out by then, are none at all
    or the single showing of the value of the first polled response in
    which a value appears that is not blank ([null], [false], [0] or
    empty), made after that response's request and before the next
    request.  A response that carries a blank value shows nothing and
    does not use up the showing; later responses show nothing, whatever
    they carry. *)
Theorem number_challenge_shown_once (url : json)
  (payload : gmap string json) (w : World) :
  exists new,
    trace (snd (push_approval url payload w)) = (trace w ++ new)%list
    /\ shown_from 0 new
       = match first_answer (take (sent new) (replies w)) with
         | Some (i, a) => [(S i, a)]
         | None => []
         end.
Proof.
  unfold push_approval. rewrite run_bind. unfold user_print.
  rewrite run_emit, run_bind.
  set (w0 := with_trace (trace w ++ [Printed WaitingForApproval]) w).
  set (start := {| status := JStr "MFA_CHALLENGE"; result_ := JStr "WAITING";
                   response_ := JDict ∅; challenge_displayed := false |}).
  destruct (poll_shown url payload
              (dict [ ("content-type", "application/json");
                      ("accept", "application/json") ])
              (S (List.length (replies w0))) start w0 0%nat)
    as (new1 & Htrace1 & Hshown1).
  assert (forall (res : outcome json * World) (tail : list event),
             trace (snd res)
             = (trace (snd (poll (S (List.length (replies w0))) url payload
                                 (dict [ ("content-type", "application/json");
                                         ("accept", "application/json") ])
                                 start w0)) ++ tail)%list ->
             sent tail = 0%nat ->
             shown_from (0 + sent new1) tail = [] ->
             exists new,
               trace (snd res) = (trace w ++ new)%list
               /\ shown_from 0 new
                  = match first_answer (take (sent new) (replies w)) with
                    | Some (i, a) => [(S i, a)]
                    | None => []
                    end) as Hfinish.
  { intros res tail Htail Hsent Hshown.
    exists ([Printed WaitingForApproval] ++ new1 ++ tail)%list. split.
    - rewrite Htail, Htrace1. unfold w0. cbn [trace with_trace].
      now rewrite <- !app_assoc.
    - cbn [app shown_from]. rewrite shown_from_app, Hshown, app_nil_r, Hshown1.
      unfold sent at 2. cbn [List.filter]. fold (sent (new1 ++ tail)).
      rewrite sent_app, Hsent, Nat.add_0_r. reflexivity. }
  destruct (poll _ url payload _ start w0) as [[p|f] w1] eqn:Hpoll;
    cbn [snd] in Hfinish.
  2:{ apply (Hfinish (Fail f, w1) []); [now rewrite app_nil_r | reflexivity..]. }
  rewrite run_bind.
  destruct (Py.eq_str (status p) "SUCCESS").
  - destruct (Py.contains "sessionToken" (response_ p)) as [[|]|e]; mrun.
    + apply (Hfinish (_, w1) []); [now rewrite app_nil_r | reflexivity..].
    + destruct (Py.eq_str (result_ p) "REJECTED");
        [|destruct (Py.eq_str (result_ p) "TIMEOUT")];
        rewrite run_die;
        (eapply (Hfinish (_, _) [_]); [reflexivity..]).
    + apply (Hfinish (_, w1) []); [now rewrite app_nil_r | reflexivity..].
  - mrun.
    destruct (Py.eq_str (result_ p) "REJECTED");
      [|destruct (Py.eq_str (result_ p) "TIMEOUT")];
      rewrite run_die;
      (eapply (Hfinish (_, _) [_]); [reflexivity..]).
Qed.

Lemma number_challenge_shown_once_witness :
  let run := push_approval verify_url push_payload
               (answering numbered_polls) in
  shown_from 0 (trace (snd run)) = [(3%nat, JNum 17)].
Proof.
  intros run.
  destruct (number_challenge_shown_once verify_url push_payload
              (answering numbered_polls)) as (new & Htrace & Hshown).
  fold run in Htrace.
  assert (new = trace (snd run)) as Hnew by (now rewrite Htrace).
  rewrite <- Hnew, Hshown, Hnew.
  vm_compute. reflexivity.
Defined.

(** C8, as stated, fails: the first response in which a number-challenge
    value appears carries 0; nothing is shown at that poll, and the value
    of the second response, 17, is shown at the second poll. *)
Lemma number_challenge_skips_zero :
  let run := push_approval verify_url push_payload
               (answering zero_then_17) in
  map number_challenge zero_then_17 = [Some (JNum 0); Some (JNum 17); None]
  /\ first_carried zero_then_17 = Some (0%nat, JNum 0)
  /\ fst run = Done (JDict approved)
  /\ printed (snd run) = [WaitingForApproval; NumberChallenge (JNum 17)]
  /\ shown_from 0 (trace (snd run)) = [(2%nat, JNum 17)].
Proof. vm_compute. repeat split; reflexivity. Qed.

Lemma push_approval_transitions_witness :
  let run script := push_approval verify_url push_payload
                      (answering (map (fun d => document (JDict d)) script)) in
  (fst (run [still_waiting; still_waiting; approved]) = Done (JDict approved)
   /\ errors (snd (run [still_waiting; still_waiting; approved])) = [])
  /\ (fst (run [rejected; approved]) = Fail (SysExit 2)
      /\ errors (snd (run [rejected; approved])) = [PushRejected])
  /\ (fst (run [still_waiting; timed_out]) = Fail (SysExit 2)
      /\ errors (snd (run [still_waiting; timed_out])) = [PushTimeout])
  /\ fst (run [still_waiting; still_waiting]) = Fail Exhausted.
Proof.
  intros run.
  assert (forall d, d !! "_embedded" = None ->
                    well_formed (document (JDict d)) d) as Hwf.
  { intros d Hd. split; [reflexivity|]. exists JNull.
    unfold correct_answer. cbn [Py.get]. now rewrite Hd. }
  assert (keeps_waiting (document (JDict still_waiting))) as Hwait.
  { exists still_waiting. split; [now apply Hwf | reflexivity]. }
  assert (Forall keeps_waiting [document (JDict still_waiting)]) as Hone
    by (repeat constructor; exact Hwait).
  assert (Forall keeps_waiting [document (JDict still_waiting);
                                document (JDict still_waiting)]) as Htwo
    by (repeat constructor; exact Hwait).
  split; [|split; [|split]].
  - exact (proj2 (proj2
      (proj1 (push_approval_transitions
                "https://acme.okta.com/api/v1/authn/factors/opf1/verify"
                push_payload
                (answering (map (fun d => document (JDict d))
                                [still_waiting; still_waiting; approved])))
             [document (JDict still_waiting); document (JDict still_waiting)]
             (document (JDict approved)) [] approved eq_refl
             Htwo
             (Hwf approved eq_refl) ltac:(discriminate)))).
  - exact (proj2 (proj2
      (proj1 (push_approval_transitions
                "https://acme.okta.com/api/v1/authn/factors/opf1/verify"
                push_payload
                (answering (map (fun d => document (JDict d))
                                [rejected; approved])))
             [] (document (JDict rejected)) [document (JDict approved)]
             rejected eq_refl (List.Forall_nil _)
             (Hwf rejected eq_refl) ltac:(discriminate)))).
  - exact (proj2 (proj2
      (proj1 (push_approval_transitions
                "https://acme.okta.com/api/v1/authn/factors/opf1/verify"
                push_payload
                (answering (map (fun d => document (JDict d))
                                [still_waiting; timed_out])))
             [document (JDict still_waiting)]
             (document (JDict timed_out)) [] timed_out eq_refl
             Hone
             (Hwf timed_out eq_refl) ltac:(discriminate)))).
  - exact (proj1
      (proj2 (push_approval_transitions
                "https://acme.okta.com/api/v1/authn/factors/opf1/verify"
                push_payload
                (answering (map (fun d => document (JDict d))
                                [still_waiting; still_waiting])))
             Htwo)).
Defined.

(** C3, as stated, fails: a response that carries a session token but no
    status (and reports neither rejection nor timeout) does not make the
    engine return; the attempt ends with [UnsupportedPushOutcome]. *)
Lemma push_approval_needs_success_status :
  let w := answering [document (JDict token_without_status)] in
  is_Some (token_without_status !! "sessionToken")
  /\ fst (push_approval verify_url push_payload w) = Fail (SysExit 2)
  /\ fst (push_approval verify_url push_payload w)
     <> Done (JDict token_without_status)
  /\ errors (snd (push_approval verify_url push_payload w))
     = [UnsupportedPushOutcome].
Proof.
  intros w.
  assert (fst (push_approval verify_url push_payload w)
          = Fail (SysExit 2)) as H by (vm_compute; reflexivity).
  split; [eexists; reflexivity|]. split; [exact H|]. split.
  - rewrite H. discriminate.
  - vm_compute. reflexivity.
Qed.

(** Why the responses are taken to be well formed: the number challenge
    is looked up at every poll, and a [null] on its path makes the
    lookup raise before the rejection is seen. *)
Example push_approval_malformed :
  fst (push_approval verify_url push_payload
         (answering [document (JDict rejected_with_null)]))
  = Fail (Raised AttributeError).
Proof. vm_compute. reflexivity. Qed.

(** Three responses carry a number challenge; it is shown once, with the
    value of the first. *)
Example number_challenge_example :
  let w := answering (map (fun d => document (JDict d))
                          [ still_waiting; waiting_with_number 42;
                            waiting_with_number 17; waiting_with_number 42;
                            approved ]) in
  printed (snd (push_approval verify_url push_payload w))
  = [WaitingForApproval; NumberChallenge (JNum 42)]
  /\ shown_from 0 (trace (snd (push_approval verify_url push_payload w)))
     = [(2%nat, JNum 42)].
Proof. vm_compute. auto. Qed.

(** Primary authentication with a push factor, from end to end: the
    selector picks the push factor, the challenge is started, three polls
    follow, the number challenge is shown once and the session token
    comes back. *)
Example push_flow :
  let run := user_authenticate (sample_env []) 3 0%nat push_world in
  fst run = Done (JStr "20111abc")
  /\ map (fun r => (method r, target r)) (requests (snd run))
     = [ (POST, "https://acme.okta.com/api/v1/authn");
         (POST, "https://acme.okta.com/api/v1/authn/factors/opf1/verify");
         (POST, "https://acme.okta.com/api/v1/authn/factors/opf1/verify");
         (POST, "https://acme.okta.com/api/v1/authn/factors/opf1/verify");
         (POST, "https://acme.okta.com/api/v1/authn/factors/opf1/verify") ]
  /\ printed (snd run) = [WaitingForApproval; NumberChallenge (JNum 42)].
Proof. vm_compute. auto. Qed.

(** The engine sleeps after every response, the last one included: the
    script waiting, waiting, approved costs three intervals. *)
Example push_intervals :
  slept (snd (push_approval verify_url push_payload
                (answering (map (fun d => document (JDict d))
                                [still_waiting; still_waiting; approved]))))
  = [1; 1; 1].
Proof. vm_compute. reflexivity. Qed.

(* ===================================================================== *)
(** * 21. Configuration objects and the chain of identity providers       *)
(* ===================================================================== *)

Section Frame.

Context (T : loc -> Prop).

Lemma preserves_ret {A} (a : A) : preserves T (ret a).
Proof. intros w l c _ H. exact H. Qed.

Lemma preserves_mret {A} (a : A) : preserves T (mret a : M A).
Proof. intros w l c _ H. exact H. Qed.

Lemma preserves_fail {A} (f : failure) : preserves T (@fail A f).
Proof. intros w l c _ H. exact H. Qed.

Lemma preserves_bind {A B} (m : M A) (k : A -> M B) :
  preserves T m -> (forall a, preserves T (k a)) -> preserves T (m ≫= k).
Proof.
  intros Hm Hk w l c Hl H. rewrite run_bind.
  specialize (Hm w l c Hl H).
  destruct (m w) as [[a|f] w1]; cbn [snd] in Hm; [|exact Hm].
  exact (Hk a w1 l c Hl Hm).
Qed.

Lemma preserves_lift {A} (r : result A) : preserves T (lift r).
Proof. destruct r; intros w l c _ H; exact H. Qed.

Lemma preserves_raise {A} (e : pyexn) : preserves T (@raise A e).
Proof. apply preserves_fail. Qed.

Lemma preserves_sys_exit {A} (n : Z) : preserves T (@sys_exit A n).
Proof. apply preserves_fail. Qed.

Lemma preserves_emit (e : event) : preserves T (emit e).
Proof. intros w l c _ H. exact H. Qed.

Lemma preserves_next {A} (get : World -> list A)
  (set : list A -> World -> World) :
  (forall rs w, heap (set rs w) = heap w) -> preserves T (next get set).
Proof.
  intros Hset w l c _ H. unfold next.
  destruct (get w); cbn [snd]; [exact H | now rewrite Hset].
Qed.

Lemma preserves_os_urandom (n : nat) : preserves T (os_urandom n).
Proof.
  intros w l c _ H. unfold os_urandom. destruct (decide _); exact H.
Qed.

Lemma preserves_config_get {A} (l0 : loc) (field : Config -> A) :
  preserves T (config_get l0 field).
Proof.
  intros w l c _ H. unfold config_get. destruct (heap w !! l0); exact H.
Qed.

Lemma preserves_config_set (l0 : loc) (upd : Config -> Config) :
  T l0 -> preserves T (config_set l0 upd).
Proof.
  intros Hl0 w l c Hl H. unfold config_set.
  destruct (heap w !! l0); [|exact H]. cbn [snd heap with_heap].
  rewrite lookup_insert_ne; [exact H | intros ->; contradiction].
Qed.

Lemma preserves_deepcopy (l0 : loc) : preserves T (deepcopy l0).
Proof.
  intros w l c _ H. unfold deepcopy.
  destruct (heap w !! l0); [|exact H]. cbn [snd heap with_heap].
  rewrite lookup_insert_ne; [exact H|].
  intros <-. apply (is_fresh (dom (heap w))). apply elem_of_dom. eauto.
Qed.

Lemma preserves_try_except {A} (m : M A) (handled : pyexn -> bool)
  (h : pyexn -> M A) :
  preserves T m -> (forall e, preserves T (h e)) ->
  preserves T (try_except m handled h).
Proof.
  intros Hm Hh w l c Hl H. unfold try_except.
  specialize (Hm w l c Hl H).
  destruct (m w) as [[a|[n|e| |]] w1]; cbn [snd] in *; try exact Hm.
  destruct (handled e); [|exact Hm]. exact (Hh e w1 l c Hl Hm).
Qed.

Lemma preserves_fun {A} (m : World -> M A) :
  (forall w0, preserves T (m w0)) -> preserves T (fun w => m w w).
Proof. intros H w. exact (H w w). Qed.

End Frame.

Create HintDb frame.
#[export] Hint Resolve preserves_ret preserves_mret preserves_fail
  preserves_lift preserves_raise preserves_sys_exit preserves_emit
  preserves_os_urandom preserves_config_get preserves_config_set
  preserves_deepcopy : frame.

Ltac frame_step :=
  match goal with
  | |- preserves _ (_ ≫= _) => apply preserves_bind; [|intros ?]
  | |- preserves _ (try_except _ _ _) =>
      apply preserves_try_except; [|intros ?]
  | |- preserves _ (next _ _) => apply preserves_next; reflexivity
  | |- preserves _ (if ?b then _ else _) => destruct b
  | |- preserves _ (match ?x with _ => _ end) => destruct x
  | |- preserves _ (let (_, _) := ?x in _) => destruct x
  | |- preserves _ _ => solve [eauto with frame]
  end.

Ltac frame := repeat frame_step.

Lemma preserves_die (T : loc -> Prop) {A} (n : Z) (e : error) :
  preserves T (@die A n e).
Proof. unfold die, logger_error. frame. Qed.
#[export] Hint Resolve preserves_die : frame.

Lemma preserves_send (T : loc -> Prop) (r : Request) :
  preserves T (send r).
Proof. unfold send. frame. Qed.
#[export] Hint Resolve preserves_send : frame.

Lemma preserves_HTTP_get (T : loc -> Prop) (url : string) (hd : gmap string string) (c : content) :
  preserves T (HTTP_get url hd c).
Proof. unfold HTTP_get. frame. Qed.
#[export] Hint Resolve preserves_HTTP_get : frame.

Lemma preserves_HTTP_post (T : loc -> Prop) (url : string) (hd : gmap string string) (c : content) :
  preserves T (HTTP_post url hd c).
Proof. unfold HTTP_post. frame. Qed.
#[export] Hint Resolve preserves_HTTP_post : frame.

Lemma preserves_HTTP_post_json (T : loc -> Prop) (url : string) (hd : gmap string string) (c : content) :
  preserves T (HTTP_post_json url hd c).
Proof. unfold HTTP_post_json. frame. Qed.
#[export] Hint Resolve preserves_HTTP_post_json : frame.

Lemma preserves_HTTP_set_cookies (T : loc -> Prop) (c : option (gmap string string)) :
  preserves T (HTTP_set_cookies c).
Proof. unfold HTTP_set_cookies. frame. Qed.
#[export] Hint Resolve preserves_HTTP_set_cookies : frame.

Lemma preserves_user_print (T : loc -> Prop) (m : message) :
  preserves T (user_print m).
Proof. unfold user_print. frame. Qed.
#[export] Hint Resolve preserves_user_print : frame.

Lemma preserves_time_sleep (T : loc -> Prop) (n : Z) :
  preserves T (time_sleep n).
Proof. unfold time_sleep. frame. Qed.
#[export] Hint Resolve preserves_time_sleep : frame.

Lemma preserves_mask (T : loc -> Prop) (v : json) :
  preserves T (mask v).
Proof. unfold mask. frame. Qed.
#[export] Hint Resolve preserves_mask : frame.

Lemma preserves_logger_error (T : loc -> Prop) (e : error) :
  preserves T (logger_error e).
Proof. unfold logger_error. frame. Qed.
#[export] Hint Resolve preserves_logger_error : frame.

Lemma preserves_user_get_input (T : loc -> Prop)  :
  preserves T user_get_input.
Proof. unfold user_get_input. frame. Qed.
#[export] Hint Resolve preserves_user_get_input : frame.

Lemma preserves_select_preferred_mfa_index (T : loc -> Prop)  :
  preserves T select_preferred_mfa_index.
Proof. unfold select_preferred_mfa_index. frame. Qed.
#[export] Hint Resolve preserves_select_preferred_mfa_index : frame.

Lemma preserves_uuid4 (T : loc -> Prop)  :
  preserves T uuid4.
Proof. unfold uuid4. frame. Qed.
#[export] Hint Resolve preserves_uuid4 : frame.

Lemma preserves_request_cookies (T : loc -> Prop) (url : string) (t : json) :
  preserves T (request_cookies url t).
Proof. unfold request_cookies. frame. Qed.
#[export] Hint Resolve preserves_request_cookies : frame.

Lemma preserves_authenticate_duo (T : loc -> Prop)  :
  preserves T authenticate_duo.
Proof. unfold authenticate_duo. frame. Qed.
#[export] Hint Resolve preserves_authenticate_duo : frame.

Lemma preserves_duo_api_post (T : loc -> Prop) (cb : string) (p : gmap string json) :
  preserves T (duo_api_post cb p).
Proof. unfold duo_api_post. frame. Qed.
#[export] Hint Resolve preserves_duo_api_post : frame.

Lemma preserves_as_url (T : loc -> Prop) (v : json) :
  preserves T (as_url v).
Proof. unfold as_url. frame. Qed.
#[export] Hint Resolve preserves_as_url : frame.

Lemma preserves_get_auth_pipeline (T : loc -> Prop) (url : string) :
  preserves T (get_auth_pipeline url).
Proof. unfold get_auth_pipeline. frame. Qed.
#[export] Hint Resolve preserves_get_auth_pipeline : frame.

Lemma preserves_get_auth_properties (T : loc -> Prop) (userid url : string) :
  preserves T (get_auth_properties userid url).
Proof. unfold get_auth_properties. frame. Qed.
#[export] Hint Resolve preserves_get_auth_properties : frame.

Lemma preserves_poll_once (T : loc -> Prop) (url : json) (payload : gmap string json) (hd : gmap string string) (p : Poll) :
  preserves T (poll_once url payload hd p).
Proof. unfold poll_once. frame. Qed.
#[export] Hint Resolve preserves_poll_once : frame.

Lemma preserves_poll (T : loc -> Prop) (url : json)
  (payload : gmap string json) (hd : gmap string string) (fuel : nat) :
  forall p, preserves T (poll fuel url payload hd p).
Proof. induction fuel as [|fuel IH]; intros p; cbn [poll]; frame. Qed.
#[export] Hint Resolve preserves_poll : frame.

Lemma preserves_push_approval (T : loc -> Prop) (url : json)
  (payload : gmap string json) :
  preserves T (push_approval url payload).
Proof.
  unfold push_approval. apply preserves_bind; [frame | intros _].
  apply preserves_bind; [|intros p; frame].
  intros w. apply preserves_poll.
Qed.
#[export] Hint Resolve preserves_push_approval : frame.

Lemma preserves_totp_approval (T : loc -> Prop) (config : loc)
  (selected_mfa_option : json) (hd : gmap string string)
  (mfa_challenge_url : json) (payload : gmap string json)
  (primary_auth : json) :
  T config ->
  preserves T (totp_approval config selected_mfa_option hd
                 mfa_challenge_url payload primary_auth).
Proof. intros Hconfig. unfold totp_approval. frame. Qed.
#[export] Hint Resolve preserves_totp_approval : frame.

Lemma preserves_session_token_of (T : loc -> Prop)
  (mfa_provider primary_auth mfa_verify : json) :
  preserves T (session_token_of mfa_provider primary_auth mfa_verify).
Proof. unfold session_token_of. frame. Qed.
#[export] Hint Resolve preserves_session_token_of : frame.

Lemma preserves_mfa_provider_type (T : loc -> Prop) (config : loc)
  (mfa_provider selected_factor mfa_challenge_url primary_auth
     selected_mfa_option : json)
  (hd : gmap string string) (payload : gmap string json) :
  T config ->
  preserves T (mfa_provider_type config mfa_provider selected_factor
                 mfa_challenge_url primary_auth selected_mfa_option
                 hd payload).
Proof. intros Hconfig. unfold mfa_provider_type. frame. Qed.
#[export] Hint Resolve preserves_mfa_provider_type : frame.

Lemma preserves_mfa_index (T : loc -> Prop) (preset_mfa : option string)
  (available_mfas : list string) (mfa_options : json) :
  preserves T (mfa_index preset_mfa available_mfas mfa_options).
Proof. unfold mfa_index. frame. Qed.
#[export] Hint Resolve preserves_mfa_index : frame.

Lemma preserves_mfa_challenge (env : Env) (T : loc -> Prop) (config : loc)
  (hd : gmap string string) (primary_auth : json) :
  T config -> preserves T (mfa_challenge env config hd primary_auth).
Proof. intros Hconfig. unfold mfa_challenge. frame. Qed.
#[export] Hint Resolve preserves_mfa_challenge : frame.

Lemma preserves_get_session_token (env : Env) (T : loc -> Prop)
  (config : loc) (primary_auth : json) (hd : gmap string string) :
  T config -> preserves T (get_session_token env config primary_auth hd).
Proof. intros Hconfig. unfold get_session_token. frame. Qed.
#[export] Hint Resolve preserves_get_session_token : frame.

Lemma preserves_until_session_token (env : Env) (T : loc -> Prop)
  (config : loc) (primary_auth : json) (hd : gmap string string)
  (fuel : nat) :
  T config ->
  forall t, preserves T (until_session_token env fuel config primary_auth
                           hd t).
Proof.
  intros Hconfig. induction fuel as [|fuel IH]; intros t;
    cbn [until_session_token]; frame.
Qed.
#[export] Hint Resolve preserves_until_session_token : frame.

Lemma preserves_user_authenticate (env : Env) (T : loc -> Prop)
  (fuel : nat) (config : loc) :
  T config -> preserves T (user_authenticate env fuel config).
Proof. intros Hconfig. unfold user_authenticate. frame. Qed.
#[export] Hint Resolve preserves_user_authenticate : frame.

Lemma preserves_get_client_id (T : loc -> Prop) (config : loc) :
  T config -> preserves T (get_client_id config).
Proof. intros Hconfig. unfold get_client_id. frame. Qed.
#[export] Hint Resolve preserves_get_client_id : frame.

Lemma preserves_get_redirect_uri (T : loc -> Prop) (config : loc) :
  preserves T (get_redirect_uri config).
Proof. unfold get_redirect_uri. frame. Qed.
#[export] Hint Resolve preserves_get_redirect_uri : frame.

Lemma preserves_get_oauth2_state (T : loc -> Prop) :
  preserves T get_oauth2_state.
Proof. unfold get_oauth2_state. frame. Qed.
#[export] Hint Resolve preserves_get_oauth2_state : frame.

Lemma preserves_get_pkce_code_verifier (T : loc -> Prop) :
  preserves T get_pkce_code_verifier.
Proof. unfold get_pkce_code_verifier. frame. Qed.
#[export] Hint Resolve preserves_get_pkce_code_verifier : frame.

Lemma preserves_get_authorize_code (T : loc -> Prop) (r : Response)
  (payload : gmap string json) :
  preserves T (get_authorize_code r payload).
Proof. unfold get_authorize_code. frame. Qed.
#[export] Hint Resolve preserves_get_authorize_code : frame.

Lemma preserves_oauth2_authorize_request (T : loc -> Prop) (config : loc)
  (d : FlowData) (session_cookies : option (gmap string string)) :
  preserves T (oauth2_authorize_request config d session_cookies).
Proof. unfold oauth2_authorize_request. frame. Qed.
#[export] Hint Resolve preserves_oauth2_authorize_request : frame.

Lemma preserves_get_oauth2_token (T : loc -> Prop) (config : loc)
  (d : FlowData) (authorize_code : option string) :
  preserves T (get_oauth2_token config d authorize_code).
Proof. unfold get_oauth2_token. frame. Qed.
#[export] Hint Resolve preserves_get_oauth2_token : frame.

Lemma preserves_authorization_code_flow (T : loc -> Prop) (config : loc)
  (oauth2_config : json) (session_cookies : option (gmap string string)) :
  T config ->
  preserves T (authorization_code_flow config oauth2_config
                 session_cookies).
Proof. intros Hconfig. unfold authorization_code_flow, pkce_enabled. frame. Qed.
#[export] Hint Resolve preserves_authorization_code_flow : frame.

Lemma preserves_authorization_code_enabled (T : loc -> Prop)
  (org_url : string) (oauth2_config : json) :
  preserves T (authorization_code_enabled org_url oauth2_config).
Proof. unfold authorization_code_enabled. frame. Qed.
#[export] Hint Resolve preserves_authorization_code_enabled : frame.

Lemma preserves_check_items (T : loc -> Prop) (oauth2_config : json)
  (items : list string) :
  preserves T (check_items items oauth2_config).
Proof. induction items as [|item items IH]; cbn [check_items]; frame. Qed.
#[export] Hint Resolve preserves_check_items : frame.

Lemma preserves_validate_oauth2_configuration (T : loc -> Prop)
  (oauth2_config : json) :
  preserves T (validate_oauth2_configuration oauth2_config).
Proof. unfold validate_oauth2_configuration. frame. Qed.
#[export] Hint Resolve preserves_validate_oauth2_configuration : frame.

Lemma preserves_get_oauth2_configuration (T : loc -> Prop) (url : string) :
  preserves T (get_oauth2_configuration url).
Proof. unfold get_oauth2_configuration. frame. Qed.
#[export] Hint Resolve preserves_get_oauth2_configuration : frame.

Lemma preserves_oauth2_authorize (T : loc -> Prop) (config : loc)
  (session_cookies : option (gmap string string)) :
  T config -> preserves T (oauth2_authorize config session_cookies).
Proof. intros Hconfig. unfold oauth2_authorize. frame. Qed.
#[export] Hint Resolve preserves_oauth2_authorize : frame.

Lemma preserves_get_saml_request (env : Env) (T : loc -> Prop)
  (auth_properties : AuthProperties) :
  preserves T (get_saml_request env auth_properties).
Proof. unfold get_saml_request. frame. Qed.
#[export] Hint Resolve preserves_get_saml_request : frame.

Lemma preserves_send_saml_request (env : Env) (T : loc -> Prop)
  (saml_request : SamlRequest) (cookies : option (gmap string string)) :
  preserves T (send_saml_request env saml_request cookies).
Proof. unfold send_saml_request. frame. Qed.
#[export] Hint Resolve preserves_send_saml_request : frame.

Lemma preserves_send_saml_response (env : Env) (T : loc -> Prop)
  (config : loc) (saml_response : SamlResponse) :
  preserves T (send_saml_response env config saml_response).
Proof. unfold send_saml_response. frame. Qed.
#[export] Hint Resolve preserves_send_saml_response : frame.

Lemma preserves_oie_enabled (T : loc -> Prop) (url : string) :
  preserves T (oie_enabled url).
Proof. unfold oie_enabled. frame. Qed.
#[export] Hint Resolve preserves_oie_enabled : frame.

(** What [saml2_authenticate] does once the SAML request is there: it
    copies the configuration, points the copy at the identity provider
    and hands the copy to the nested call. *)
Lemma saml2_authenticate_unfold (env : Env)
  (idp_auth : loc -> M (option (gmap string string)))
  (config : loc) (auth_properties : AuthProperties) (w w1 : World)
  (saml_request : SamlRequest) (c : Config) :
  get_saml_request env auth_properties w = (Done saml_request, w1) ->
  heap w1 !! config = Some c ->
  saml2_authenticate env idp_auth config auth_properties w
  = ((session_cookies ← idp_auth (fresh (dom (heap w1)));
      saml_response ← send_saml_request env saml_request session_cookies;
      session_id ← send_saml_response env config saml_response;
      mret (Some session_id)) : M (option (gmap string string)))
      (with_heap (<[fresh (dom (heap w1))
                    := set_org (sq_base_url saml_request) c]> (heap w1))
                 w1).
Proof.
  intros Hrequest Hconfig. unfold saml2_authenticate.
  rewrite run_bind, Hrequest, run_bind. unfold deepcopy at 1.
  rewrite Hconfig, run_bind. unfold config_set.
  cbn [heap with_heap]. rewrite lookup_insert_eq.
  rewrite insert_insert_eq. destruct w1; reflexivity.
Qed.

Lemma preserves_saml2_authenticate (env : Env) (T : loc -> Prop)
  (idp_auth : loc -> M (option (gmap string string)))
  (config : loc) (auth_properties : AuthProperties) :
  (forall l (T' : loc -> Prop), T' l -> preserves T' (idp_auth l)) ->
  preserves T (saml2_authenticate env idp_auth config auth_properties).
Proof.
  intros Hnested w l c Hl H.
  pose proof (preserves_get_saml_request env T auth_properties w l c Hl H)
    as H1.
  destruct (get_saml_request env auth_properties w) as [[sq|f] w1] eqn:Hrequest;
    cbn [snd] in H1.
  2:{ unfold saml2_authenticate. now rewrite run_bind, Hrequest. }
  destruct (heap w1 !! config) as [c0|] eqn:Hconfig.
  2:{ unfold saml2_authenticate. rewrite run_bind, Hrequest, run_bind.
      unfold deepcopy. now rewrite Hconfig. }
  rewrite (saml2_authenticate_unfold _ _ _ _ _ _ _ _ Hrequest Hconfig).
  set (copy := fresh (dom (heap w1))).
  assert (l <> copy) as Hfresh.
  { intros ->. apply (is_fresh (dom (heap w1))). apply elem_of_dom. eauto. }
  assert (preserves (fun k => k = copy)
            (session_cookies ← idp_auth copy;
             saml_response ← send_saml_request env sq session_cookies;
             session_id ← send_saml_response env config saml_response;
             mret (Some session_id))) as Hrest.
  { frame. }
  apply Hrest; [exact Hfresh|].
  cbn [heap with_heap]. now rewrite lookup_insert_ne.
Qed.

Lemma preserves_idp_auth (env : Env) (fuel : nat) :
  forall (config : loc) (T : loc -> Prop),
    T config -> preserves T (idp_auth env fuel config).
Proof.
  induction fuel as [|fuel IH]; intros config T Hconfig; cbn [idp_auth].
  - frame.
  - unfold local_authentication_enabled, is_saml2_authentication. frame.
    apply preserves_saml2_authenticate. exact IH.
Qed.


(** C9.  On the SAML chaining path the nested call receives a fresh copy
    of the configuration that differs from the original in its org URL
    only, which is the base URL of the discovered identity provider; and
    when [saml2_authenticate] is over, however it ends, the caller's
    configuration object holds what it held before, org URL included. *)
Theorem saml2_authenticate_keeps_config (env : Env) (fuel : nat)
  (config : loc) (auth_properties : AuthProperties) (w : World)
  (c : Config) :
  heap w !! config = Some c ->
  heap (snd (saml2_authenticate env (idp_auth env fuel) config
                                auth_properties w)) !! config
  = Some c
  /\ forall (saml_request : SamlRequest) (w1 : World),
      get_saml_request env auth_properties w = (Done saml_request, w1) ->
      let copy := fresh (dom (heap w1)) in
      let derived := set_org (sq_base_url saml_request) c in
      let w2 := with_heap (<[copy := derived]> (heap w1)) w1 in
      copy <> config
      /\ heap w2 !! copy = Some derived
      /\ heap w2 !! config = Some c
      /\ org derived = sq_base_url saml_request
      /\ username derived = username c
      /\ password derived = password c
      /\ mfa derived = mfa c
      /\ mfa_response derived = mfa_response c
      /\ oauth_client_id derived = oauth_client_id c
      /\ saml2_authenticate env (idp_auth env fuel) config
                            auth_properties w
         = ((session_cookies ← idp_auth env fuel copy;
             saml_response ← send_saml_request env saml_request
                               session_cookies;
             session_id ← send_saml_response env config saml_response;
             mret (Some session_id))
            : M (option (gmap string string))) w2.
Proof.
  intros Hconfig. split.
  - apply (preserves_saml2_authenticate env (fun _ => False)); auto.
    intros l T' Hl. now apply preserves_idp_auth.
  - intros saml_request w1 Hrequest copy derived w2.
    pose proof (preserves_get_saml_request env (fun _ => False)
                  auth_properties w config c (fun H => H) Hconfig) as H1.
    rewrite Hrequest in H1. cbn [snd] in H1.
    assert (copy <> config) as Hfresh.
    { intros Heq. apply (is_fresh (dom (heap w1))). fold copy.
      rewrite Heq. apply elem_of_dom. eauto. }
    repeat split; try reflexivity.
    + exact Hfresh.
    + unfold w2. cbn [heap with_heap]. apply lookup_insert_eq.
    + unfold w2. cbn [heap with_heap]. now rewrite lookup_insert_ne.
    + exact (saml2_authenticate_unfold _ _ _ _ _ _ _ _ Hrequest H1).
Qed.

Lemma saml2_authenticate_keeps_config_witness :
  heap (snd (saml2_authenticate chain_env (idp_auth chain_env 5) 0%nat
                                chain_props chain_saml_world)) !! 0%nat
  = Some sample_config.
Proof.
  exact (proj1 (saml2_authenticate_keeps_config
                  chain_env 5 0%nat chain_props chain_saml_world
                  sample_config eq_refl)).
Defined.

(** The chain of one hop, run from end to end: the eight requests go out
    in order, the relying party's cookies come back, the original
    configuration is as it was and the copy points at the identity
    provider. *)
Example one_hop_chain :
  let run := idp_auth chain_env 5 0%nat chain_world in
  fst run = Done (Some {[ "sid" := "sp-session" ]})
  /\ map (fun r => (method r, target r)) (requests (snd run))
     = [ (GET, "https://acme.okta.com/.well-known/webfinger");
         (GET, "https://acme.okta.com/sso/idps/0oa1");
         (GET, "https://idp.example.com/.well-known/webfinger");
         (POST, "https://idp.example.com/api/v1/authn");
         (GET, "https://idp.example.com/.well-known/okta-organization");
         (GET, "https://idp.example.com/app/sso/saml");
         (POST, "https://acme.okta.com/sso/saml2/0oa1");
         (GET, "https://acme.okta.com/.well-known/okta-organization") ]
  /\ heap (snd run) !! 0%nat = Some sample_config
  /\ heap (snd run) !! 1%nat
     = Some (set_org "https://idp.example.com" sample_config).
Proof. vm_compute. auto. Qed.

(* ===================================================================== *)
(** * 22. Discovery of the pipeline and of the identity provider          *)
(* ===================================================================== *)

(** The transport answers a request with its next reply. *)
Lemma run_HTTP_get {A} (url : string) (hd : gmap string string)
  (c : content) (k : Response -> M A) (w : World) (reply : Response)
  (rest : list Response) :
  replies w = reply :: rest ->
  (HTTP_get url hd c ≫= k) w
  = k reply (answered w rest
               [Sent {| method := GET; target := url; headers := hd;
                        payload := c |}]).
Proof.
  intros H. rewrite run_bind. unfold HTTP_get.
  now rewrite (run_send _ _ _ _ H).
Qed.

Lemma run_HTTP_post {A} (url : string) (hd : gmap string string)
  (c : content) (k : Response -> M A) (w : World) (reply : Response)
  (rest : list Response) :
  replies w = reply :: rest ->
  (HTTP_post url hd c ≫= k) w
  = k reply (answered w rest
               [Sent {| method := POST; target := url; headers := hd;
                        payload := c |}]).
Proof.
  intros H. rewrite run_bind. unfold HTTP_post.
  now rewrite (run_send _ _ _ _ H).
Qed.

Lemma run_HTTP_post_json {A} (url : string) (hd : gmap string string)
  (c : content) (k : json -> M A) (w : World) (reply : Response)
  (rest : list Response) (j : json) :
  replies w = reply :: rest ->
  body reply = Some j ->
  (HTTP_post_json url hd c ≫= k) w
  = k j (answered w rest
           [Sent {| method := POST; target := url; headers := hd;
                    payload := c |}]).
Proof.
  intros H Hbody. rewrite run_bind. unfold HTTP_post_json.
  rewrite (run_HTTP_post _ _ _ _ _ _ _ H), Hbody. reflexivity.
Qed.

Lemma HTTP_get_reply (url : string) (hd : gmap string string)
  (c : content) (w : World) (reply : Response) (rest : list Response) :
  replies w = reply :: rest ->
  HTTP_get url hd c w
  = (Done reply, answered w rest
                   [Sent {| method := GET; target := url; headers := hd;
                            payload := c |}]).
Proof. intros H. unfold HTTP_get. now rewrite (run_send _ _ _ _ H). Qed.

Lemma HTTP_post_json_body (url : string) (hd : gmap string string)
  (c : content) (w : World) (reply : Response) (rest : list Response)
  (j : json) :
  replies w = reply :: rest ->
  body reply = Some j ->
  HTTP_post_json url hd c w
  = (Done j, answered w rest
               [Sent {| method := POST; target := url; headers := hd;
                        payload := c |}]).
Proof.
  intros H Hbody. unfold HTTP_post_json.
  rewrite (run_HTTP_post _ _ _ _ _ _ _ H), Hbody. reflexivity.
Qed.

Lemma index_head (x : json) (l : list json) :
  Py.index (JList (x :: l)) 0 = Val x.
Proof.
  unfold Py.index. cbn [Z.ltb Z.compare List.length].
  replace (0 <=? 0) with true by reflexivity.
  replace (0 <? Z.of_nat (S (List.length l))) with true
    by (symmetry; apply Z.ltb_lt; lia).
  reflexivity.
Qed.

(** X1.  [get_auth_pipeline] sends one GET to
    [/.well-known/okta-organization] under the organization URL.  A reply
    that is not JSON ends the attempt with status 1
    ([MalformedResponse]).  A JSON object yields its [pipeline] entry when
    that is [idx] or [v1], and ends the attempt with status 1
    ([UnsupportedPipeline]) otherwise, a missing entry included;
    [oie_enabled] is true for [idx] and false for [v1].  A JSON value that
    is not an object raises [AttributeError], which the handlers of the
    function do not catch. *)
Theorem get_auth_pipeline_outcomes (url : string) (w : World)
  (reply : Response) (rest : list Response) :
  replies w = reply :: rest ->
  let asked := answered w rest [Sent (pipeline_request url)] in
  (body reply = None ->
   get_auth_pipeline url w
   = (Fail (SysExit 1), after asked [Logged MalformedResponse]))
  /\ (forall d,
        body reply = Some (JDict d) ->
        let pipeline := default JNull (d !! "pipeline") in
        get_auth_pipeline url w
        = (if Py.eq_str pipeline "idx" || Py.eq_str pipeline "v1"
           then (Done pipeline, asked)
           else (Fail (SysExit 1),
                 after asked [Logged UnsupportedPipeline]))
        /\ oie_enabled url w
           = (if Py.eq_str pipeline "idx" then (Done true, asked)
              else if Py.eq_str pipeline "v1" then (Done false, asked)
              else (Fail (SysExit 1),
                    after asked [Logged UnsupportedPipeline])))
  /\ (forall j,
        body reply = Some j -> (forall d, j <> JDict d) ->
        get_auth_pipeline url w = (Fail (Raised AttributeError), asked)).
Proof.
  intros Hreplies asked.
  assert (forall k : Response -> M json,
            (HTTP_get (url +:+ "/.well-known/okta-organization")
                      (dict [("accept", "application/json")]) NoContent
               ≫= k) w = k reply asked) as Hsend.
  { intros k. rewrite run_bind. unfold HTTP_get.
    now rewrite (run_send _ _ _ _ Hreplies). }
  split; [|split].
  - intros Hbody. unfold get_auth_pipeline. rewrite Hsend.
    rewrite run_bind. unfold response_json. rewrite Hbody. reflexivity.
  - intros d Hbody pipeline.
    assert (get_auth_pipeline url w
            = (if Py.eq_str pipeline "idx" || Py.eq_str pipeline "v1"
               then (Done pipeline, asked)
               else (Fail (SysExit 1),
                     after asked [Logged UnsupportedPipeline])))
      as Hrun.
    { unfold get_auth_pipeline. rewrite Hsend.
      rewrite run_bind. unfold response_json. rewrite Hbody.
      cbn [lift try_except ret]. rewrite run_bind.
      cbn [Py.get lift try_except ret]. fold pipeline.
      destruct (Py.eq_str pipeline "idx"), (Py.eq_str pipeline "v1");
        reflexivity. }
    split; [exact Hrun|].
    unfold oie_enabled. rewrite run_bind, Hrun.
    destruct (Py.eq_str pipeline "idx") eqn:Hidx.
    + cbn [orb mret M_ret ret]. now rewrite Hidx.
    + destruct (Py.eq_str pipeline "v1"); [|reflexivity].
      cbn [orb mret M_ret ret]. now rewrite Hidx.
  - intros j Hbody Hobject. unfold get_auth_pipeline. rewrite Hsend.
    rewrite run_bind. unfold response_json. rewrite Hbody.
    cbn [lift try_except ret]. rewrite run_bind.
    destruct j; try reflexivity. now destruct (Hobject d).
Qed.

Lemma get_auth_pipeline_outcomes_witness :
  let w := answering [organization "idx"] in
  oie_enabled "https://acme.okta.com" w
  = (Done true,
     answered w [] [Sent (pipeline_request "https://acme.okta.com")]).
Proof.
  exact (proj2 (proj1 (proj2 (get_auth_pipeline_outcomes
                                "https://acme.okta.com"
                                (answering [organization "idx"])
                                (organization "idx") [] eq_refl))
                 (dict [("pipeline", JStr "idx")]) eq_refl)).
Defined.

Lemma run_get_auth_properties (userid url : string) (w : World)
  (reply : Response) (rest : list Response) (props : gmap string json) :
  replies w = reply :: rest ->
  discovers reply props ->
  get_auth_properties userid url w
  = (Done {| ap_metadata := default JNull (props !! "okta:idp:metadata");
             ap_type := default JNull (props !! "okta:idp:type");
             ap_id := default JNull (props !! "okta:idp:id") |},
     answered w rest [Sent (webfinger_request userid url)]).
Proof.
  intros Hreplies (d & link & more & Hbody & Hlinks & Hprops).
  unfold get_auth_properties.
  rewrite (run_HTTP_get _ _ _ _ _ _ _ Hreplies).
  unfold response_json. rewrite Hbody. cbn [rbind Py.getitem].
  rewrite Hlinks. cbn [rbind]. rewrite index_head.
  cbn [rbind Py.getitem]. rewrite Hprops. reflexivity.
Qed.

(** X2.  [get_auth_properties] sends one GET to [/.well-known/webfinger]
    with the account as resource, and reads the properties of the first
    link: the three entries it returns are [None] where the reply has
    none.  A reply that is not JSON, that has no [links] or whose first
    link has no [properties] ends the attempt with status 1
    ([DiscoveryParseError]); an empty [links] array raises [IndexError],
    which the handler does not catch. *)
Theorem get_auth_properties_outcomes (userid url : string) (w : World)
  (reply : Response) (rest : list Response) :
  replies w = reply :: rest ->
  let asked := answered w rest [Sent (webfinger_request userid url)] in
  let refused := (Fail (SysExit 1), after asked [Logged DiscoveryParseError])
    in
  (forall props,
     discovers reply props ->
     get_auth_properties userid url w
     = (Done {| ap_metadata := default JNull (props !! "okta:idp:metadata");
                ap_type := default JNull (props !! "okta:idp:type");
                ap_id := default JNull (props !! "okta:idp:id") |}, asked))
  /\ (body reply = None -> get_auth_properties userid url w = refused)
  /\ (forall d,
        body reply = Some (JDict d) -> d !! "links" = None ->
        get_auth_properties userid url w = refused)
  /\ (forall d link more,
        body reply = Some (JDict d) ->
        d !! "links" = Some (JList (JDict link :: more)) ->
        link !! "properties" = None ->
        get_auth_properties userid url w = refused)
  /\ (forall d,
        body reply = Some (JDict d) -> d !! "links" = Some (JList []) ->
        get_auth_properties userid url w
        = (Fail (Raised IndexError), asked)).
Proof.
  intros Hreplies asked refused.
  split; [|split; [|split; [|split]]].
  - intros props Hprops.
    exact (run_get_auth_properties _ _ _ _ _ _ Hreplies Hprops).
  - intros Hbody. unfold get_auth_properties.
    rewrite (run_HTTP_get _ _ _ _ _ _ _ Hreplies).
    unfold response_json. rewrite Hbody. reflexivity.
  - intros d Hbody Hlinks. unfold get_auth_properties.
    rewrite (run_HTTP_get _ _ _ _ _ _ _ Hreplies).
    unfold response_json. rewrite Hbody. cbn [rbind Py.getitem].
    rewrite Hlinks. reflexivity.
  - intros d link more Hbody Hlinks Hprops. unfold get_auth_properties.
    rewrite (run_HTTP_get _ _ _ _ _ _ _ Hreplies).
    unfold response_json. rewrite Hbody. cbn [rbind Py.getitem].
    rewrite Hlinks. cbn [rbind]. rewrite index_head.
    cbn [rbind Py.getitem]. rewrite Hprops. reflexivity.
  - intros d Hbody Hlinks. unfold get_auth_properties.
    rewrite (run_HTTP_get _ _ _ _ _ _ _ Hreplies).
    unfold response_json. rewrite Hbody. cbn [rbind Py.getitem].
    rewrite Hlinks. reflexivity.
Qed.

Lemma webfinger_discovers (type : string) :
  discovers (webfinger type) (webfinger_props type).
Proof. do 3 eexists. repeat split; reflexivity. Qed.

Lemma get_auth_properties_outcomes_witness :
  let w := answering [webfinger "OKTA"] in
  get_auth_properties "jane" "https://acme.okta.com" w
  = (Done {| ap_metadata := JStr "https://acme.okta.com/metadata";
             ap_type := JStr "OKTA"; ap_id := JStr "0oa1" |},
     answered w []
       [Sent (webfinger_request "jane" "https://acme.okta.com")]).
Proof.
  exact (proj1 (get_auth_properties_outcomes
                  "jane" "https://acme.okta.com"
                  (answering [webfinger "OKTA"]) (webfinger "OKTA") []
                  eq_refl)
               (webfinger_props "OKTA") (webfinger_discovers "OKTA")).
Defined.

(** X3.  When the discovered identity provider is neither of type [OKTA]
    nor of type [SAML2] (no type at all included), [idp_auth] ends the
    attempt with status 1 ([UnsupportedIdpDiscovery]) right after the
    webfinger request: no credentials are sent anywhere. *)
Theorem idp_auth_unsupported_type (env : Env) (fuel : nat) (config : loc)
  (w : World) (c : Config) (reply : Response) (rest : list Response)
  (props : gmap string json) :
  heap w !! config = Some c ->
  replies w = reply :: rest ->
  discovers reply props ->
  let type := default JNull (props !! "okta:idp:type") in
  Py.eq_str type "OKTA" = false ->
  Py.eq_str type "SAML2" = false ->
  idp_auth env (S fuel) config w
  = (Fail (SysExit 1),
     answered w rest [ Sent (webfinger_request (username c) (org c));
                       Logged UnsupportedIdpDiscovery ]).
Proof.
  intros Hconfig Hreplies Hprops type Hlocal Hsaml.
  cbn [idp_auth].
  rewrite run_bind, (run_config_get _ _ _ _ Hconfig).
  rewrite run_bind, (run_config_get _ _ _ _ Hconfig).
  rewrite run_bind, (run_get_auth_properties _ _ _ _ _ _ Hreplies Hprops).
  unfold local_authentication_enabled, is_saml2_authentication.
  cbn [ap_type]. fold type. rewrite Hlocal, Hsaml.
  rewrite run_bind, run_die.
  unfold answered, after. destruct w; cbn. now rewrite <- app_assoc.
Qed.

Lemma idp_auth_unsupported_type_witness :
  let w := answering [webfinger "WSFED"] in
  idp_auth (sample_env []) 1 0%nat w
  = (Fail (SysExit 1),
     answered w []
       [ Sent (webfinger_request "jane" "https://acme.okta.com");
         Logged UnsupportedIdpDiscovery ]).
Proof.
  exact (idp_auth_unsupported_type
           (sample_env []) 0 0%nat (answering [webfinger "WSFED"])
           sample_config (webfinger "WSFED") [] (webfinger_props "WSFED")
           eq_refl eq_refl (webfinger_discovers "WSFED") eq_refl eq_refl).
Defined.

(* ===================================================================== *)
(** * 23. Primary authentication                                          *)
(* ===================================================================== *)

Lemma has_key_true (d : gmap string json) (k : string) (x : json) :
  d !! k = Some x -> Py.has_key d k = true.
Proof. intros H. unfold Py.has_key. apply bool_decide_eq_true_2. eauto. Qed.

Lemma has_key_false (d : gmap string json) (k : string) :
  d !! k = None -> Py.has_key d k = false.
Proof.
  intros H. unfold Py.has_key. apply bool_decide_eq_false_2.
  rewrite H. intros [? ?]. discriminate.
Qed.

Lemma after_after (w : World) (a b : list event) :
  after (after w a) b = after w (a ++ b).
Proof. unfold after. destruct w; cbn. now rewrite app_assoc. Qed.

Lemma after_nil (w : World) : after w [] = w.
Proof. unfold after. destruct w; cbn. now rewrite app_nil_r. Qed.

Lemma after_answered (w : World) (rest : list Response)
  (a b : list event) :
  after (answered w rest a) b = answered w rest (a ++ b).
Proof. unfold answered, after. destruct w; cbn. now rewrite app_assoc. Qed.

Lemma run_get_session_token_success (env : Env) (config : loc)
  (d : gmap string json) (tok : json) (hd : gmap string string)
  (w : World) :
  d !! "status" = Some (JStr "SUCCESS") ->
  d !! "sessionToken" = Some tok ->
  get_session_token env config (JDict d) hd w
  = (Done tok, after w [Masked tok]).
Proof.
  intros Hstatus Htoken. unfold get_session_token.
  cbn [Py.get]. rewrite Hstatus. cbn [default]. mrun.
  cbn [Py.eq_str String.eqb Ascii.eqb Bool.eqb Py.contains lift].
  rewrite (has_key_true _ _ _ Htoken). mrun. cbn [Py.get].
  rewrite Htoken. reflexivity.
Qed.

(** X4.  [get_session_token] on the answer to primary authentication: with
    status [SUCCESS] and a [sessionToken] entry, that entry is registered
    for masking and returned; with a status that is neither [SUCCESS] nor [MFA_REQUIRED], and
    also with [SUCCESS] but no [sessionToken], the attempt ends with status
    1 ([UnknownAuthStatus]); an answer that is not an object raises
    [UnboundLocalError], since the [AttributeError] is swallowed and
    [status] is never bound. *)
Theorem get_session_token_outcomes (env : Env) (config : loc)
  (primary_auth : json) (hd : gmap string string) (w : World) :
  (forall d tok,
     primary_auth = JDict d ->
     d !! "status" = Some (JStr "SUCCESS") ->
     d !! "sessionToken" = Some tok ->
     get_session_token env config primary_auth hd w
     = (Done tok, after w [Masked tok]))
  /\ (forall d,
        primary_auth = JDict d ->
        Py.eq_str (default JNull (d !! "status")) "MFA_REQUIRED" = false ->
        Py.eq_str (default JNull (d !! "status")) "SUCCESS" = false
        \/ d !! "sessionToken" = None ->
        get_session_token env config primary_auth hd w
        = (Fail (SysExit 1), after w [Logged UnknownAuthStatus]))
  /\ ((forall d, primary_auth <> JDict d) ->
      get_session_token env config primary_auth hd w
      = (Fail (Raised UnboundLocalError), w)).
Proof.
  split; [|split].
  - intros d tok -> Hstatus Htoken.
    now apply run_get_session_token_success.
  - intros d -> Hmfa Hnot. unfold get_session_token.
    cbn [Py.get]. mrun.
    destruct (Py.eq_str (default JNull (d !! "status")) "SUCCESS").
    + destruct Hnot as [|Hnone]; [discriminate|].
      cbn [Py.contains lift]. rewrite (has_key_false _ _ Hnone).
      mrun. rewrite Hmfa. mrun. reflexivity.
    + mrun. rewrite Hmfa. mrun. reflexivity.
  - intros Hobject. unfold get_session_token.
    destruct primary_auth; try reflexivity. now destruct (Hobject d).
Qed.

Lemma run_user_authenticate_request {A} (env : Env) (config : loc)
  (w : World) (c : Config) (reply : Response) (rest : list Response)
  (j : json) (k : json -> M A) :
  heap w !! config = Some c ->
  replies w = reply :: rest ->
  body reply = Some j ->
  (username ← config_get config username;
   password ← config_get config password;
   url ← config_get config org;
   primary_auth ←
     HTTP_post_json (url +:+ "/api/v1/authn")
       (dict [ ("content-type", "application/json");
               ("accept", "application/json") ])
       (Json (dict [ ("username", JStr username);
                     ("password", JStr password) ]));
   k primary_auth) w
  = k j (answered w rest [Sent (authn_request c)]).
Proof.
  intros Hconfig Hreplies Hbody.
  rewrite run_bind, (run_config_get _ _ _ _ Hconfig).
  rewrite run_bind, (run_config_get _ _ _ _ Hconfig).
  rewrite run_bind, (run_config_get _ _ _ _ Hconfig).
  now rewrite (run_HTTP_post_json _ _ _ _ _ _ _ _ Hreplies Hbody).
Qed.

(** X5.  When the answer to primary authentication carries an [errorCode],
    [user_authenticate] ends the attempt with status 1 after that one
    request, and reports no error: the message that
    [api_error_code_parser] computes is dropped.  (A code that cannot be
    hashed makes the parser raise instead.) *)
Theorem user_authenticate_error_code (env : Env) (fuel : nat)
  (config : loc) (w : World) (c : Config) (reply : Response)
  (rest : list Response) (d : gmap string json) (code : json) :
  heap w !! config = Some c ->
  replies w = reply :: rest ->
  body reply = Some (JDict d) ->
  d !! "errorCode" = Some code ->
  user_authenticate env fuel config w
  = (match api_error_code_parser env code with
     | Val _ => Fail (SysExit 1)
     | Exn e => Fail (Raised e)
     end,
     answered w rest [Sent (authn_request c)])
  /\ errors (snd (user_authenticate env fuel config w)) = errors w.
Proof.
  intros Hconfig Hreplies Hbody Hcode.
  assert (user_authenticate env fuel config w
          = (match api_error_code_parser env code with
             | Val _ => Fail (SysExit 1)
             | Exn e => Fail (Raised e)
             end,
             answered w rest [Sent (authn_request c)])) as Hrun.
  { unfold user_authenticate.
    rewrite (run_user_authenticate_request env _ _ _ _ _ _ _
               Hconfig Hreplies Hbody).
    cbn [Py.contains lift]. rewrite (has_key_true _ _ _ Hcode). mrun.
    cbn [Py.getitem]. rewrite Hcode. mrun.
    now destruct (api_error_code_parser env code). }
  split; [exact Hrun|]. rewrite Hrun. cbn [snd].
  unfold answered, after, errors. cbn [trace with_replies with_trace].
  rewrite omap_app. cbn. apply app_nil_r.
Qed.

Lemma user_authenticate_error_code_witness :
  let w := answering [document (JDict (dict [("errorCode",
                                              JStr "E0000004")]))] in
  user_authenticate (sample_env []) 1 0%nat w
  = (Fail (SysExit 1), answered w [] [Sent (authn_request sample_config)])
  /\ errors (snd (user_authenticate (sample_env []) 1 0%nat w)) = errors w.
Proof.
  exact (user_authenticate_error_code
           (sample_env []) 1 0%nat
           (answering [document (JDict (dict [("errorCode",
                                               JStr "E0000004")]))])
           sample_config
           (document (JDict (dict [("errorCode", JStr "E0000004")]))) []
           (dict [("errorCode", JStr "E0000004")]) (JStr "E0000004")
           eq_refl eq_refl eq_refl eq_refl).
Defined.

Lemma until_session_token_null (env : Env) (fuel : nat) (config : loc)
  (d : gmap string json) (hd : gmap string string) (w : World) :
  d !! "status" = Some (JStr "SUCCESS") ->
  d !! "sessionToken" = Some JNull ->
  until_session_token env fuel config (JDict d) hd JNull w
  = (Fail OutOfFuel, after w (repeat (Masked JNull) fuel)).
Proof.
  intros Hstatus Htoken. revert w.
  induction fuel as [|fuel IH]; intros w.
  - cbn [until_session_token repeat]. now rewrite after_nil.
  - cbn [until_session_token]. rewrite run_bind.
    rewrite (run_get_session_token_success env _ _ _ _ _ Hstatus Htoken).
    rewrite IH, after_after. reflexivity.
Qed.

(** X6.  When primary authentication answers [SUCCESS] with a session token
    that is [null], the loop of [user_authenticate] never ends: whatever
    the bound on the number of passes, the bound is reached, each pass
    having registered [None] for masking, and no request but the first has
    been sent. *)
Theorem user_authenticate_null_token_loops (env : Env) (fuel : nat)
  (config : loc) (w : World) (c : Config) (reply : Response)
  (rest : list Response) :
  heap w !! config = Some c ->
  replies w = reply :: rest ->
  signs_in reply JNull ->
  user_authenticate env fuel config w
  = (Fail OutOfFuel,
     answered w rest (Sent (authn_request c) :: repeat (Masked JNull) fuel)).
Proof.
  intros Hconfig Hreplies (d & Hbody & Herror & Hstatus & Htoken).
  unfold user_authenticate.
  rewrite (run_user_authenticate_request env _ _ _ _ _ _ _
             Hconfig Hreplies Hbody).
  cbn [Py.contains lift]. rewrite (has_key_false _ _ Herror). mrun.
  rewrite (until_session_token_null env _ _ _ _ _ Hstatus Htoken).
  now rewrite after_answered.
Qed.

Lemma user_authenticate_null_token_loops_witness :
  let w := answering [signed_in JNull] in
  user_authenticate (sample_env []) 3 0%nat w
  = (Fail OutOfFuel,
     answered w []
       [ Sent (authn_request sample_config);
         Masked JNull; Masked JNull; Masked JNull ]).
Proof.
  refine (user_authenticate_null_token_loops
            (sample_env []) 3 0%nat (answering [signed_in JNull])
            sample_config (signed_in JNull) [] eq_refl eq_refl _).
  eexists. repeat split; reflexivity.
Defined.

Lemma run_user_authenticate_success (env : Env) (fuel : nat)
  (config : loc) (w : World) (c : Config) (reply : Response)
  (rest : list Response) (tok : json) :
  heap w !! config = Some c ->
  replies w = reply :: rest ->
  signs_in reply tok ->
  tok <> JNull ->
  user_authenticate env (S fuel) config w
  = (Done tok, answered w rest [Sent (authn_request c); Masked tok]).
Proof.
  intros Hconfig Hreplies (d & Hbody & Herror & Hstatus & Htoken) Hnull.
  unfold user_authenticate.
  rewrite (run_user_authenticate_request env _ _ _ _ _ _ _
             Hconfig Hreplies Hbody).
  cbn [Py.contains lift]. rewrite (has_key_false _ _ Herror). mrun.
  cbn [until_session_token]. rewrite run_bind.
  rewrite (run_get_session_token_success env _ _ _ _ _ Hstatus Htoken).
  rewrite after_answered. cbn [app].
  destruct fuel, tok; try reflexivity; now destruct Hnull.
Qed.

Lemma run_idp_auth_local (env : Env) (fuel : nat) (config : loc) (w : World)
  (c : Config) (found signed organization : Response)
  (rest : list Response) (props d : gmap string json) (tok : json)
  (cookies : gmap string string) (others : list (gmap string string)) :
  heap w !! config = Some c ->
  replies w = found :: signed :: organization :: rest ->
  wrapped w = cookies :: others ->
  discovers found props ->
  props !! "okta:idp:type" = Some (JStr "OKTA") ->
  signs_in signed tok ->
  tok <> JNull ->
  body organization = Some (JDict d) ->
  d !! "pipeline" = Some (JStr "v1") ->
  idp_auth env (S (S fuel)) config w
  = (Done (Some cookies),
     with_wrapped others
       (answered w rest
          [ Sent (webfinger_request (username c) (org c));
            Sent (authn_request c);
            Masked tok;
            CookiesRequested (org c) tok;
            CookiesSet (Some cookies);
            Sent (pipeline_request (org c)) ])).
Proof.
  intros Hconfig Hreplies Hwrapped Hfound Htype Hsigned Hnull Hbody
         Hpipeline.
  change (idp_auth env (S (S fuel)) config)
    with (userid ← config_get config username;
          url ← config_get config org;
          auth_properties ← get_auth_properties userid url;
          session_cookies ←
            (if local_authentication_enabled auth_properties then
               session_token ← user_authenticate env (S fuel) config;
               org_url ← config_get config org;
               cookies ← request_cookies org_url session_token;
               HTTP_set_cookies (Some cookies) ;;
               mret (Some cookies)
             else if is_saml2_authentication auth_properties then
               saml2_authenticate env (idp_auth env (S fuel)) config
                                  auth_properties
             else die 1 UnsupportedIdpDiscovery);
          org_url ← config_get config org;
          oie ← oie_enabled org_url;
          if oie : bool then oauth2_authorize config session_cookies
          else mret session_cookies).
  rewrite run_bind, (run_config_get _ _ _ _ Hconfig).
  rewrite run_bind, (run_config_get _ _ _ _ Hconfig).
  rewrite run_bind, (run_get_auth_properties _ _ _ _ _ _ Hreplies Hfound).
  unfold local_authentication_enabled. cbn [ap_type].
  rewrite Htype. cbn [default from_option id].
  change (Py.eq_str (JStr "OKTA") "OKTA") with true. cbv iota.
  rewrite run_bind, run_bind.
  rewrite (run_user_authenticate_success env fuel config _ c signed
             (organization :: rest) tok); [|exact Hconfig|reflexivity|exact Hsigned|exact Hnull].
  rewrite run_bind, (run_config_get _ _ _ c) by exact Hconfig.
  rewrite run_bind. unfold request_cookies. rewrite run_bind, run_emit.
  unfold next at 1. cbn [wrapped answered after with_replies with_trace].
  rewrite Hwrapped. unfold HTTP_set_cookies. mrun.
  rewrite (run_config_get _ _ _ c) by exact Hconfig.
  unfold oie_enabled, get_auth_pipeline.
  rewrite run_bind, run_bind.
  erewrite run_HTTP_get by reflexivity.
  unfold response_json. rewrite Hbody.
  cbn [lift try_except ret]. rewrite run_bind.
  cbn [Py.get lift try_except ret]. rewrite Hpipeline.
  cbn [default from_option id].
  change (Py.eq_str (JStr "v1") "idx") with false.
  change (Py.eq_str (JStr "v1") "v1") with true.
  mrun. change (Py.eq_str (JStr "v1") "idx") with false. cbv iota. unfold answered, after, pipeline_request. destruct w; cbn.
  rewrite <- !app_assoc. reflexivity.
Qed.

(** X7.  Local authentication on the classic pipeline, from end to end:
    when discovery says [OKTA], primary authentication succeeds with a
    session token and the organization is on pipeline [v1], [idp_auth]
    sends the webfinger request, posts the credentials, registers the
    token for masking, has it wrapped into cookies, hands these to the
    transport, asks for the pipeline and returns the cookies; the OAuth2
    endpoints are not contacted. *)
Theorem idp_auth_local (env : Env) (fuel : nat) (config : loc) (w : World)
  (c : Config) (found signed organization : Response)
  (rest : list Response) (props d : gmap string json) (tok : json)
  (cookies : gmap string string) (others : list (gmap string string)) :
  heap w !! config = Some c ->
  replies w = found :: signed :: organization :: rest ->
  wrapped w = cookies :: others ->
  discovers found props ->
  props !! "okta:idp:type" = Some (JStr "OKTA") ->
  signs_in signed tok ->
  tok <> JNull ->
  body organization = Some (JDict d) ->
  d !! "pipeline" = Some (JStr "v1") ->
  idp_auth env (S (S fuel)) config w
  = (Done (Some cookies),
     with_wrapped others
       (answered w rest
          [ Sent (webfinger_request (username c) (org c));
            Sent (authn_request c);
            Masked tok;
            CookiesRequested (org c) tok;
            CookiesSet (Some cookies);
            Sent (pipeline_request (org c)) ])).
Proof.
  intros Hconfig Hreplies Hwrapped Hfound Htype Hsigned Hnull Hbody
         Hpipeline.
  exact (run_idp_auth_local env fuel config w c found signed organization
           rest props d tok cookies others Hconfig Hreplies Hwrapped Hfound
           Htype Hsigned Hnull Hbody Hpipeline).
Qed.

Lemma idp_auth_local_witness :
  let w := with_wrapped [ {[ "sid" := "102xyz" ]} ]
             (answering [ webfinger "OKTA"; signed_in (JStr "20111abc");
                          organization "v1" ]) in
  idp_auth (sample_env []) 2 0%nat w
  = (Done (Some {[ "sid" := "102xyz" ]}),
     with_wrapped []
       (answered w []
          [ Sent (webfinger_request "jane" "https://acme.okta.com");
            Sent (authn_request sample_config);
            Masked (JStr "20111abc");
            CookiesRequested "https://acme.okta.com" (JStr "20111abc");
            CookiesSet (Some {[ "sid" := "102xyz" ]});
            Sent (pipeline_request "https://acme.okta.com") ])).
Proof.
  refine (idp_auth_local
            (sample_env []) 0 0%nat
            (with_wrapped [ {[ "sid" := "102xyz" ]} ]
               (answering [ webfinger "OKTA"; signed_in (JStr "20111abc");
                            organization "v1" ]))
            sample_config (webfinger "OKTA") (signed_in (JStr "20111abc"))
            (organization "v1") [] (webfinger_props "OKTA")
            (dict [("pipeline", JStr "v1")]) (JStr "20111abc")
            {[ "sid" := "102xyz" ]} []
            eq_refl eq_refl eq_refl (webfinger_discovers "OKTA") eq_refl
            _ _ eq_refl eq_refl).
  - eexists. repeat split; reflexivity.
  - discriminate.
Defined.

(* ===================================================================== *)
(** * 24. Factors: challenge, verification code, effects of polling       *)
(* ===================================================================== *)

(** X8.  [mfa_challenge] on an answer without [_embedded], or whose
    [_embedded] has no [factors], ends the attempt with status 1
    ([MalformedFactorList]) before anything is sent or asked; an
    [_embedded] that is [null] raises [TypeError], which the handler does
    not catch. *)
Theorem mfa_challenge_malformed (env : Env) (config : loc)
  (hd : gmap string string) (d : gmap string json) (w : World) :
  (d !! "_embedded" = None ->
   mfa_challenge env config hd (JDict d) w
   = (Fail (SysExit 1), after w [Logged MalformedFactorList]))
  /\ (forall e,
        d !! "_embedded" = Some (JDict e) -> e !! "factors" = None ->
        mfa_challenge env config hd (JDict d) w
        = (Fail (SysExit 1), after w [Logged MalformedFactorList]))
  /\ (d !! "_embedded" = Some JNull ->
      mfa_challenge env config hd (JDict d) w = (Fail (Raised TypeError), w)).
Proof.
  split; [|split].
  - intros H. unfold mfa_challenge. rewrite run_bind.
    cbn [Py.getitem]. rewrite H. reflexivity.
  - intros e H He. unfold mfa_challenge. rewrite run_bind.
    cbn [Py.getitem]. rewrite H. cbn [rbind Py.getitem]. rewrite He.
    reflexivity.
  - intros H. unfold mfa_challenge. rewrite run_bind.
    cbn [Py.getitem]. rewrite H. reflexivity.
Qed.

Lemma index_empty (i : Z) : Py.index (JList []) i = Exn IndexError.
Proof.
  unfold Py.index. change (Z.of_nat (List.length (@nil json))) with 0.
  destruct (i <? 0) eqn:Hi.
  - apply Z.ltb_lt in Hi.
    replace (0 <=? 0 + i) with false by (symmetry; apply Z.leb_gt; lia).
    reflexivity.
  - rewrite Hi. now rewrite andb_false_r.
Qed.

(** X9.  With an empty list of factors no selector can match, so the user
    is asked to pick; whatever is picked, [mfa_challenge] raises
    [IndexError] and sends nothing. *)
Theorem mfa_challenge_no_factors (env : Env) (config : loc)
  (hd : gmap string string) (d e : gmap string json) (w : World)
  (c : Config) (i : Z) (others : list Z) :
  heap w !! config = Some c ->
  d !! "_embedded" = Some (JDict e) ->
  e !! "factors" = Some (JList []) ->
  picked w = i :: others ->
  mfa_challenge env config hd (JDict d) w
  = (Fail (Raised IndexError), with_picked others w).
Proof.
  intros Hconfig Hd He Hpicked. unfold mfa_challenge.
  rewrite run_bind. cbn [Py.getitem]. rewrite Hd.
  cbn [rbind Py.getitem]. rewrite He. cbn [lift try_except ret].
  rewrite run_bind, (run_config_get _ _ _ _ Hconfig).
  rewrite run_bind. cbn [Py.iterate lift ret].
  rewrite run_bind. cbn [comprehension lift ret].
  assert (forall opts, mfa_index (mfa c) [] opts w
                       = (Done i, with_picked others w)) as Hindex.
  { intros opts. unfold mfa_index, matching_indices.
    assert (match mfa c with
            | Some p => if nonempty (mfa c) then [] else []
            | None => []
            end = @nil Z) as Hnil
      by (destruct (mfa c); [destruct (nonempty _)|]; reflexivity).
    cbn [enumerate List.length seq map combine List.filter].
    rewrite Hnil. unfold select_preferred_mfa_index, next.
    now rewrite Hpicked. }
  rewrite run_bind, Hindex. rewrite run_bind, index_empty. reflexivity.
Qed.

Lemma mfa_challenge_no_factors_witness :
  let w := with_picked [0] (answering []) in
  mfa_challenge (sample_env []) 0%nat ∅ (JDict no_factors) w
  = (Fail (Raised IndexError), with_picked [] w).
Proof.
  exact (mfa_challenge_no_factors
           (sample_env []) 0%nat ∅ no_factors
           (dict [("factors", JList [])])
           (with_picked [0] (answering [])) sample_config 0 []
           eq_refl eq_refl eq_refl eq_refl).
Defined.

Lemma run_config_set (l : loc) (upd : Config -> Config) (w : World)
  (c : Config) :
  heap w !! l = Some c ->
  config_set l upd w = (Done tt, with_heap (<[l := upd c]> (heap w)) w).
Proof. intros H. unfold config_set. now rewrite H. Qed.

(** X10.  [totp_approval] prompts for the verification code only when the
    configuration holds none: the code typed is stored in the
    configuration, registered for masking and sent as [passCode] with the
    state token.  A code that the configuration already holds is sent as
    it is, nothing is asked and the configuration is left alone.  The
    session token of the answer, if any, is registered for masking. *)
Theorem totp_approval_code (config : loc) (selected_mfa_option : json)
  (hd : gmap string string) (url : string) (payload : gmap string json)
  (primary_auth : json) (w : World) (c : Config) (factor_type st : json)
  (reply : Response) (rest : list Response) (verify : gmap string json) :
  heap w !! config = Some c ->
  Py.getitem selected_mfa_option "factorType" = Val factor_type ->
  Py.getitem primary_auth "stateToken" = Val st ->
  replies w = reply :: rest ->
  body reply = Some (JDict verify) ->
  (forall code more,
     mfa_response c = None ->
     typed w = code :: more ->
     totp_approval config selected_mfa_option hd (JStr url) payload
                   primary_auth w
     = (Done (JDict verify),
        with_heap (<[config := set_mfa_response (Some code) c]> (heap w))
          (with_typed more
             (answered w rest
                ([ Masked (JStr code);
                   Sent (totp_request url hd st code) ]
                 ++ masks_token verify)))))
  /\ (forall code,
        mfa_response c = Some code ->
        totp_approval config selected_mfa_option hd (JStr url) payload
                      primary_auth w
        = (Done (JDict verify),
           answered w rest
             (Sent (totp_request url hd st code) :: masks_token verify))).
Proof.
  intros Hconfig Hfactor Hstate Hreplies Hbody. split.
  - intros code more Hnone Htyped. unfold totp_approval.
    rewrite Hfactor, Hstate. mrun.
    rewrite (run_config_get _ _ _ _ Hconfig), Hnone. mrun.
    unfold user_get_input, next. rewrite Htyped.
    rewrite run_bind, (run_config_set _ _ _ c) by exact Hconfig. mrun.
    rewrite (run_config_get _ _ _ (set_mfa_response (Some code) c))
      by apply lookup_insert_eq.
    cbn [mfa_response set_mfa_response opt_json as_url]. mrun.
    erewrite HTTP_post_json_body;
      [| cbn [replies with_typed with_heap with_trace]; exact Hreplies
       | exact Hbody ].
    cbn [Py.contains lift]. unfold masks_token, Py.has_key.
    destruct (verify !! "sessionToken") as [tok|] eqn:Htok.
    + rewrite bool_decide_eq_true_2 by eauto. mrun.
      cbn [Py.getitem]. rewrite Htok. mrun.
      unfold answered, after, totp_request. destruct w; cbn.
      rewrite <- !app_assoc. reflexivity.
    + rewrite bool_decide_eq_false_2 by (intros [? ?]; discriminate).
      mrun. unfold answered, after, totp_request. destruct w; cbn.
      rewrite <- !app_assoc. reflexivity.
  - intros code Hsome. unfold totp_approval.
    rewrite Hfactor, Hstate. mrun.
    rewrite (run_config_get _ _ _ _ Hconfig), Hsome. mrun.
    rewrite (run_config_get _ _ _ _ Hconfig), Hsome.
    cbn [opt_json as_url]. mrun.
    rewrite (HTTP_post_json_body _ _ _ _ _ _ _ Hreplies Hbody).
    cbn [Py.contains lift]. unfold masks_token, Py.has_key.
    destruct (verify !! "sessionToken") as [tok|] eqn:Htok.
    + rewrite bool_decide_eq_true_2 by eauto. mrun.
      cbn [Py.getitem]. rewrite Htok. mrun.
      unfold answered, after, totp_request. destruct w; cbn.
      rewrite <- !app_assoc. reflexivity.
    + rewrite bool_decide_eq_false_2 by (intros [? ?]; discriminate).
      mrun. unfold answered, after, totp_request. destruct w; cbn.
      reflexivity.
Qed.

Lemma totp_approval_code_witness :
  let w := with_typed ["123456"] (answering [document (JDict approved)]) in
  let hd : gmap string string := dict [("accept", "application/json")] in
  totp_approval 0%nat sms_factor hd
    (JStr "https://acme.okta.com/api/v1/authn/factors/sms2/verify")
    ∅ mfa_required w
  = (Done (JDict approved),
     with_heap
       (<[0%nat := set_mfa_response (Some "123456") sample_config]> (heap w))
       (with_typed []
          (answered w []
             ([ Masked (JStr "123456");
                Sent (totp_request
                        "https://acme.okta.com/api/v1/authn/factors/sms2/verify"
                        hd (JStr "00abc") "123456") ]
              ++ masks_token approved)))).
Proof.
  exact (proj1 (totp_approval_code
                  0%nat sms_factor (dict [("accept", "application/json")])
                  "https://acme.okta.com/api/v1/authn/factors/sms2/verify"
                  ∅ mfa_required
                  (with_typed ["123456"]
                     (answering [document (JDict approved)]))
                  sample_config (JStr "sms") (JStr "00abc")
                  (document (JDict approved)) [] approved
                  eq_refl eq_refl eq_refl eq_refl eq_refl)
               "123456" [] eq_refl eq_refl).
Defined.












(* ===================================================================== *)
(** * 25. OAuth2: validation, client identifier, state and challenge      *)
(* ===================================================================== *)

Lemma lift_done_inv {A} (r : result A) (a : A) (w w' : World) :
  lift r w = (Done a, w') -> r = Val a /\ w' = w.
Proof.
  destruct r; cbn [lift ret raise fail]; intros H;
    [injection H as -> ->; auto | discriminate].
Qed.

(** X12.  A discovery document that passes [validate_oauth2_configuration]
    (which reports nothing when it passes) always makes
    [authorization_code_enabled] answer true: after a successful
    validation the branch of [oauth2_authorize] that skips the flow cannot
    be taken. *)
Theorem validated_configuration_is_enabled (org_url : string)
  (oauth2_config : json) (w w1 : World) :
  validate_oauth2_configuration oauth2_config w = (Done tt, w1) ->
  w1 = w
  /\ forall w2,
       authorization_code_enabled org_url oauth2_config w2 = (Done true, w2).
Proof.
  unfold validate_oauth2_configuration. intros H.
  apply bind_done_inv in H as ([] & wa & Hitems & H).
  apply bind_done_inv in H as (grants & wb & Hgrants & H).
  apply lift_done_inv in Hgrants as [Hgrants ->].
  apply bind_done_inv in H as (has_grant & wc & Hhas & H).
  apply lift_done_inv in Hhas as [Hhas ->].
  apply bind_done_inv in H as ([] & wd & Hgrant & H).
  destruct has_grant; [|discriminate].
  injection Hgrant as <-.
  apply bind_done_inv in H as (types & we & Htypes & H).
  apply lift_done_inv in Htypes as [Htypes ->].
  apply bind_done_inv in H as (has_code & wf & Hcode & H).
  apply lift_done_inv in Hcode as [Hcode ->].
  destruct has_code; [|discriminate]. injection H as <-.
  split.
  - clear - Hitems. revert Hitems.
    generalize mandadory_oauth2_config_items. intros items.
    induction items as [|item items IH]; cbn [check_items].
    + now intros [= ->].
    + intros H. apply bind_done_inv in H as (found & wb & Hfound & H).
      apply lift_done_inv in Hfound as [_ ->].
      destruct found; [auto | discriminate].
  - intros w2. unfold authorization_code_enabled, try_except.
    rewrite run_bind, Hgrants. cbn [lift ret].
    rewrite run_bind, Hhas. reflexivity.
Qed.

Lemma validated_configuration_is_enabled_witness :
  silent = silent
  /\ forall w2,
       authorization_code_enabled "https://acme.okta.com"
         (JDict discovery_with_grant) w2
       = (Done true, w2).
Proof.
  exact (validated_configuration_is_enabled
           "https://acme.okta.com" (JDict discovery_with_grant)
           silent silent eq_refl).
Defined.

Lemma contains_exn (k k' : string) (v : json) (e : pyexn) :
  Py.contains k v = Exn e -> Py.contains k' v = Exn e.
Proof. destruct v; cbn [Py.contains]; congruence. Qed.

(** X13.  The loop of [validate_oauth2_configuration] over the mandatory
    items runs over a set, whose iteration order is not fixed.  The
    verdict does not depend on the order: in whatever order the items are
    visited, the loop passes when every item is a key of the document and
    ends the attempt with status 1 when one is missing.  Which missing
    item the message names does depend on the order: it is the first
    missing one met.  The text of the message is not modelled, and
    nothing is claimed about it. *)
Theorem check_items_any_order (items items' : list string)
  (oauth2_config : json) (w : World) :
  Permutation items items' ->
  fst (check_items items oauth2_config w)
  = fst (check_items items' oauth2_config w)
  /\ forall d,
       oauth2_config = JDict d ->
       fst (check_items items' oauth2_config w)
       = if bool_decide (Forall (fun item => is_Some (d !! item)) items)
         then Done tt else Fail (SysExit 1).
Proof.
  intros Hperm.
  assert (fst (check_items items oauth2_config w)
          = fst (check_items items' oauth2_config w)) as Hsame.
  { induction Hperm as [| x l l' _ IH | x y l | l l' l'' _ IH1 _ IH2].
    - reflexivity.
    - cbn [check_items]. rewrite !run_bind.
      destruct (Py.contains x oauth2_config) as [[]|e]; cbn [lift ret];
        [exact IH | reflexivity | reflexivity].
    - cbn [check_items]. rewrite !run_bind.
      destruct (Py.contains x oauth2_config) as [bx|e] eqn:Hx;
        destruct (Py.contains y oauth2_config) as [by_|e'] eqn:Hy;
        cbn [lift ret raise fail].
      + destruct bx, by_; cbn [lift ret]; rewrite ?run_bind, ?Hx, ?Hy;
          reflexivity.
      + rewrite (contains_exn y x _ _ Hy) in Hx. discriminate.
      + rewrite (contains_exn x y _ _ Hx) in Hy. discriminate.
      + rewrite (contains_exn x y _ _ Hx) in Hy. now injection Hy as ->.
    - now rewrite IH1. }
  split; [exact Hsame|].
  intros d ->. rewrite <- Hsame. case_bool_decide as Hall.
  - now rewrite check_items_present.
  - rewrite check_items_missing; [reflexivity|].
    apply not_Forall_Exists in Hall; [|intros item; apply _].
    eapply Exists_impl; [exact Hall|].
    intros item Hitem. now apply eq_None_not_Some.
Qed.

Lemma check_items_any_order_witness :
  fst (check_items ["token_endpoint"; "scopes_supported"]
                   (JDict discovery_without_token_endpoint) silent)
  = fst (check_items ["scopes_supported"; "token_endpoint"]
                     (JDict discovery_without_token_endpoint) silent)
  /\ fst (check_items ["scopes_supported"; "token_endpoint"]
                      (JDict discovery_without_token_endpoint) silent)
     = Fail (SysExit 1).
Proof.
  destruct (check_items_any_order
              ["token_endpoint"; "scopes_supported"]
              ["scopes_supported"; "token_endpoint"]
              (JDict discovery_without_token_endpoint) silent
              (perm_swap _ _ _)) as [Hsame Hverdict].
  split; [exact Hsame|].
  exact (Hverdict discovery_without_token_endpoint eq_refl).
Defined.

(** X14.  [get_client_id] returns the configured client identifier and
    changes nothing when there is one; when there is none it generates
    [okta.<uuid>], stores it in the configuration and returns it.  Once it
    has returned, calling it again returns the same identifier and changes
    nothing: no second [uuid] is drawn. *)
Theorem get_client_id_stable (config : loc) (w : World) (c : Config) :
  heap w !! config = Some c ->
  (forall id,
     oauth_client_id c = Some id ->
     get_client_id config w = (Done (Some id), w))
  /\ (forall u us,
        oauth_client_id c = None ->
        uuids w = u :: us ->
        get_client_id config w
        = (Done (Some ("okta." +:+ u)),
           with_heap
             (<[config := set_oauth_client_id (Some ("okta." +:+ u)) c]>
                (heap w))
             (with_uuids us w)))
  /\ (forall r w1,
        get_client_id config w = (Done r, w1) ->
        get_client_id config w1 = (Done r, w1)).
Proof.
  intros Hconfig.
  assert (forall id,
            oauth_client_id c = Some id ->
            get_client_id config w = (Done (Some id), w)) as Hset.
  { intros id Hid. unfold get_client_id.
    rewrite run_bind, (run_config_get _ _ _ _ Hconfig), Hid.
    mrun. now rewrite (run_config_get _ _ _ _ Hconfig), Hid. }
  assert (forall u us,
            oauth_client_id c = None ->
            uuids w = u :: us ->
            get_client_id config w
            = (Done (Some ("okta." +:+ u)),
               with_heap
                 (<[config := set_oauth_client_id (Some ("okta." +:+ u)) c]>
                    (heap w))
                 (with_uuids us w))) as Hfresh.
  { intros u us Hnone Hu. unfold get_client_id.
    rewrite run_bind, (run_config_get _ _ _ _ Hconfig), Hnone.
    rewrite run_bind, run_bind. unfold uuid4, next. rewrite Hu.
    rewrite (run_config_set _ _ _ c) by exact Hconfig.
    now rewrite (run_config_get _ _ _
                   (set_oauth_client_id (Some ("okta." +:+ u)) c))
      by apply lookup_insert_eq. }
  split; [exact Hset|]. split; [exact Hfresh|].
  intros r w1 Hrun.
  destruct (oauth_client_id c) as [id|] eqn:Hid.
  - rewrite (Hset id eq_refl) in Hrun. injection Hrun as <- <-.
    now apply Hset.
  - destruct (uuids w) as [|u us] eqn:Hu.
    + exfalso. revert Hrun. unfold get_client_id.
      rewrite run_bind, (run_config_get _ _ _ _ Hconfig), Hid.
      rewrite run_bind, run_bind. unfold uuid4, next. rewrite Hu.
      discriminate.
    + rewrite (Hfresh u us eq_refl eq_refl) in Hrun.
      injection Hrun as <- <-. unfold get_client_id.
      rewrite run_bind.
      rewrite (run_config_get _ _ _
                 (set_oauth_client_id (Some ("okta." +:+ u)) c))
        by apply lookup_insert_eq.
      cbn [oauth_client_id set_oauth_client_id]. mrun.
      now rewrite (run_config_get _ _ _
                     (set_oauth_client_id (Some ("okta." +:+ u)) c))
        by apply lookup_insert_eq.
Qed.

Lemma get_client_id_stable_witness :
  let w := with_uuids ["6f1c"] (answering []) in
  get_client_id 0%nat w
  = (Done (Some "okta.6f1c"),
     with_heap
       (<[0%nat := set_oauth_client_id (Some "okta.6f1c") sample_config]>
          (heap w))
       (with_uuids [] w)).
Proof.
  exact (proj1 (proj2 (get_client_id_stable
                         0%nat (with_uuids ["6f1c"] (answering []))
                         sample_config eq_refl))
               "6f1c" [] eq_refl eq_refl).
Defined.

Lemma hex_digit_is_hex (k : N) :
  (k < 16)%N -> is_hex (SHA256.hex_digit k) = true.
Proof.
  intros Hk.
  assert (In k (map N.of_nat (seq 0 16))) as Hin.
  { replace k with (N.of_nat (N.to_nat k)) by apply N2Nat.id.
    apply in_map, in_seq. lia. }
  clear Hk. revert k Hin. apply List.Forall_forall.
  repeat constructor.
Qed.

Lemma code_bound (c : ascii) : (Text.code c < 256)%N.
Proof. apply N_ascii_bounded. Qed.

Lemma hexdigest_shape (msg : list ascii) :
  String.length (SHA256.hexdigest msg) = 64%nat
  /\ Text.all is_hex (SHA256.hexdigest msg) = true.
Proof.
  unfold SHA256.hexdigest. split.
  - rewrite length_of_bytes.
    assert (forall l : list ascii,
              List.length
                (flat_map (fun c => [SHA256.hex_digit (Text.code c / 16);
                                     SHA256.hex_digit (Text.code c mod 16)])
                          l)
              = (2 * List.length l)%nat) as Hlen
      by (induction l as [|c l IH]; simpl in *; lia).
    rewrite Hlen. reflexivity.
  - generalize (SHA256.sha256 msg). intros l.
    induction l as [|c l IH]; [reflexivity|].
    cbn [flat_map app Text.of_bytes string_of_list_ascii Text.all].
    pose proof (code_bound c) as Hc.
    rewrite !hex_digit_is_hex.
    + exact IH.
    + apply N.mod_lt. lia.
    + apply N.Div0.div_lt_upper_bound. lia.
Qed.

(** X15.  [get_oauth2_state] returns whenever the random source yields 1024
    octets: the state is the SHA-256 digest of those octets in
    hexadecimal, sixty-four characters of [[0-9a-f]]. *)
Theorem oauth2_state_shape (w : World) :
  (1024 <= List.length (entropy w))%nat ->
  exists state,
    get_oauth2_state w
    = (Done state, with_entropy (drop 1024 (entropy w)) w)
    /\ state = SHA256.hexdigest (take 1024 (entropy w))
    /\ String.length state = 64%nat
    /\ Text.all is_hex state = true.
Proof.
  intros Hlen. eexists. split; [|split; [reflexivity|]].
  - unfold get_oauth2_state, os_urandom, mbind, M_bind, bind.
    destruct (decide (1024 <= List.length (entropy w))%nat); [|lia].
    reflexivity.
  - apply hexdigest_shape.
Qed.

Lemma oauth2_state_shape_witness :
  exists state,
    get_oauth2_state (zeros 1024)
    = (Done state,
       with_entropy (drop 1024 (entropy (zeros 1024))) (zeros 1024))
    /\ state = SHA256.hexdigest (take 1024 (entropy (zeros 1024)))
    /\ String.length state = 64%nat
    /\ Text.all is_hex state = true.
Proof.
  apply (oauth2_state_shape (zeros 1024)).
  vm_compute. lia.
Defined.

Lemma kind_url_safe (c : ascii) :
  xorb (Text.is_alnum c) (is_dash_or_underscore c) = true ->
  Text.is_url_safe c = true.
Proof.
  unfold Text.is_url_safe, is_dash_or_underscore.
  destruct (Text.is_alnum c); [reflexivity|].
  cbn [xorb orb]. intros ->. reflexivity.
Qed.

(** X16.  The PKCE challenge of any code verifier exists, consists of
    unreserved URL characters only and holds no [=]. *)
Theorem pkce_challenge_url_safe (code_verifier : string) :
  exists code_challenge,
    get_pkce_code_challenge code_verifier = Val code_challenge
    /\ Text.all Text.is_url_safe code_challenge = true
    /\ Text.contains "=" code_challenge = false.
Proof.
  eexists. split; [|split].
  - unfold get_pkce_code_challenge.
    rewrite decode_urlsafe_b64encode. cbn [rbind].
    now rewrite strip_padding.
  - apply (all_impl _ _ _ kind_url_safe), unpadded_digit_kinds.
  - assert (forall s,
              Text.all (fun c => xorb (Text.is_alnum c)
                                      (is_dash_or_underscore c)) s = true ->
              Text.contains "=" s = false) as Hno.
    { induction s as [|c s IH]; [reflexivity|].
      cbn [Text.all Text.contains Text.is_prefix].
      intros [Hc Hs]%andb_prop. rewrite (IH Hs), orb_false_r.
      destruct (Ascii.eqb_spec "=" c) as [<-|]; [|reflexivity].
      vm_compute in Hc. discriminate. }
    apply Hno, unpadded_digit_kinds.
Qed.

(* ===================================================================== *)
(** * 26. The callback URL and the authorization-code flow                *)
(* ===================================================================== *)

Lemma append_cons (c : ascii) (a b : string) :
  String c a +:+ b = String c (a +:+ b).
Proof. reflexivity. Qed.

Lemma append_assoc3 (a b c : string) : (a +:+ b) +:+ c = a +:+ (b +:+ c).
Proof.
  induction a as [|x a IH]; [reflexivity|].
  rewrite !append_cons. now f_equal.
Qed.

Lemma skip_prefix (key rest : string) :
  Re.skip (String.length key) (key +:+ rest) = rest.
Proof.
  induction key as [|c key IH]; [now destruct rest|].
  rewrite append_cons. exact IH.
Qed.

Lemma until_spec (c : ascii) (s : string) :
  exists rest,
    s = Re.until c s +:+ rest
    /\ Text.contains (String c "") (Re.until c s) = false.
Proof.
  induction s as [|x s (rest & Hs & Hno)].
  - now exists "".
  - cbn [Re.until]. destruct (Ascii.eqb_spec x c) as [->|Hx].
    + now exists (String c s).
    + exists rest. split; [rewrite append_cons; now rewrite <- Hs|].
      cbn [Text.contains Text.is_prefix]. rewrite Hno, orb_false_r.
      destruct (Ascii.eqb_spec c x) as [->|]; [contradiction|reflexivity].
Qed.

Lemma until_head (c x : ascii) (s : string) :
  x <> c -> exists m, Re.until c (String x s) = String x m.
Proof.
  intros Hx. cbn [Re.until].
  destruct (Ascii.eqb_spec x c); [contradiction|]. eauto.
Qed.

Lemma substring_tail (needle hay : string) (c : ascii) :
  substring needle hay -> substring needle (String c hay).
Proof.
  intros (before & after & ->). now exists (String c before), after.
Qed.

(** What the search finds follows an occurrence of the key, is not empty
    and holds no [&]. *)
Lemma search_after_sound (key s m : string) :
  Re.search_after key s = Some m ->
  m <> "" /\ Text.contains "&" m = false /\ substring (key +:+ m) s.
Proof.
  induction s as [|a r IH]; [discriminate|].
  cbn [Re.search_after].
  destruct (Text.is_prefix key (String a r)) eqn:Hprefix.
  - apply is_prefix_spec in Hprefix as [rest Hrest].
    rewrite Hrest, skip_prefix.
    destruct (until_spec "&" rest) as (rest' & Hsplit & Hno).
    destruct (Re.until "&" rest) as [|x u] eqn:Hu.
    + rewrite <- Hrest. intros H. destruct (IH H) as (? & ? & ?).
      auto using substring_tail.
    + intros [= <-]. split; [discriminate|]. split; [exact Hno|].
      exists "", rest'. change ("" +:+ ?x) with x. rewrite Hsplit at 1.
      now rewrite append_assoc3.
  - intros H. destruct (IH H) as (? & ? & ?). auto using substring_tail.
Qed.

(** The search finds something exactly when the URL has the parameter. *)
Lemma search_after_is_Some (key s : string) :
  is_Some (Re.search_after key s) <-> has_parameter key s.
Proof.
  split.
  - intros [m Hm]. destruct (search_after_sound _ _ _ Hm) as (Hne & Hno & Hsub).
    destruct m as [|c m]; [contradiction|].
    exists c. split.
    + intros ->. cbn in Hno. discriminate.
    + destruct Hsub as (before & after & ->).
      exists before, (m +:+ after).
      now rewrite !append_assoc3.
  - intros (c & Hc & before & after & ->).
    induction before as [|b before IH].
    + change ("" +:+ ?x) with x.
      assert (exists a r, (key +:+ String c "") +:+ after = String a r)
        as (a & r & Heq) by (destruct key; rewrite ?append_cons; eauto).
      rewrite Heq. cbn [Re.search_after]. rewrite <- Heq.
      rewrite append_assoc3.
      rewrite (proj2 (is_prefix_spec key (key +:+ String c "" +:+ after)))
        by eauto.
      rewrite skip_prefix. rewrite append_cons.
      change ("" +:+ after) with after.
      destruct (until_head "&" c after Hc) as [m ->]. eauto.
    + rewrite append_cons. cbn [Re.search_after].
      destruct (if Text.is_prefix key _ then _ else _); [eauto | exact IH].
Qed.

Lemma search_after_None (key s : string) :
  Re.search_after key s = None <-> ~ has_parameter key s.
Proof.
  rewrite <- search_after_is_Some, eq_None_not_Some. tauto.
Qed.

Lemma length_append (a b : string) :
  String.length (a +:+ b) = (String.length a + String.length b)%nat.
Proof.
  induction a as [|x a IH]; [reflexivity|].
  rewrite append_cons. cbn [String.length]. now rewrite IH.
Qed.

Lemma prefix_of_longer (a b c d : string) :
  a +:+ b = c +:+ d ->
  (String.length a <= String.length c)%nat ->
  exists e, c = a +:+ e.
Proof.
  revert c. induction a as [|x a IH]; intros c Heq Hlen.
  - now exists c.
  - destruct c as [|y c]; [cbn in Hlen; lia|].
    rewrite !append_cons in Heq. injection Heq as -> Heq.
    destruct (IH c Heq) as [e ->]; [cbn in Hlen; lia|].
    now exists e.
Qed.

(** The run up to the next [c] is followed by nothing or by [c]. *)
Lemma until_rest (c : ascii) (s : string) :
  exists rest,
    s = Re.until c s +:+ rest
    /\ (rest = "" \/ exists rest', rest = String c rest').
Proof.
  induction s as [|x s (rest & Hs & Hrest)].
  - exists "". auto.
  - cbn [Re.until]. destruct (Ascii.eqb_spec x c) as [->|Hx].
    + exists (String c s). eauto.
    + exists rest.
      split; [rewrite append_cons; now rewrite <- Hs | exact Hrest].
Qed.

Lemma until_exact (c : ascii) (value rest : string) :
  Text.contains (String c "") value = false ->
  rest = "" \/ (exists rest', rest = String c rest') ->
  Re.until c (value +:+ rest) = value.
Proof.
  intros Hno Hrest. induction value as [|x value IH].
  - change ("" +:+ rest) with rest.
    destruct Hrest as [->|[rest' ->]]; [reflexivity|].
    cbn [Re.until]. now rewrite Ascii.eqb_refl.
  - rewrite append_cons. cbn [Re.until].
    cbn [Text.contains Text.is_prefix] in Hno.
    apply orb_false_iff in Hno as [Hx Hno].
    rewrite andb_true_r, Ascii.eqb_sym in Hx. rewrite Hx.
    now rewrite IH.
Qed.

Lemma until_nonempty (c x : ascii) (s u : string) :
  Re.until c s = String x u -> x <> c /\ exists s', s = String x s'.
Proof.
  destruct s as [|y s]; [discriminate|]. cbn [Re.until].
  destruct (Ascii.eqb_spec y c) as [|Hy]; [discriminate|].
  intros [= -> _]. eauto.
Qed.

Lemma search_after_cons (key : string) (a : ascii) (r : string) :
  Re.search_after key (String a r)
  = match found_here key (String a r) with
    | Some m => Some m
    | None => Re.search_after key r
    end.
Proof. reflexivity. Qed.

Lemma here_value (key value rest : string) :
  value <> "" ->
  Text.contains "&" value = false ->
  rest = "" \/ (exists rest', rest = String "&" rest') ->
  found_here key (key +:+ value +:+ rest) = Some value.
Proof.
  intros Hne Hno Hrest. unfold found_here.
  rewrite (proj2 (is_prefix_spec key _)) by eauto.
  rewrite skip_prefix, (until_exact "&" value rest Hno Hrest).
  now destruct value.
Qed.

(** Nothing is found at the head of a text that begins with no
    occurrence of the key before a character other than [&]. *)
Lemma here_none (key s front tail : string) :
  s = front +:+ tail ->
  (String.length key < String.length front)%nat ->
  ~ has_parameter key front ->
  found_here key s = None.
Proof.
  intros Hs Hlen Hno. unfold found_here.
  destruct (Text.is_prefix key s) eqn:Hprefix; [|reflexivity].
  apply is_prefix_spec in Hprefix as [rest0 Hrest0].
  rewrite Hrest0, skip_prefix.
  destruct (Re.until "&" rest0) as [|x u] eqn:Hu; [reflexivity|].
  exfalso. apply Hno.
  apply until_nonempty in Hu as [Hx [rest1 ->]].
  exists x. split; [exact Hx|].
  assert ((key +:+ String x "") +:+ rest1 = front +:+ tail) as Heq.
  { rewrite append_assoc3, append_cons. change ("" +:+ rest1) with rest1.
    now rewrite <- Hrest0. }
  apply prefix_of_longer in Heq as [e ->].
  - now exists "", e.
  - rewrite length_append. cbn [String.length]. lia.
Qed.

Lemma here_found (key s : string) (c : ascii) (after : string) :
  s = (key +:+ String c "") +:+ after -> c <> "&"%char ->
  is_Some (found_here key s).
Proof.
  intros -> Hc. unfold found_here. rewrite append_assoc3, append_cons.
  change ("" +:+ after) with after.
  rewrite (proj2 (is_prefix_spec key _)) by eauto.
  rewrite skip_prefix.
  destruct (until_head "&" c after Hc) as [m ->]. eauto.
Qed.

(** The search finds the value of the first parameter, and nothing
    else. *)
Lemma search_after_first (key s m : string) :
  Re.search_after key s = Some m <-> first_value key s m.
Proof.
  split.
  - induction s as [|a r IH]; [discriminate|].
    rewrite search_after_cons.
    destruct (found_here key (String a r)) as [v|] eqn:Hhere.
    + intros [= ->]. unfold found_here in Hhere.
      destruct (Text.is_prefix key (String a r)) eqn:Hprefix; [|discriminate].
      apply is_prefix_spec in Hprefix as [rest0 Hrest0].
      rewrite Hrest0, skip_prefix in Hhere.
      destruct (until_spec "&" rest0) as (rest1 & Hsplit1 & Hno).
      destruct (until_rest "&" rest0) as (rest & Hsplit & Hrest).
      assert (Re.until "&" rest0 = m) as Hm
        by (destruct (Re.until "&" rest0); congruence).
      rewrite Hm in *.
      exists "", rest. change ("" +:+ ?x) with x.
      split; [now rewrite Hrest0, Hsplit at 1|].
      split; [intros ->; discriminate|]. split; [exact Hno|].
      split; [exact Hrest|].
      intros (c & _ & before & after & Heq).
      apply (f_equal String.length) in Heq.
      rewrite !length_append in Heq. cbn [String.length] in Heq. lia.
    + intros H.
      destruct (IH H) as (before & rest & -> & Hne & Hno & Hrest & Hfirst).
      exists (String a before), rest. split; [now rewrite append_cons|].
      do 3 (split; [assumption|]).
      intros (c & Hc & [|b front] & after & Heq).
      * change ("" +:+ ?x) with x in Heq.
        assert (is_Some (found_here key
                           (String a (before +:+ key +:+ m +:+ rest))))
          as [v Hv]; [|congruence].
        eapply (here_found _ _ c (after +:+ m +:+ rest)); [|exact Hc].
        rewrite <- (append_assoc3 _ after), <- Heq.
        now rewrite !append_cons, append_assoc3.
      * rewrite !append_cons in Heq. injection Heq as _ Heq.
        apply Hfirst. exists c. split; [exact Hc|]. now exists front, after.
  - intros (before & rest & -> & Hne & Hno & Hrest & Hfirst).
    induction before as [|b before IH].
    + change ("" +:+ ?x) with x.
      assert (exists a r, key +:+ m +:+ rest = String a r) as (a & r & Heq).
      { destruct key; [destruct m; [contradiction|]|];
          rewrite ?append_cons; eauto. }
      rewrite Heq, search_after_cons, <- Heq.
      now rewrite here_value.
    + rewrite append_cons, search_after_cons.
      rewrite (here_none key _ (String b before +:+ key) (m +:+ rest)).
      * apply IH. intros (c & Hc & Hsub). apply Hfirst.
        exists c. split; [exact Hc|]. rewrite append_cons.
        now apply substring_tail.
      * now rewrite !append_cons, append_assoc3.
      * rewrite length_append. cbn [String.length]. lia.
      * exact Hfirst.
Qed.

(** X17.  [get_authorize_code] on the callback URL: when the URL has an
    [error] parameter, the attempt ends with status 1
    ([AuthorizationDenied]) if it also has an [error_description], and
    raises [AttributeError] if not.  Without [error], a URL without
    [state] raises [AttributeError], even when a code is there; with
    [state], the function returns the value of the first [code]
    parameter of the URL, whole (up to the next [&] or the end) and no
    other text, or [None] when the URL has no [code] parameter. *)
Theorem get_authorize_code_outcomes (response : Response)
  (payload : gmap string json) (w : World) :
  let url := final_url response in
  let run := get_authorize_code response payload w in
  (has_parameter "error=" url ->
   (has_parameter "error_description=" url ->
    run = (Fail (SysExit 1), after w [Logged AuthorizationDenied]))
   /\ (~ has_parameter "error_description=" url ->
       run = (Fail (Raised AttributeError), w)))
  /\ (~ has_parameter "error=" url ->
      (~ has_parameter "state=" url ->
       run = (Fail (Raised AttributeError), w))
      /\ (has_parameter "state=" url ->
          exists r,
            run = (Done r, w)
            /\ (forall code,
                  r = Some code <-> first_value "code=" url code)
            /\ (r = None <-> ~ has_parameter "code=" url))).
Proof.
  intros url run. subst run. unfold get_authorize_code. fold url.
  split.
  - intros [m ->]%search_after_is_Some. split.
    + now intros [d ->]%search_after_is_Some.
    + now intros ->%search_after_None.
  - intros ->%search_after_None. split.
    + now intros ->%search_after_None.
    + intros [st ->]%search_after_is_Some.
      exists (Re.search_after "code=" url). split; [reflexivity|]. split.
      * intros code. apply search_after_first.
      * apply search_after_None.
Qed.

(** The code of a callback URL is read whole: [Xyz12], not a part of
    it. *)
Example get_authorize_code_example :
  let response :=
    {| text := ""; body := None; jar := ∅;
       final_url := "https://acme.okta.com/callback?code=Xyz12&state=abc" |}
  in
  fst (get_authorize_code response ∅ silent) = Done (Some "Xyz12")
  /\ first_value "code=" (final_url response) "Xyz12".
Proof.
  intros response. split; [vm_compute; reflexivity|].
  apply search_after_first. vm_compute. reflexivity.
Qed.

Lemma run_get_pkce_code_challenge (code_verifier : string) :
  get_pkce_code_challenge code_verifier
  = Val (Text.of_bytes
           (Base64.urlsafe_unpadded
              (SHA256.sha256 (Text.encode_utf8 code_verifier)))).
Proof.
  unfold get_pkce_code_challenge.
  rewrite decode_urlsafe_b64encode. cbn [rbind].
  now rewrite strip_padding.
Qed.

Lemma run_os_urandom (n : nat) (w : World) :
  (n <= List.length (entropy w))%nat ->
  os_urandom n w
  = (Done (take n (entropy w)), with_entropy (drop n (entropy w)) w).
Proof.
  intros H. unfold os_urandom.
  destruct (decide (n <= List.length (entropy w))%nat); [reflexivity|lia].
Qed.

Lemma run_get_client_id (config : loc) (w : World) (c : Config) :
  heap w !! config = Some c ->
  (oauth_client_id c = None -> uuids w <> []) ->
  exists client w1 c1,
    get_client_id config w = (Done client, w1)
    /\ heap w1 !! config = Some c1 /\ org c1 = org c
    /\ replies w1 = replies w /\ entropy w1 = entropy w
    /\ trace w1 = trace w.
Proof.
  intros Hconfig Huuid. unfold get_client_id.
  rewrite run_bind, (run_config_get _ _ _ _ Hconfig).
  destruct (oauth_client_id c) as [id|] eqn:Hid.
  - mrun. rewrite (run_config_get _ _ _ _ Hconfig).
    exists (oauth_client_id c), w, c. split; [reflexivity|]. auto.
  - destruct (uuids w) as [|u us] eqn:Hu; [now destruct Huuid|].
    rewrite run_bind, run_bind. unfold uuid4, next. rewrite Hu.
    rewrite (run_config_set _ _ _ c) by exact Hconfig.
    rewrite (run_config_get _ _ _
               (set_oauth_client_id (Some ("okta." +:+ u)) c))
      by apply lookup_insert_eq.
    eexists _, _, _. split; [reflexivity|].
    split; [apply lookup_insert_eq|]. auto.
Qed.

Lemma run_authorization_code_flow (config : loc)
  (cfg : gmap string json)
  (session_cookies : option (gmap string string)) (w : World) (c : Config)
  (authz token : string) (redirected granted : Response)
  (rest : list Response) (tok : json) :
  heap w !! config = Some c ->
  (oauth_client_id c = None -> uuids w <> []) ->
  (1064 <= List.length (entropy w))%nat ->
  cfg !! "authorization_endpoint" = Some (JStr authz) ->
  cfg !! "token_endpoint" = Some (JStr token) ->
  replies w = redirected :: granted :: rest ->
  ~ has_parameter "error=" (final_url redirected) ->
  has_parameter "state=" (final_url redirected) ->
  body granted = Some tok ->
  let run :=
    authorization_code_flow config (JDict cfg) session_cookies w in
  exists client state verifier challenge,
    get_pkce_code_challenge verifier = Val challenge
    /\ fst run = Done tok
    /\ replies (snd run) = rest
    /\ trace (snd run)
       = (trace w
          ++ [ Sent (authorize_request authz client
                       (org c +:+ "/enduser/callback") state challenge
                       (session_cookies ≫= (fun d => d !! "session_token")));
               Sent (token_request token
                       (Re.search_after "code=" (final_url redirected))
                       state (org c +:+ "/enduser/callback") client
                       verifier);
               Masked tok ])%list.
Proof.
  intros Hconfig Huuid Hentropy Hauthz Htoken Hreplies
         Herror%search_after_None [st Hstate]%search_after_is_Some Hbody run.
  destruct (run_get_client_id config w c Hconfig Huuid)
    as (client & w1 & c1 & Hclient & Hconfig1 & Horg & Hreplies1
        & Hentropy1 & Htrace1).
  set (seed := take 1024 (entropy w)).
  set (random := take 40 (drop 1024 (entropy w))).
  set (verifier := Text.re_sub_non_alnum
                     (Text.of_bytes (Base64.urlsafe_b64encode random))).
  exists client, (SHA256.hexdigest seed), verifier,
    (Text.of_bytes
       (Base64.urlsafe_unpadded
          (SHA256.sha256 (Text.encode_utf8 verifier)))).
  split; [apply run_get_pkce_code_challenge|].
  subst run. unfold authorization_code_flow.
  rewrite run_bind, Hclient.
  unfold get_redirect_uri.
  rewrite run_bind, run_bind, (run_config_get _ _ _ _ Hconfig1).
  cbn [mret M_ret ret]. unfold get_oauth2_state.
  rewrite run_bind, run_bind, run_os_urandom by (rewrite Hentropy1; lia).
  cbn [mret M_ret ret Py.getitem]. rewrite Hauthz, Htoken.
  rewrite run_bind. cbn [lift ret]. rewrite run_bind. cbn [lift ret].
  unfold pkce_enabled, get_pkce_code_verifier. cbv iota.
  rewrite run_bind, run_bind, run_bind, run_os_urandom
    by (cbn [entropy with_entropy]; rewrite Hentropy1, length_drop; lia).
  unfold code_verifier_of. rewrite decode_urlsafe_b64encode.
  cbn [rbind lift ret entropy with_entropy]. rewrite Hentropy1.
  fold seed random verifier.
  rewrite run_bind, run_get_pkce_code_challenge.
  cbn [lift ret mret M_ret].
  unfold oauth2_authorize_request.
  cbn [code_challenge code_challenge_method code_verifier client_id
       redirect_uri response_type scope state authz_endpoint_url
       token_endpoint_url grant_type entry lift ret as_url].
  rewrite run_bind. mrun.
  erewrite HTTP_get_reply
    by (cbn [replies with_entropy]; rewrite Hreplies1; exact Hreplies).
  unfold get_authorize_code. rewrite Herror, Hstate.
  cbn [ret]. unfold get_oauth2_token.
  cbn [code_challenge code_challenge_method code_verifier client_id
       redirect_uri response_type scope state authz_endpoint_url
       token_endpoint_url grant_type entry lift ret as_url].
  mrun.
  erewrite HTTP_post_json_body by (reflexivity || exact Hbody).
  mrun. cbn [fst snd replies trace answered after with_replies with_trace
             with_entropy].
  split; [reflexivity|]. split; [reflexivity|].
  rewrite Htrace1, Horg, <- !app_assoc.
  unfold authorize_request, token_request, get_response_type,
    get_pkce_code_challenge_method.
  destruct session_cookies; reflexivity.
Qed.

(** X18.  The authorization-code flow, when the callback carries no error:
    the code challenge sent to the authorization endpoint, with the method
    [S256], is the challenge of the code verifier posted to the token
    endpoint; both requests carry the same state, client identifier and
    redirect URI, which is [/enduser/callback] under the organization
    URL; the code posted is the one found in the callback URL; the answer
    of the token endpoint is registered for masking and returned. *)
Theorem authorization_code_flow_binds_pkce (config : loc)
  (cfg : gmap string json)
  (session_cookies : option (gmap string string)) (w : World) (c : Config)
  (authz token : string) (redirected granted : Response)
  (rest : list Response) (tok : json) :
  heap w !! config = Some c ->
  (oauth_client_id c = None -> uuids w <> []) ->
  (1064 <= List.length (entropy w))%nat ->
  cfg !! "authorization_endpoint" = Some (JStr authz) ->
  cfg !! "token_endpoint" = Some (JStr token) ->
  replies w = redirected :: granted :: rest ->
  ~ has_parameter "error=" (final_url redirected) ->
  has_parameter "state=" (final_url redirected) ->
  body granted = Some tok ->
  let run :=
    authorization_code_flow config (JDict cfg) session_cookies w in
  exists client state verifier challenge,
    get_pkce_code_challenge verifier = Val challenge
    /\ fst run = Done tok
    /\ replies (snd run) = rest
    /\ trace (snd run)
       = (trace w
          ++ [ Sent (authorize_request authz client
                       (org c +:+ "/enduser/callback") state challenge
                       (session_cookies ≫= (fun d => d !! "session_token")));
               Sent (token_request token
                       (Re.search_after "code=" (final_url redirected))
                       state (org c +:+ "/enduser/callback") client
                       verifier);
               Masked tok ])%list.
Proof.
  intros Hconfig Huuid Hentropy Hauthz Htoken Hreplies Herror Hstate Hbody.
  exact (run_authorization_code_flow config cfg session_cookies w c authz
           token redirected granted rest tok Hconfig Huuid Hentropy Hauthz
           Htoken Hreplies Herror Hstate Hbody).
Qed.

Lemma authorization_code_flow_binds_pkce_witness :
  let run :=
    authorization_code_flow 0%nat (JDict discovery_with_grant) None
                            flow_world in
  exists client state verifier challenge,
    get_pkce_code_challenge verifier = Val challenge
    /\ fst run = Done granted_token
    /\ replies (snd run) = []
    /\ trace (snd run)
       = (trace flow_world
          ++ [ Sent (authorize_request
                       "https://acme.okta.com/oauth2/v1/authorize" client
                       (org (set_oauth_client_id (Some "0oa2") sample_config)
                        +:+ "/enduser/callback")
                       state challenge
                       (None ≫= (fun d : gmap string string =>
                                   d !! "session_token")));
               Sent (token_request
                       "https://acme.okta.com/oauth2/v1/token"
                       (Re.search_after "code=" (final_url callback))
                       state
                       (org (set_oauth_client_id (Some "0oa2") sample_config)
                        +:+ "/enduser/callback")
                       client verifier);
               Masked granted_token ])%list.
Proof.
  refine (authorization_code_flow_binds_pkce
            0%nat discovery_with_grant None flow_world
            (set_oauth_client_id (Some "0oa2") sample_config)
            "https://acme.okta.com/oauth2/v1/authorize"
            "https://acme.okta.com/oauth2/v1/token"
            callback (document granted_token) [] granted_token
            eq_refl _ _ eq_refl eq_refl eq_refl _ _ eq_refl).
  - discriminate.
  - vm_compute. lia.
  - apply search_after_None. reflexivity.
  - apply search_after_is_Some. eexists. reflexivity.
Defined.

Lemma run_validate_oauth2_configuration (cfg : gmap string json)
  (w : World) :
  valid_discovery cfg ->
  validate_oauth2_configuration (JDict cfg) w = (Done tt, w).
Proof.
  intros (Hitems & (grants & Hgrants & Hgrant) & (types & Htypes & Hcode)).
  unfold validate_oauth2_configuration.
  rewrite run_bind, (check_items_present _ _ _ Hitems).
  cbn [Py.getitem]. rewrite Hgrants, Htypes. mrun.
  rewrite Hgrant. mrun. rewrite Hcode. reflexivity.
Qed.

Lemma run_authorization_code_enabled (org_url : string)
  (cfg : gmap string json) (w : World) :
  valid_discovery cfg ->
  authorization_code_enabled org_url (JDict cfg) w = (Done true, w).
Proof.
  intros (_ & (grants & Hgrants & Hgrant) & _).
  unfold authorization_code_enabled, try_except.
  rewrite run_bind. cbn [Py.getitem]. rewrite Hgrants. cbn [lift ret].
  rewrite run_bind, Hgrant. reflexivity.
Qed.

(** X19.  [oauth2_authorize] on an organization whose discovery document is
    valid: the discovery request, the authorization request and the token
    request go out in this order, the token is registered for masking,
    and what is returned is the session cookies that were passed in, not
    the token. *)
Theorem oauth2_authorize_runs_flow (config : loc)
  (session_cookies : option (gmap string string)) (w : World) (c : Config)
  (cfg : gmap string json) (authz token : string)
  (found redirected granted : Response) (rest : list Response)
  (tok : json) :
  heap w !! config = Some c ->
  (oauth_client_id c = None -> uuids w <> []) ->
  (1064 <= List.length (entropy w))%nat ->
  replies w = found :: redirected :: granted :: rest ->
  body found = Some (JDict cfg) ->
  valid_discovery cfg ->
  cfg !! "authorization_endpoint" = Some (JStr authz) ->
  cfg !! "token_endpoint" = Some (JStr token) ->
  ~ has_parameter "error=" (final_url redirected) ->
  has_parameter "state=" (final_url redirected) ->
  body granted = Some tok ->
  let run := oauth2_authorize config session_cookies w in
  exists client state verifier challenge,
    get_pkce_code_challenge verifier = Val challenge
    /\ fst run = Done session_cookies
    /\ replies (snd run) = rest
    /\ trace (snd run)
       = (trace w
          ++ [ Sent (discovery_request (org c));
               Sent (authorize_request authz client
                       (org c +:+ "/enduser/callback") state challenge
                       (session_cookies ≫= (fun d => d !! "session_token")));
               Sent (token_request token
                       (Re.search_after "code=" (final_url redirected))
                       state (org c +:+ "/enduser/callback") client
                       verifier);
               Masked tok ])%list.
Proof.
  intros Hconfig Huuid Hentropy Hreplies Hfound Hvalid Hauthz Htoken
         Herror Hstate Hbody run.
  set (asked := answered w (redirected :: granted :: rest)
                  [Sent (discovery_request (org c))]).
  destruct (run_authorization_code_flow config cfg session_cookies asked c
              authz token redirected granted rest tok)
    as (client & state & verifier & challenge & Hchallenge & Hfst
        & Hrest & Htrace); auto.
  exists client, state, verifier, challenge.
  split; [exact Hchallenge|].
  assert (run = (Done session_cookies,
                 snd (authorization_code_flow config (JDict cfg)
                        session_cookies asked))) as ->.
  { subst run. unfold oauth2_authorize.
    rewrite run_bind, (run_config_get _ _ _ _ Hconfig).
    rewrite run_bind,
      (run_get_oauth2_configuration _ _ _ _ _ Hreplies Hfound).
    rewrite run_bind, run_validate_oauth2_configuration by exact Hvalid.
    cbn [mret M_ret ret]. fold (discovery_request (org c)).
    change (with_replies (redirected :: granted :: rest)
              (with_trace (trace w ++ [Sent (discovery_request (org c))]) w))
      with asked.
    rewrite run_bind, (run_config_get _ _ _ c) by exact Hconfig.
    rewrite run_bind, run_authorization_code_enabled by exact Hvalid.
    rewrite run_bind, run_bind.
    destruct (authorization_code_flow config (JDict cfg) session_cookies
                asked) as [[t|f] w2]; [reflexivity|].
    cbn [fst] in Hfst. discriminate. }
  cbn [fst snd]. split; [reflexivity|]. split; [exact Hrest|].
  rewrite Htrace. unfold asked, answered, after.
  cbn [trace with_replies with_trace]. now rewrite <- app_assoc.
Qed.

Lemma discovery_with_grant_valid : valid_discovery discovery_with_grant.
Proof.
  split; [repeat constructor; eexists; reflexivity|].
  split; eexists; split; reflexivity.
Qed.

Lemma oauth2_authorize_runs_flow_witness :
  let cookies := Some ({[ "sid" := "102xyz" ]} : gmap string string) in
  let c := set_oauth_client_id (Some "0oa2") sample_config in
  let run := oauth2_authorize 0%nat cookies authorize_world in
  exists client state verifier challenge,
    get_pkce_code_challenge verifier = Val challenge
    /\ fst run = Done cookies
    /\ replies (snd run) = []
    /\ trace (snd run)
       = (trace authorize_world
          ++ [ Sent (discovery_request (org c));
               Sent (authorize_request
                       "https://acme.okta.com/oauth2/v1/authorize" client
                       (org c +:+ "/enduser/callback") state challenge
                       (cookies ≫= (fun d => d !! "session_token")));
               Sent (token_request
                       "https://acme.okta.com/oauth2/v1/token"
                       (Re.search_after "code=" (final_url callback))
                       state (org c +:+ "/enduser/callback") client
                       verifier);
               Masked granted_token ])%list.
Proof.
  refine (oauth2_authorize_runs_flow
            0%nat (Some {[ "sid" := "102xyz" ]}) authorize_world
            (set_oauth_client_id (Some "0oa2") sample_config)
            discovery_with_grant
            "https://acme.okta.com/oauth2/v1/authorize"
            "https://acme.okta.com/oauth2/v1/token"
            (document (JDict discovery_with_grant)) callback
            (document granted_token) [] granted_token
            eq_refl _ _ eq_refl eq_refl discovery_with_grant_valid
            eq_refl eq_refl _ _ eq_refl).
  - discriminate.
  - vm_compute. lia.
  - apply search_after_None. reflexivity.
  - apply search_after_is_Some. eexists. reflexivity.
Defined.

(* ===================================================================== *)
(** * 27. SAML: decoding, extraction and forwarding                       *)
(* ===================================================================== *)

Lemma sextet_cases (P : N -> Prop) :
  Forall P (map N.of_nat (seq 0 64)) -> forall k, (k < 64)%N -> P k.
Proof.
  intros H k Hk. rewrite List.Forall_forall in H. apply H.
  replace k with (N.of_nat (N.to_nat k)) by apply N2Nat.id.
  apply in_map, in_seq. lia.
Qed.

Lemma value_digit (k : N) :
  (k < 64)%N -> Base64.value (Base64.digit k) = Some k.
Proof. revert k. apply sextet_cases. repeat constructor. Qed.

Lemma digit_not_pad (k : N) :
  (k < 64)%N -> Ascii.eqb (Base64.digit k) Base64.pad = false.
Proof. revert k. apply sextet_cases. repeat constructor. Qed.

Lemma digit_ascii (k : N) :
  (k < 64)%N -> (Text.code (Base64.digit k) <? 128)%N = true.
Proof. revert k. apply sextet_cases. repeat constructor. Qed.

(** One step of the decoder on a digit. *)
Lemma a2b_loop_digit (k : N) (rest : list ascii) (quad left pads : N) :
  (k < 64)%N ->
  Base64.a2b_loop (Base64.digit k :: rest) quad left pads
  = if (quad =? 0)%N then Base64.a2b_loop rest 1 k 0
    else if (quad =? 1)%N then
      rbind (Base64.a2b_loop rest 2 (k mod 16) 0)
            (fun tl => Val (ascii_of_N (left * 4 + k / 16) :: tl))
    else if (quad =? 2)%N then
      rbind (Base64.a2b_loop rest 3 (k mod 4) 0)
            (fun tl => Val (ascii_of_N (left * 16 + k / 4) :: tl))
    else
      rbind (Base64.a2b_loop rest 0 0 0)
            (fun tl => Val (ascii_of_N (left * 64 + k) :: tl)).
Proof.
  intros Hk. cbn [Base64.a2b_loop].
  now rewrite (digit_not_pad k Hk), (value_digit k Hk).
Qed.

Lemma ascii_of_code (x : ascii) (n : N) :
  n = Text.code x -> ascii_of_N n = x.
Proof. intros ->. apply ascii_N_embedding. Qed.

Ltac euclid := zify; Z.to_euclidean_division_equations; lia.

(** Decoding undoes encoding. *)
Lemma a2b_b64encode (b : list ascii) :
  Base64.a2b_base64 (Base64.b64encode b) = Val b.
Proof.
  unfold Base64.a2b_base64.
  induction b as [| x | x y | x y z l IH] using list_ind3.
  - reflexivity.
  - pose proof (code_bound x).
    cbn [Base64.b64encode].
    rewrite !a2b_loop_digit by euclid.
    cbn [N.eqb Pos.eqb Base64.a2b_loop rbind].
    change (Ascii.eqb Base64.pad Base64.pad) with true. cbv iota.
    change (2 <=? 2)%N with true.
    change (4 <=? 2 + (0 + 1))%N with false.
    change (4 <=? 2 + (0 + 1 + 1))%N with true.
    cbn [rbind]. f_equal. f_equal. apply ascii_of_code. euclid.
  - pose proof (code_bound x). pose proof (code_bound y).
    cbn [Base64.b64encode].
    rewrite !a2b_loop_digit by euclid.
    cbn [N.eqb Pos.eqb Base64.a2b_loop rbind].
    change (Ascii.eqb Base64.pad Base64.pad) with true. cbv iota.
    change (2 <=? 3)%N with true.
    change (4 <=? 3 + (0 + 1))%N with true.
    cbn [rbind]. f_equal. f_equal; [|f_equal]; apply ascii_of_code; euclid.
  - pose proof (code_bound x). pose proof (code_bound y).
    pose proof (code_bound z).
    cbn [Base64.b64encode].
    rewrite !a2b_loop_digit by euclid.
    cbn [N.eqb Pos.eqb]. rewrite IH. cbn [rbind].
    f_equal. f_equal; [|f_equal; [|f_equal]]; apply ascii_of_code; euclid.
Qed.

Lemma b64encode_ascii (b : list ascii) :
  forallb (fun c => (Text.code c <? 128)%N) (Base64.b64encode b) = true.
Proof.
  induction b as [| x | x y | x y z l IH] using list_ind3;
    try pose proof (code_bound x); try pose proof (code_bound y);
    try pose proof (code_bound z);
    cbn [Base64.b64encode forallb];
    rewrite ?digit_ascii by euclid; try reflexivity.
  exact IH.
Qed.

Lemma all_of_bytes (p : ascii -> bool) (b : list ascii) :
  Text.all p (Text.of_bytes b) = forallb p b.
Proof.
  induction b as [|c b IH]; [reflexivity|].
  cbn [Text.of_bytes string_of_list_ascii Text.all forallb].
  unfold Text.of_bytes in IH. now rewrite IH.
Qed.

Lemma to_bytes_of_bytes (b : list ascii) :
  Text.to_bytes (Text.of_bytes b) = b.
Proof. apply list_ascii_of_string_of_list_ascii. Qed.

Lemma of_bytes_to_bytes (s : string) : Text.of_bytes (Text.to_bytes s) = s.
Proof. apply string_of_list_ascii_of_string. Qed.

(** X20.  Decoding undoes encoding: when the value of the first input named
    [SAMLResponse] (respectively [SAMLRequest]) is the standard base64
    form of a well-formed UTF-8 text, the decoded extraction returns that
    text and the raw extraction returns the value as it stands. *)
Theorem extract_saml_decodes_base64 (env : Env) (html xml : string)
  (tag : Tag) :
  is_text xml ->
  tag_attrs tag !! "value" = Some (base64_of xml) ->
  (soup_find (BeautifulSoup env html) "input" "name" "SAMLResponse"
   = Some tag ->
   extract_saml_response env html false = Val (Some xml)
   /\ extract_saml_response env html true = Val (Some (base64_of xml)))
  /\ (soup_find (BeautifulSoup env html) "input" "name" "SAMLRequest"
      = Some tag ->
      extract_saml_request env html false = Val (Some xml)
      /\ extract_saml_request env html true = Val (Some (base64_of xml))).
Proof.
  intros Htext Hvalue.
  assert (forall field raw,
            soup_find (BeautifulSoup env html) "input" "name" field
            = Some tag ->
            extract_saml env field html raw
            = Val (Some (if raw then base64_of xml else xml))) as Hrun.
  { intros field raw Hfound. unfold extract_saml. rewrite Hfound.
    unfold attr_str. rewrite Hvalue. unfold Text.encode_ascii, base64_of.
    rewrite all_of_bytes, b64encode_ascii, to_bytes_of_bytes.
    cbn [rbind]. rewrite a2b_b64encode. cbn [rbind].
    unfold Text.decode_utf8, Text.encode_utf8. rewrite Htext.
    cbn [rbind]. now rewrite of_bytes_to_bytes. }
  split; intros Hfound; split;
    [ exact (Hrun _ false Hfound) | exact (Hrun _ true Hfound)
    | exact (Hrun _ false Hfound) | exact (Hrun _ true Hfound) ].
Qed.

Lemma extract_saml_decodes_base64_witness :
  let tag := input_tag "SAMLResponse" (base64_of "<Response/>") in
  let env := sample_env [("idp page", [tag])] in
  extract_saml_response env "idp page" false = Val (Some "<Response/>")
  /\ extract_saml_response env "idp page" true
     = Val (Some (base64_of "<Response/>")).
Proof.
  exact (proj1 (extract_saml_decodes_base64
                  (sample_env
                     [("idp page",
                       [input_tag "SAMLResponse" (base64_of "<Response/>")])])
                  "idp page" "<Response/>"
                  (input_tag "SAMLResponse" (base64_of "<Response/>"))
                  eq_refl eq_refl)
               eq_refl).
Defined.

Lemma extract_saml_raw (env : Env) (field html : string) :
  match extract_saml env field html false with
  | Val (Some xml) =>
    exists tag,
      soup_find (BeautifulSoup env html) "input" "name" field = Some tag
      /\ extract_saml env field html true
         = Val (Some (attr_str tag "value"))
  | Val None => extract_saml env field html true = Val None
  | Exn e => extract_saml env field html true = Exn e
  end.
Proof.
  unfold extract_saml.
  destruct (soup_find _ _ _ _) as [tag|]; [|reflexivity].
  destruct (Text.encode_ascii _) as [bytes|e]; [|reflexivity].
  cbn [rbind]. destruct (Base64.a2b_base64 _) as [decoded|e]; [|reflexivity].
  cbn [rbind]. destruct (Text.decode_utf8 _) as [xml|e]; [|reflexivity].
  cbn [rbind]. eauto.
Qed.

(** X21.  The raw extraction of a SAML request or response decodes the value
    although it returns it undecoded: it raises exactly when the decoded
    extraction does, with the same exception; when it returns a value,
    that value is the [value] attribute of the first input of that
    name. *)
Theorem raw_extraction_still_decodes (env : Env) (html : string) :
  let found field :=
    soup_find (BeautifulSoup env html) "input" "name" field in
  (forall e,
     extract_saml_request env html true = Exn e
     <-> extract_saml_request env html false = Exn e)
  /\ (forall e,
        extract_saml_response env html true = Exn e
        <-> extract_saml_response env html false = Exn e)
  /\ (forall v,
        extract_saml_request env html true = Val (Some v) ->
        exists tag, found "SAMLRequest" = Some tag
                    /\ v = attr_str tag "value")
  /\ (forall v,
        extract_saml_response env html true = Val (Some v) ->
        exists tag, found "SAMLResponse" = Some tag
                    /\ v = attr_str tag "value").
Proof.
  intros found.
  assert (forall field e,
            extract_saml env field html true = Exn e
            <-> extract_saml env field html false = Exn e) as Hexn.
  { intros field e. pose proof (extract_saml_raw env field html) as H.
    destruct (extract_saml env field html false) as [[xml|]|e'].
    - destruct H as (tag & _ & ->). split; discriminate.
    - rewrite H. split; discriminate.
    - now rewrite H. }
  assert (forall field v,
            extract_saml env field html true = Val (Some v) ->
            exists tag, found field = Some tag
                        /\ v = attr_str tag "value") as Hval.
  { intros field v Hv. pose proof (extract_saml_raw env field html) as H.
    destruct (extract_saml env field html false) as [[xml|]|e'].
    - destruct H as (tag & Hfound & Hraw). rewrite Hraw in Hv.
      injection Hv as <-. eauto.
    - rewrite H in Hv. discriminate.
    - rewrite H in Hv. discriminate. }
  split; [exact (Hexn "SAMLRequest")|].
  split; [exact (Hexn "SAMLResponse")|].
  split; [exact (Hval "SAMLRequest")|].
  exact (Hval "SAMLResponse").
Qed.

(** X22.  An element that lacks the attribute read from it is taken to carry
    the text [None]: the form's post URL and the relay state are then the
    four characters [None], and the extraction of a SAML request or
    response raises [UnicodeDecodeError], raw or not, since the base64
    decoding of [None] is not UTF-8. *)
Theorem missing_attribute_reads_as_None (env : Env) (html : string)
  (tag : Tag) :
  let soup := BeautifulSoup env html in
  (soup_find soup "form" "id" "appForm" = Some tag ->
   tag_attrs tag !! "action" = None ->
   extract_form_post_url env html = Some "None")
  /\ (soup_find soup "input" "name" "RelayState" = Some tag ->
      tag_attrs tag !! "value" = None ->
      extract_saml_relaystate env html = Some "None")
  /\ (soup_find soup "input" "name" "SAMLRequest" = Some tag ->
      tag_attrs tag !! "value" = None ->
      forall raw, extract_saml_request env html raw = Exn UnicodeDecodeError)
  /\ (soup_find soup "input" "name" "SAMLResponse" = Some tag ->
      tag_attrs tag !! "value" = None ->
      forall raw,
        extract_saml_response env html raw = Exn UnicodeDecodeError).
Proof.
  intros soup.
  unfold extract_form_post_url, extract_saml_relaystate,
    extract_saml_request, extract_saml_response, extract_saml, attr_str.
  fold soup.
  split; [|split; [|split]]; intros -> ->; reflexivity.
Qed.

Lemma run_get_saml_request (env : Env) (auth_properties : AuthProperties)
  (w : World) (sso : Response) (rest : list Response)
  (base_url origin post_url : string) (request : option string) :
  replies w = sso :: rest ->
  get_base_url env (ap_metadata auth_properties) = Val base_url ->
  extract_form_post_url env (text sso) = Some post_url ->
  get_base_url env (JStr post_url) = Val origin ->
  extract_saml_request env (text sso) true = Val request ->
  get_saml_request env auth_properties w
  = (Done {| sq_base_url := origin; sq_post_url := Some post_url;
             sq_relay_state := extract_saml_relaystate env (text sso);
             sq_request := request |},
     answered w rest
       [ Sent (sso_request base_url (str_of env (ap_id auth_properties)));
         Masked (opt_json request) ]).
Proof.
  intros Hreplies Hbase Hpost Horigin Hrequest. unfold get_saml_request.
  rewrite Hbase. cbn [lift ret]. rewrite run_bind. cbn [ret].
  rewrite (run_HTTP_get _ _ _ _ _ _ _ Hreplies).
  rewrite Hpost. cbn [opt_json]. rewrite Horigin, Hrequest. mrun.
  unfold answered, after, sso_request. destruct w; cbn.
  rewrite <- !app_assoc. reflexivity.
Qed.

Lemma run_send_saml_request (env : Env) (saml_request : SamlRequest)
  (cookies : option (gmap string string)) (w : World) (idp : Response)
  (rest : list Response) (post_url : string) (response : option string) :
  sq_post_url saml_request = Some post_url ->
  replies w = idp :: rest ->
  extract_saml_response env (text idp) true = Val response ->
  send_saml_request env saml_request cookies w
  = (Done {| sp_response := response;
             sp_relay_state := extract_saml_relaystate env (text idp);
             sp_post_url := extract_form_post_url env (text idp) |},
     answered w rest
       [ CookiesSet cookies;
         Sent (idp_request post_url (sq_relay_state saml_request)
                 (sq_request saml_request));
         Masked (opt_json response) ]).
Proof.
  intros Hpost Hreplies Hresponse.
  unfold send_saml_request, HTTP_set_cookies. rewrite Hpost.
  cbn [opt_json as_url]. mrun.
  erewrite HTTP_get_reply by exact Hreplies.
  rewrite Hresponse. mrun.
  unfold answered, after, idp_request. destruct w; cbn.
  rewrite <- !app_assoc. reflexivity.
Qed.

Lemma run_send_saml_response (env : Env) (config : loc)
  (saml_response : SamlResponse) (w : World) (post_url : string)
  (reply : Response) (rest : list Response) :
  sp_post_url saml_response = Some post_url ->
  replies w = reply :: rest ->
  extract_state_token env (text reply) = Val None
  \/ extract_state_token env (text reply) = Val (Some "") ->
  send_saml_response env config saml_response w
  = (Done (jar reply),
     answered w rest
       [Sent (acs_request post_url (sp_response saml_response)
                          (sp_relay_state saml_response))]).
Proof.
  intros Hurl Hreplies Htoken. unfold send_saml_response.
  rewrite Hurl. cbn [opt_json as_url]. rewrite run_bind.
  cbn [mret M_ret ret].
  rewrite (run_HTTP_post _ _ _ _ _ _ _ Hreplies).
  destruct Htoken as [-> | ->]; reflexivity.
Qed.

(** X23.  When the reply to the posted SAML response embeds no state token
    (or an empty one), [send_saml_response] sends nothing more: one POST
    of the response and the relay state as form data, and the cookies of
    the reply are returned. *)
Theorem send_saml_response_without_token (env : Env) (config : loc)
  (saml_response : SamlResponse) (w : World) (post_url : string)
  (reply : Response) (rest : list Response) :
  sp_post_url saml_response = Some post_url ->
  replies w = reply :: rest ->
  extract_state_token env (text reply) = Val None
  \/ extract_state_token env (text reply) = Val (Some "") ->
  send_saml_response env config saml_response w
  = (Done (jar reply),
     answered w rest
       [Sent (acs_request post_url (sp_response saml_response)
                          (sp_relay_state saml_response))]).
Proof.
  intros Hurl Hreplies Htoken.
  exact (run_send_saml_response env config saml_response w post_url reply
           rest Hurl Hreplies Htoken).
Qed.

Lemma send_saml_response_without_token_witness :
  let w := answering [page "signed in" {[ "sid" := "102xyz" ]}] in
  let saml_response :=
    {| sp_response := Some "QUJD"; sp_relay_state := Some "rs1";
       sp_post_url := Some "https://sp.example/acs" |} in
  send_saml_response (sample_env []) 0%nat saml_response w
  = (Done {[ "sid" := "102xyz" ]},
     answered w []
       [Sent (acs_request "https://sp.example/acs" (Some "QUJD")
                          (Some "rs1"))]).
Proof.
  exact (send_saml_response_without_token
           (sample_env []) 0%nat
           {| sp_response := Some "QUJD"; sp_relay_state := Some "rs1";
              sp_post_url := Some "https://sp.example/acs" |}
           (answering [page "signed in" {[ "sid" := "102xyz" ]}])
           "https://sp.example/acs"
           (page "signed in" {[ "sid" := "102xyz" ]}) []
           eq_refl eq_refl (or_introl eq_refl)).
Defined.

(** X24.  The SAML request that [get_saml_request] extracts from the page at
    [/sso/idps/<id>] is what [send_saml_request] submits, undecoded, to
    the form's post URL, with the relay state of the same page; the
    cookies are handed to the transport before that request goes out, and
    the SAML request and the SAML response found in the reply are both
    registered for masking. *)
Theorem saml_request_is_forwarded (env : Env)
  (auth_properties : AuthProperties)
  (cookies : option (gmap string string)) (w : World)
  (sso idp : Response) (rest : list Response)
  (base_url origin post_url : string) (request response : option string) :
  replies w = sso :: idp :: rest ->
  get_base_url env (ap_metadata auth_properties) = Val base_url ->
  extract_form_post_url env (text sso) = Some post_url ->
  get_base_url env (JStr post_url) = Val origin ->
  extract_saml_request env (text sso) true = Val request ->
  extract_saml_response env (text idp) true = Val response ->
  (saml_request ← get_saml_request env auth_properties;
   send_saml_request env saml_request cookies) w
  = (Done {| sp_response := response;
             sp_relay_state := extract_saml_relaystate env (text idp);
             sp_post_url := extract_form_post_url env (text idp) |},
     answered w rest
       [ Sent (sso_request base_url (str_of env (ap_id auth_properties)));
         Masked (opt_json request);
         CookiesSet cookies;
         Sent (idp_request post_url
                 (extract_saml_relaystate env (text sso)) request);
         Masked (opt_json response) ]).
Proof.
  intros Hreplies Hbase Hpost Horigin Hrequest Hresponse.
  rewrite run_bind.
  rewrite (run_get_saml_request env auth_properties w sso (idp :: rest)
             base_url origin post_url request
             Hreplies Hbase Hpost Horigin Hrequest).
  erewrite run_send_saml_request by (reflexivity || exact Hresponse).
  cbn [sq_relay_state sq_request].
  unfold answered, after. destruct w; cbn. rewrite <- !app_assoc.
  reflexivity.
Qed.

Lemma saml_request_is_forwarded_witness :
  let w := answering [page "sso page" ∅; page "idp page" ∅] in
  (saml_request ← get_saml_request chain_env chain_props;
   send_saml_request chain_env saml_request None) w
  = (Done {| sp_response := Some "QUJD";
             sp_relay_state := extract_saml_relaystate chain_env "idp page";
             sp_post_url := extract_form_post_url chain_env "idp page" |},
     answered w []
       [ Sent (sso_request "https://acme.okta.com"
                 (str_of chain_env (ap_id chain_props)));
         Masked (JStr "QUJD");
         CookiesSet None;
         Sent (idp_request "https://idp.example.com/app/sso/saml"
                 (extract_saml_relaystate chain_env "sso page")
                 (Some "QUJD"));
         Masked (JStr "QUJD") ]).
Proof.
  exact (saml_request_is_forwarded
           chain_env chain_props None
           (answering [page "sso page" ∅; page "idp page" ∅])
           (page "sso page" ∅) (page "idp page" ∅) []
           "https://acme.okta.com" "https://idp.example.com"
           "https://idp.example.com/app/sso/saml"
           (Some "QUJD") (Some "QUJD")
           eq_refl eq_refl eq_refl eq_refl eq_refl eq_refl).
Defined.

(* ===================================================================== *)
(** * 28. What becomes of the configuration                               *)
(* ===================================================================== *)

Lemma settled_refl (c : Config) : settled c c.
Proof. unfold settled. auto 10. Qed.

Lemma settled_trans (a b c : Config) :
  settled a b -> settled b c -> settled a c.
Proof.
  unfold settled. intros (? & ? & ? & ? & ? & ?) (? & ? & ? & ? & ? & ?).
  repeat split; try congruence; auto.
Qed.

Lemma keeps_of_preserves {A} (config : loc) (m : M A) :
  preserves (fun _ => False) m -> keeps config m.
Proof.
  intros H w c Hc. exists c. split; [|apply settled_refl].
  apply H; [tauto | exact Hc].
Qed.

Lemma keeps_bind {A B} (config : loc) (m : M A) (k : A -> M B) :
  keeps config m -> (forall a, keeps config (k a)) -> keeps config (m ≫= k).
Proof.
  intros Hm Hk w c Hc. rewrite run_bind.
  destruct (Hm w c Hc) as (c1 & Hc1 & H1).
  destruct (m w) as [[a|f] w1]; cbn [snd] in Hc1; [|eauto].
  destruct (Hk a w1 c1 Hc1) as (c2 & Hc2 & H2).
  eauto using settled_trans.
Qed.

(** Reading a field and going on with what was read. *)
Lemma keeps_read {A B} (config : loc) (field : Config -> A)
  (k : A -> M B) :
  (forall w c,
     heap w !! config = Some c ->
     exists c', heap (snd (k (field c) w)) !! config = Some c'
                /\ settled c c') ->
  keeps config (config_get config field ≫= k).
Proof.
  intros H w c Hc. rewrite run_bind, (run_config_get _ _ _ _ Hc).
  exact (H w c Hc).
Qed.

Create HintDb keeps.

Ltac keep_step :=
  match goal with
  | |- keeps _ (_ ≫= _) => apply keeps_bind; [|intros ?]
  | |- keeps _ (if ?b then _ else _) => destruct b
  | |- keeps _ (match ?x with _ => _ end) => destruct x
  | |- keeps _ (let (_, _) := ?x in _) => destruct x
  | |- keeps _ _ => solve [eauto with keeps]
  | |- keeps _ _ => apply keeps_of_preserves; solve [frame]
  end.

Ltac keep := repeat keep_step.

Lemma keeps_totp_approval (config : loc) (selected_mfa_option : json)
  (hd : gmap string string) (mfa_challenge_url : json)
  (payload : gmap string json) (primary_auth : json) :
  keeps config (totp_approval config selected_mfa_option hd
                  mfa_challenge_url payload primary_auth).
Proof.
  unfold totp_approval. apply keeps_bind; [keep | intros _].
  apply keeps_read. intros w c Hc.
  match goal with
  | |- context [(_ ≫= ?k) w] =>
    assert (keeps config (k tt)) as Hrest by keep
  end.
  destruct (mfa_response c) eqn:Hcode.
  - rewrite run_bind. exact (Hrest w c Hc).
  - rewrite run_bind, run_bind. unfold user_get_input, next.
    destruct (typed w) as [|code more].
    + exists c. split; [exact Hc | apply settled_refl].
    + rewrite run_bind, (run_config_set _ _ _ c) by exact Hc.
      unfold mask. rewrite run_emit.
      destruct (Hrest (with_trace
                         (trace (with_heap
                                   (<[config := set_mfa_response (Some code) c]>
                                      (heap (with_typed more w)))
                                   (with_typed more w))
                          ++ [Masked (JStr code)])
                         (with_heap
                            (<[config := set_mfa_response (Some code) c]>
                               (heap (with_typed more w)))
                            (with_typed more w)))
                      (set_mfa_response (Some code) c))
        as (c' & Hc' & Hsettled); [apply lookup_insert_eq|].
      exists c'. split; [exact Hc'|].
      apply (settled_trans _ (set_mfa_response (Some code) c)); [|exact Hsettled].
      unfold settled. cbn. rewrite Hcode. repeat split; auto; discriminate.
Qed.
#[export] Hint Resolve keeps_totp_approval : keeps.

Lemma keeps_mfa_provider_type (config : loc)
  (mfa_provider selected_factor mfa_challenge_url primary_auth
     selected_mfa_option : json)
  (hd : gmap string string) (payload : gmap string json) :
  keeps config (mfa_provider_type config mfa_provider selected_factor
                  mfa_challenge_url primary_auth selected_mfa_option
                  hd payload).
Proof. unfold mfa_provider_type. keep. Qed.
#[export] Hint Resolve keeps_mfa_provider_type : keeps.

Lemma keeps_mfa_challenge (env : Env) (config : loc)
  (hd : gmap string string) (primary_auth : json) :
  keeps config (mfa_challenge env config hd primary_auth).
Proof. unfold mfa_challenge. keep. Qed.
#[export] Hint Resolve keeps_mfa_challenge : keeps.

Lemma keeps_get_session_token (env : Env) (config : loc)
  (primary_auth : json) (hd : gmap string string) :
  keeps config (get_session_token env config primary_auth hd).
Proof. unfold get_session_token. keep. Qed.
#[export] Hint Resolve keeps_get_session_token : keeps.

Lemma keeps_until_session_token (env : Env) (config : loc)
  (primary_auth : json) (hd : gmap string string) (fuel : nat) :
  forall t, keeps config (until_session_token env fuel config primary_auth
                            hd t).
Proof.
  induction fuel as [|fuel IH]; intros t; cbn [until_session_token]; keep.
Qed.
#[export] Hint Resolve keeps_until_session_token : keeps.

Lemma keeps_user_authenticate (env : Env) (fuel : nat) (config : loc) :
  keeps config (user_authenticate env fuel config).
Proof. unfold user_authenticate. keep. Qed.
#[export] Hint Resolve keeps_user_authenticate : keeps.

Lemma keeps_get_client_id (config : loc) : keeps config (get_client_id config).
Proof.
  unfold get_client_id. apply keeps_read. intros w c Hc.
  destruct (oauth_client_id c) eqn:Hid.
  - rewrite run_bind. cbn [ret].
    rewrite (run_config_get _ _ _ _ Hc). eauto using settled_refl.
  - rewrite run_bind, run_bind. unfold uuid4, next.
    destruct (uuids w) as [|u us].
    + exists c. split; [exact Hc | apply settled_refl].
    + rewrite (run_config_set _ _ _ c) by exact Hc.
      rewrite (run_config_get _ _ _
                 (set_oauth_client_id (Some ("okta." +:+ u)) c))
        by apply lookup_insert_eq.
      eexists. split; [apply lookup_insert_eq|].
      unfold settled. cbn. rewrite Hid. repeat split; auto; discriminate.
Qed.
#[export] Hint Resolve keeps_get_client_id : keeps.

Lemma keeps_authorization_code_flow (config : loc) (oauth2_config : json)
  (session_cookies : option (gmap string string)) :
  keeps config (authorization_code_flow config oauth2_config
                  session_cookies).
Proof. unfold authorization_code_flow, pkce_enabled. keep. Qed.
#[export] Hint Resolve keeps_authorization_code_flow : keeps.

Lemma keeps_oauth2_authorize (config : loc)
  (session_cookies : option (gmap string string)) :
  keeps config (oauth2_authorize config session_cookies).
Proof. unfold oauth2_authorize. keep. Qed.
#[export] Hint Resolve keeps_oauth2_authorize : keeps.

Lemma keeps_idp_auth (env : Env) (fuel : nat) (config : loc) :
  keeps config (idp_auth env fuel config).
Proof.
  destruct fuel as [|fuel]; cbn [idp_auth]; [keep|].
  unfold local_authentication_enabled, is_saml2_authentication. keep.
  apply keeps_of_preserves, preserves_saml2_authenticate.
  intros l T' Hl. now apply preserves_idp_auth.
Qed.

(** X25.  However [idp_auth] ends, the configuration object it was given
    still exists, with the organization, the user name, the password and
    the factor selector it had; a verification code or a client
    identifier that was there is still there, unchanged.  Every other
    configuration object that existed before holds what it held. *)
Theorem idp_auth_settles_configuration (env : Env) (fuel : nat)
  (config : loc) (w : World) (c : Config) :
  heap w !! config = Some c ->
  let w' := snd (idp_auth env fuel config w) in
  (exists c', heap w' !! config = Some c' /\ settled c c')
  /\ (forall l other,
        l <> config -> heap w !! l = Some other ->
        heap w' !! l = Some other).
Proof.
  intros Hc w'. split.
  - exact (keeps_idp_auth env fuel config w c Hc).
  - intros l other Hl Hother.
    apply (preserves_idp_auth env fuel config (fun k => k = config));
      auto.
Qed.

Lemma idp_auth_settles_configuration_witness :
  let w' := snd (idp_auth chain_env 5 0%nat chain_world) in
  (exists c', heap w' !! 0%nat = Some c' /\ settled sample_config c')
  /\ (forall l other,
        l <> 0%nat -> heap chain_world !! l = Some other ->
        heap w' !! l = Some other).
Proof.
  exact (idp_auth_settles_configuration
           chain_env 5 0%nat chain_world sample_config eq_refl).
Defined.

(* ===================================================================== *)
(** * 29. The dispatch on the provider, and functions that nothing calls  *)
(* ===================================================================== *)

(** X26.  [create_sid_cookies] posts the session token to
    [/api/v1/sessions]; an answer without [id] ends the attempt with
    status 1 ([MissingSessionId]); an answer with [id] makes it return
    [None]: the session identifier is read and dropped. *)
Theorem create_sid_cookies_outcomes (url : string) (session_token : json)
  (w : World) (reply : Response) (rest : list Response)
  (d : gmap string json) :
  replies w = reply :: rest ->
  body reply = Some (JDict d) ->
  let asked := answered w rest [Sent (sessions_request url session_token)] in
  create_sid_cookies url session_token w
  = match d !! "id" with
    | Some _ => (Done None, asked)
    | None => (Fail (SysExit 1), after asked [Logged MissingSessionId])
    end.
Proof.
  intros Hreplies Hbody asked. unfold create_sid_cookies.
  rewrite (run_HTTP_post_json _ _ _ _ _ _ _ _ Hreplies Hbody).
  cbn [Py.contains lift Py.getitem]. unfold Py.has_key.
  destruct (d !! "id") as [id|] eqn:Hid.
  - rewrite bool_decide_eq_true_2 by eauto. reflexivity.
  - rewrite bool_decide_eq_false_2 by (intros [? ?]; discriminate).
    reflexivity.
Qed.

Lemma create_sid_cookies_outcomes_witness :
  let w := answering [document (JDict (dict [("id", JStr "102xyz")]))] in
  create_sid_cookies "https://acme.okta.com" (JStr "20111abc") w
  = (Done None,
     answered w []
       [Sent (sessions_request "https://acme.okta.com" (JStr "20111abc"))]).
Proof.
  exact (create_sid_cookies_outcomes
           "https://acme.okta.com" (JStr "20111abc")
           (answering [document (JDict (dict [("id", JStr "102xyz")]))])
           (document (JDict (dict [("id", JStr "102xyz")]))) []
           (dict [("id", JStr "102xyz")]) eq_refl eq_refl).
Defined.

Lemma eq_str_spec (v : json) (s : string) :
  Py.eq_str v s = true <-> v = JStr s.
Proof.
  destruct v; cbn [Py.eq_str]; try (split; [discriminate|discriminate]).
  rewrite String.eqb_eq. split; [now intros -> | now intros [= ->]].
Qed.

Lemma eq_str_false (v : json) (s : string) :
  v <> JStr s -> Py.eq_str v s = false.
Proof.
  intros H. destruct (Py.eq_str v s) eqn:E; [|reflexivity].
  apply eq_str_spec in E. contradiction.
Qed.

(** X27.  [mfa_provider_type] supports the provider [DUO], the provider
    [OKTA] with the factor type [push], and the providers [OKTA] and
    [GOOGLE] with the factor types [token:software:totp] and [sms]; every
    other combination ends the attempt with status 1
    ([UnsupportedMfaProvider]) before anything is sent or asked.  With the
    provider [DUO] it first submits the challenge to DUO's callback, then
    posts to the verification URL the payload and the headers that DUO
    handed back, not those it was called with, and returns the session
    token of the answer. *)
Theorem mfa_provider_type_dispatch (config : loc)
  (mfa_provider selected_factor primary_auth selected_mfa_option : json)
  (url : string) (hd : gmap string string) (payload : gmap string json)
  (w : World) (factor_type : json) :
  factor_type_of selected_factor = Val factor_type ->
  let run :=
    mfa_provider_type config mfa_provider selected_factor (JStr url)
                      primary_auth selected_mfa_option hd payload w in
  (~ supported_factor mfa_provider factor_type ->
   run = (Fail (SysExit 1), after w [Logged UnsupportedMfaProvider]))
  /\ (forall duo_payload duo_headers callback more reply rest verify tok,
        mfa_provider = JStr "DUO" ->
        duo_challenges w = (duo_payload, duo_headers, callback) :: more ->
        replies w = reply :: rest ->
        body reply = Some (JDict verify) ->
        verify !! "sessionToken" = Some tok ->
        run
        = (Done tok,
           with_duo more
             (answered w rest
                [ DuoPosted callback duo_payload;
                  Sent {| method := POST; target := url;
                          headers := duo_headers;
                          payload := Json duo_payload |} ]))).
Proof.
  intros Hfactor run. subst run.
  unfold factor_type_of in Hfactor. unfold supported_factor.
  unfold mfa_provider_type. rewrite run_bind, Hfactor.
  cbn [lift ret]. rewrite run_bind. split.
  - intros Hnot.
    rewrite (eq_str_false mfa_provider "DUO") by tauto.
    destruct (Py.eq_str mfa_provider "OKTA") eqn:Hokta.
    + apply eq_str_spec in Hokta.
      rewrite (eq_str_false factor_type "push") by tauto.
      rewrite (eq_str_false factor_type "token:software:totp") by tauto.
      rewrite (eq_str_false factor_type "sms") by tauto.
      reflexivity.
    + destruct (Py.eq_str mfa_provider "GOOGLE") eqn:Hgoogle;
        [|reflexivity].
      apply eq_str_spec in Hgoogle.
      rewrite (eq_str_false factor_type "token:software:totp") by tauto.
      rewrite (eq_str_false factor_type "sms") by tauto.
      reflexivity.
  - intros duo_payload duo_headers callback more reply rest verify tok
           -> Hduo Hreplies Hbody Htok.
    change (Py.eq_str (JStr "DUO") "DUO") with true. cbv iota.
    rewrite run_bind. unfold authenticate_duo, next. rewrite Hduo.
    unfold duo_api_post. mrun. cbn [as_url]. mrun.
    erewrite HTTP_post_json_body by (exact Hreplies || exact Hbody).
    unfold session_token_of. cbn [Py.contains lift Py.getitem].
    rewrite (has_key_true _ _ _ Htok), Htok. mrun.
    unfold answered, after. destruct w; cbn. rewrite <- !app_assoc.
    reflexivity.
Qed.

Lemma mfa_provider_type_dispatch_witness :
  mfa_provider_type 0%nat (JStr "OKTA") question_challenge verify_url
                    mfa_required sms_factor ∅ ∅ (answering [])
  = (Fail (SysExit 1), after (answering []) [Logged UnsupportedMfaProvider]).
Proof.
  refine (proj1 (mfa_provider_type_dispatch
                   0%nat (JStr "OKTA") question_challenge mfa_required
                   sms_factor
                   "https://acme.okta.com/api/v1/authn/factors/opf1/verify"
                   ∅ ∅ (answering []) (JStr "question") eq_refl) _).
  unfold supported_factor. intros [H | [[_ H] | [_ [H | H]]]]; discriminate.
Defined.

(** X28.  [set_oauth2_redirect_params_cookies] never returns: whatever the
    transport answers, it fails.  When the discovery document is valid and
    has the entries [response_type] and [state], the failure is the
    [TypeError] of calling the document as if it were a function, and no
    cookie has been set. *)
Theorem set_oauth2_redirect_params_cookies_always_fails (config : loc)
  (url : string) (w : World) :
  (exists f, fst (set_oauth2_redirect_params_cookies config url w) = Fail f)
  /\ (forall cfg w1 response_type state,
        get_oauth2_configuration url w = (Done cfg, w1) ->
        Py.getitem cfg "response_type" = Val response_type ->
        Py.getitem cfg "state" = Val state ->
        set_oauth2_redirect_params_cookies config url w
        = (Fail (Raised TypeError), w1)).
Proof.
  unfold set_oauth2_redirect_params_cookies. split.
  - rewrite run_bind.
    destruct (get_oauth2_configuration url w) as [[cfg|f] w1]; [|eauto].
    rewrite run_bind.
    destruct (Py.getitem cfg "response_type") as [a|e]; [|cbn; eauto].
    cbn [lift ret]. rewrite run_bind.
    destruct (Py.getitem cfg "state") as [b|e]; cbn; eauto.
  - intros cfg w1 response_type state Hcfg Htype Hstate.
    rewrite run_bind, Hcfg, run_bind, Htype. cbn [lift ret].
    rewrite run_bind, Hstate. reflexivity.
Qed.

(* ===================================================================== *)
(** * 30. Two paths from end to end                                       *)
(* ===================================================================== *)

Lemma run_oie_enabled (url : string) (w : World) (reply : Response)
  (rest : list Response) :
  replies w = reply :: rest ->
  on_pipeline reply "v1" ->
  oie_enabled url w
  = (Done false, answered w rest [Sent (pipeline_request url)]).
Proof.
  intros Hreplies (d & Hbody & Hpipeline).
  unfold oie_enabled, get_auth_pipeline.
  rewrite run_bind, (run_HTTP_get _ _ _ _ _ _ _ Hreplies).
  unfold response_json. rewrite Hbody.
  cbn [lift try_except ret]. rewrite run_bind.
  cbn [Py.get lift try_except ret]. rewrite Hpipeline.
  cbn [default from_option id].
  change (Py.eq_str (JStr "v1") "idx") with false.
  change (Py.eq_str (JStr "v1") "v1") with true.
  reflexivity.
Qed.

(** X29.  A chain of one hop on the classic pipeline, from end to end.  The
    relying party sends the user to an identity provider that
    authenticates the user itself: [idp_auth] fetches the SAML request from
    the relying party, authenticates against the identity provider with a
    copy of the configuration that points at it, submits the SAML request
    as it was extracted, with the cookies of that authentication, posts
    the SAML response it gets to the relying party, and returns the
    cookies of the relying party's reply.  The fourteen steps happen in
    the order listed; the configuration is as it was, the copy is left
    behind. *)
Theorem saml_chain_of_one_hop (env : Env) (fuel : nat) (config : loc)
  (w : World) (c : Config)
  (found sso upstream signed idp_org page acs_reply sp_org : Response)
  (rest : list Response) (props props' : gmap string json) (tok : json)
  (cookies : gmap string string) (others : list (gmap string string))
  (base post_url origin acs : string)
  (relay request relay' response : option string) :
  heap w !! config = Some c ->
  replies w = found :: sso :: upstream :: signed :: idp_org :: page
                :: acs_reply :: sp_org :: rest ->
  wrapped w = cookies :: others ->
  discovers found props ->
  props !! "okta:idp:type" = Some (JStr "SAML2") ->
  get_base_url env (default JNull (props !! "okta:idp:metadata"))
  = Val base ->
  sso_page env sso post_url origin relay request ->
  discovers upstream props' ->
  props' !! "okta:idp:type" = Some (JStr "OKTA") ->
  signs_in signed tok ->
  tok <> JNull ->
  on_pipeline idp_org "v1" ->
  idp_page env page acs relay' response ->
  extract_state_token env (text acs_reply) = Val None ->
  on_pipeline sp_org "v1" ->
  let copy := fresh (dom (heap w)) in
  let derived := set_org origin c in
  idp_auth env (S (S (S fuel))) config w
  = (Done (Some (jar acs_reply)),
     with_heap (<[copy := derived]> (heap w))
       (with_wrapped others
          (answered w rest
             [ Sent (webfinger_request (username c) (org c));
               Sent (sso_request base
                       (str_of env (default JNull (props !! "okta:idp:id"))));
               Masked (opt_json request);
               Sent (webfinger_request (username c) origin);
               Sent (authn_request derived);
               Masked tok;
               CookiesRequested origin tok;
               CookiesSet (Some cookies);
               Sent (pipeline_request origin);
               CookiesSet (Some cookies);
               Sent (idp_request post_url relay request);
               Masked (opt_json response);
               Sent (acs_request acs response relay');
               Sent (pipeline_request (org c)) ]))).
Proof.
  intros Hconfig Hreplies Hwrapped Hfound Htype Hbase
         (Hpost & Horigin & Hrelay & Hrequest) Hupstream Htype'
         Hsigned Hnull (d & Hbody & Hpipeline)
         (Hacs & Hrelay' & Hresponse) Htoken Hsp copy derived.
  assert (copy <> config) as Hfresh.
  { intros Heq. apply (is_fresh (dom (heap w))). fold copy. rewrite Heq.
    apply elem_of_dom. eauto. }
  change (idp_auth env (S (S (S fuel))) config)
    with (userid ← config_get config username;
          url ← config_get config org;
          auth_properties ← get_auth_properties userid url;
          session_cookies ←
            (if local_authentication_enabled auth_properties then
               session_token ← user_authenticate env (S (S fuel)) config;
               org_url ← config_get config org;
               cookies ← request_cookies org_url session_token;
               HTTP_set_cookies (Some cookies) ;;
               mret (Some cookies)
             else if is_saml2_authentication auth_properties then
               saml2_authenticate env (idp_auth env (S (S fuel))) config
                                  auth_properties
             else die 1 UnsupportedIdpDiscovery);
          org_url ← config_get config org;
          oie ← oie_enabled org_url;
          if oie : bool then oauth2_authorize config session_cookies
          else mret session_cookies).
  rewrite run_bind, (run_config_get _ _ _ _ Hconfig).
  rewrite run_bind, (run_config_get _ _ _ _ Hconfig).
  rewrite run_bind, (run_get_auth_properties _ _ _ _ _ _ Hreplies Hfound).
  unfold local_authentication_enabled, is_saml2_authentication.
  cbn [ap_type]. rewrite Htype. cbn [default from_option id].
  change (Py.eq_str (JStr "SAML2") "OKTA") with false.
  change (Py.eq_str (JStr "SAML2") "SAML2") with true. cbv iota.
  rewrite run_bind.
  erewrite saml2_authenticate_unfold;
    [ | apply run_get_saml_request;
        [ reflexivity | exact Hbase | exact Hpost | exact Horigin
        | exact Hrequest ]
      | exact Hconfig ].
  cbn [sq_base_url heap answered after with_replies with_trace].
  fold copy derived.
  rewrite run_bind.
  erewrite (run_idp_auth_local env fuel copy _ derived upstream signed
              idp_org);
    [ | apply lookup_insert_eq | reflexivity | exact Hwrapped
      | exact Hupstream | exact Htype' | exact Hsigned | exact Hnull
      | exact Hbody | exact Hpipeline ].
  rewrite run_bind.
  erewrite run_send_saml_request by (reflexivity || exact Hresponse).
  rewrite run_bind.
  erewrite run_send_saml_response;
    [ | exact Hacs | reflexivity | left; exact Htoken ].
  cbn [mret M_ret ret]. rewrite run_bind.
  rewrite (run_config_get _ _ _ c)
    by (cbn; now rewrite lookup_insert_ne).
  rewrite run_bind.
  erewrite run_oie_enabled by (reflexivity || exact Hsp).
  cbn [sq_relay_state sq_request sp_response sp_relay_state
       username org set_org].
  rewrite Hrelay, Hrelay'.
  unfold answered, after. destruct w; cbn. rewrite <- !app_assoc.
  reflexivity.
Qed.

Lemma saml_chain_of_one_hop_witness :
  let copy := fresh (dom (heap chain_world)) in
  let derived := set_org "https://idp.example.com" sample_config in
  idp_auth chain_env 5 0%nat chain_world
  = (Done (Some {[ "sid" := "sp-session" ]}),
     with_heap (<[copy := derived]> (heap chain_world))
       (with_wrapped []
          (answered chain_world []
             [ Sent (webfinger_request "jane" "https://acme.okta.com");
               Sent (sso_request "https://acme.okta.com" "0oa1");
               Masked (JStr "QUJD");
               Sent (webfinger_request "jane" "https://idp.example.com");
               Sent (authn_request derived);
               Masked (JStr "20111abc");
               CookiesRequested "https://idp.example.com" (JStr "20111abc");
               CookiesSet (Some {[ "sid" := "idp-session" ]});
               Sent (pipeline_request "https://idp.example.com");
               CookiesSet (Some {[ "sid" := "idp-session" ]});
               Sent (idp_request "https://idp.example.com/app/sso/saml"
                       (Some "rs1") (Some "QUJD"));
               Masked (JStr "QUJD");
               Sent (acs_request "https://acme.okta.com/sso/saml2/0oa1"
                       (Some "QUJD") (Some "rs1"));
               Sent (pipeline_request "https://acme.okta.com") ]))).
Proof.
  refine (saml_chain_of_one_hop
            chain_env 2 0%nat chain_world sample_config
            (webfinger "SAML2") (page "sso page" ∅) (webfinger "OKTA")
            (signed_in (JStr "20111abc")) (organization "v1")
            (page "idp page" ∅)
            (page "signed in" {[ "sid" := "sp-session" ]})
            (organization "v1") []
            (webfinger_props "SAML2") (webfinger_props "OKTA")
            (JStr "20111abc") {[ "sid" := "idp-session" ]} []
            "https://acme.okta.com" "https://idp.example.com/app/sso/saml"
            "https://idp.example.com" "https://acme.okta.com/sso/saml2/0oa1"
            (Some "rs1") (Some "QUJD") (Some "rs1") (Some "QUJD")
            eq_refl eq_refl eq_refl (webfinger_discovers "SAML2") eq_refl
            eq_refl _ (webfinger_discovers "OKTA") eq_refl _ _ _ _ eq_refl
            _).
  - repeat split; reflexivity.
  - eexists. repeat split; reflexivity.
  - discriminate.
  - eexists. split; reflexivity.
  - repeat split; reflexivity.
  - eexists. split; reflexivity.
Defined.

(** X30.  The path of a verification code through [mfa_challenge].  With no
    selector configured (none, or an empty one) the user picks the
    factor; the challenge is started at the verification URL of the
    picked factor, with the state token and the type, provider and
    profile of that factor; when the provider is [OKTA] or [GOOGLE] and
    the type is [token:software:totp] or [sms], the code that the
    configuration holds is posted to the same URL with the state token,
    and the session token of the answer is registered for masking and
    returned. *)
Theorem mfa_challenge_sends_code (env : Env) (config : loc)
  (hd : gmap string string) (d : gmap string json) (w : World)
  (c : Config) (factors : list json) (labels : list string) (i : Z)
  (others : list Z) (f : gmap string json) (url code : string)
  (st ft prov prof mfa_provider factor_type tok : json)
  (challenge verified : Response) (rest : list Response)
  (sf v : gmap string json) :
  heap w !! config = Some c ->
  nonempty (mfa c) = false ->
  mfa_response c = Some code ->
  offers d factors st ->
  comprehension (factor_label env) factors = Val labels ->
  picked w = i :: others ->
  Py.index (JList factors) i = Val (JDict f) ->
  factor_entry f url ft prov prof ->
  replies w = challenge :: verified :: rest ->
  body challenge = Some (JDict sf) ->
  challenge_for sf mfa_provider factor_type ->
  mfa_provider = JStr "OKTA" \/ mfa_provider = JStr "GOOGLE" ->
  factor_type = JStr "token:software:totp" \/ factor_type = JStr "sms" ->
  body verified = Some (JDict v) ->
  v !! "sessionToken" = Some tok ->
  mfa_challenge env config hd (JDict d) w
  = (Done tok,
     with_picked others
       (answered w rest
          [ Sent (challenge_request url hd st ft prov prof);
            Sent (totp_request url hd st code);
            Masked tok ])).
Proof.
  intros Hconfig Hselector Hcode ((e & Hd & He) & Hst) Hlabels Hpicked
         Hindex ((l & vf & Hlinks & Hverify & Hhref) & Hft & Hprov & Hprof)
         Hreplies Hchallenge (ce & fa & Hsf & Hce & Hfa & Hfat)
         Hprovider Htype Hverified Htok.
  unfold mfa_challenge.
  rewrite run_bind. cbn [Py.getitem]. rewrite Hd.
  cbn [rbind Py.getitem]. rewrite He, Hst. cbn [lift try_except ret].
  rewrite run_bind, (run_config_get _ _ _ _ Hconfig).
  rewrite run_bind. cbn [Py.iterate lift ret].
  rewrite run_bind, Hlabels. cbn [lift ret].
  assert (mfa_index (mfa c) labels (JList factors) w
          = (Done i, with_picked others w)) as Hrun.
  { unfold mfa_index.
    assert (match mfa c with
            | Some p => if nonempty (mfa c)
                        then matching_indices p labels else []
            | None => []
            end = []) as -> by (rewrite Hselector; now destruct (mfa c)).
    unfold select_preferred_mfa_index, next. now rewrite Hpicked. }
  rewrite run_bind, Hrun. rewrite run_bind, Hindex. cbn [lift ret].
  rewrite run_bind. cbn [Py.getitem]. rewrite Hlinks.
  cbn [rbind Py.getitem]. rewrite Hverify. cbn [rbind Py.getitem].
  rewrite Hhref, Hft, Hprov, Hprof. mrun. cbn [as_url]. mrun.
  erewrite HTTP_post_json_body by (exact Hreplies || exact Hchallenge).
  cbn [Py.getitem]. rewrite Hsf. cbn [rbind Py.getitem]. rewrite Hce.
  cbn [rbind Py.getitem]. rewrite Hfa. mrun.
  unfold mfa_provider_type. cbn [Py.get]. rewrite Hsf.
  cbn [default from_option id rbind Py.get]. rewrite Hce.
  cbn [default from_option id rbind Py.get]. rewrite Hfat.
  cbn [default from_option id]. mrun.
  assert (Py.eq_str mfa_provider "DUO" = false) as ->
    by (destruct Hprovider as [-> | ->]; reflexivity).
  assert (Py.eq_str mfa_provider "OKTA" && Py.eq_str factor_type "push"
          = false) as ->
    by (destruct Htype as [-> | ->]; apply andb_false_r).
  assert ((Py.eq_str mfa_provider "OKTA"
           || Py.eq_str mfa_provider "GOOGLE")
          && (Py.eq_str factor_type "token:software:totp"
              || Py.eq_str factor_type "sms") = true) as ->
    by (destruct Hprovider as [-> | ->], Htype as [-> | ->]; reflexivity).
  unfold totp_approval. cbn [Py.getitem]. rewrite Hft, Hst. mrun.
  rewrite (run_config_get _ _ _ c) by exact Hconfig. rewrite Hcode. mrun.
  rewrite (run_config_get _ _ _ c) by exact Hconfig. rewrite Hcode.
  cbn [opt_json as_url]. mrun.
  erewrite HTTP_post_json_body by (reflexivity || exact Hverified).
  cbn [Py.contains lift]. rewrite (has_key_true _ _ _ Htok). mrun.
  cbn [Py.getitem]. rewrite Htok. mrun.
  unfold session_token_of. cbn [Py.contains lift Py.getitem].
  rewrite (has_key_true _ _ _ Htok), Htok. mrun.
  unfold answered, after, challenge_request, totp_request.
  destruct w; cbn. rewrite <- !app_assoc. reflexivity.
Qed.

Lemma mfa_challenge_sends_code_witness :
  let url := "https://acme.okta.com/api/v1/authn/factors/sms2/verify" in
  let hd : gmap string string := dict [("accept", "application/json")] in
  mfa_challenge (sample_env []) 0%nat hd mfa_required code_world
  = (Done (JStr "20111abc"),
     with_picked []
       (answered code_world []
          [ Sent (challenge_request url hd (JStr "00abc") (JStr "sms")
                    (JStr "OKTA")
                    (JDict (dict [("phoneNumber", JStr "+1 555")])));
            Sent (totp_request url hd (JStr "00abc") "123456");
            Masked (JStr "20111abc") ])).
Proof.
  refine (mfa_challenge_sends_code
            (sample_env []) 0%nat (dict [("accept", "application/json")])
            (dict [ ("status", JStr "MFA_REQUIRED");
                    ("stateToken", JStr "00abc");
                    ("_embedded",
                     JDict (dict [("factors", JList [sms_factor])])) ])
            code_world (set_mfa_response (Some "123456") sample_config)
            [sms_factor] ["OKTA_sms_sms2"] 0 []
            (dict [ ("id", JStr "sms2"); ("factorType", JStr "sms");
                    ("provider", JStr "OKTA");
                    ("profile",
                     JDict (dict [("phoneNumber", JStr "+1 555")]));
                    ("_links",
                     JDict (dict [("verify",
                       JDict (dict [("href",
                         JStr "https://acme.okta.com/api/v1/authn/factors/sms2/verify")]))])) ])
            "https://acme.okta.com/api/v1/authn/factors/sms2/verify"
            "123456" (JStr "00abc") (JStr "sms") (JStr "OKTA")
            (JDict (dict [("phoneNumber", JStr "+1 555")]))
            (JStr "OKTA") (JStr "sms") (JStr "20111abc")
            (document sms_challenge) (document (JDict approved)) []
            (dict [ ("status", JStr "MFA_CHALLENGE");
                    ("_embedded", JDict (dict [("factor", sms_factor)])) ])
            approved
            eq_refl eq_refl eq_refl _ eq_refl eq_refl eq_refl _ eq_refl
            eq_refl _ (or_introl eq_refl) (or_intror eq_refl) eq_refl
            eq_refl).
  - split; [eexists; split; reflexivity | reflexivity].
  - split; [do 2 eexists; repeat split; reflexivity|].
    repeat split; reflexivity.
  - do 2 eexists. repeat split; reflexivity.
Defined.
